(** * Socratic tutoring application: the dialogue controller, the oracle
      adapter and the thinking score

    A shallow embedding of

    - [src/services/gemini.ts]: the post-processing that [evaluateResponse]
      and [generateExplanation] apply to the text the generative model
      returns;
    - [backend/src/utils/progressCalculator.ts]: [calculateThinkingScore],
      over IEEE 754 binary64 numbers;
    - [src/components/LearningInterface.tsx]: the state of the component
      (one field per [useState] hook), its handlers, the timers they start
      and the transition system they induce.

    Strings are sequences of code units; the model keeps the code units
    below 256 (Latin-1), on which [trim], [toLowerCase] and the regular
    expressions of the source are written out below. *)

From Stdlib Require Import ZArith List Bool Lia String Ascii.
From Stdlib Require Import Floats.SpecFloat DecimalString.
Import ListNotations.

Local Open Scope string_scope.
Local Open Scope Z_scope.

(** ** Results of fallible code

    A JavaScript function that may [throw new Error(msg)] returns
    [Err msg]; a rejected promise is an [Err] too. *)

Inductive result (A : Type) : Type :=
| Ok (a : A)
| Err (message : string).

Arguments Ok {A} a.
Arguments Err {A} message.

Definition bind {A B : Type} (r : result A) (k : A -> result B) : result B :=
  match r with
  | Ok a => k a
  | Err m => Err m
  end.

Notation "x <- r ;; k" := (bind r (fun x => k))
  (at level 61, r at next level, right associativity).

(** [try { body } catch (error) { throw new Error(prefix + error.message) }] *)
Definition rethrow {A : Type} (prefix : string) (r : result A) : result A :=
  match r with
  | Ok a => Ok a
  | Err m => Err (prefix ++ m)
  end.

(** ** JavaScript strings *)

Module JsString.

Definition code (c : ascii) : N := N_of_ascii c.

(** WhiteSpace and LineTerminator code units below 256: TAB, LF, VT, FF,
    CR, SP and NBSP.  They are what [trim] and the class [\s] remove. *)
Definition isWhiteSpace (c : ascii) : bool :=
  let n := code c in
  (((9 <=? n) && (n <=? 13)) || (n =? 32) || (n =? 160))%N.

Fixpoint trimStart (s : string) : string :=
  match s with
  | EmptyString => EmptyString
  | String c s' => if isWhiteSpace c then trimStart s' else s
  end.

Definition isEmpty (s : string) : bool :=
  match s with
  | EmptyString => true
  | String _ _ => false
  end.

Fixpoint trimEnd (s : string) : string :=
  match s with
  | EmptyString => EmptyString
  | String c s' =>
      let t := trimEnd s' in
      if isWhiteSpace c && isEmpty t then EmptyString else String c t
  end.

Definition trim (s : string) : string := trimEnd (trimStart s).

(** [s.length] *)
Definition length (s : string) : Z := Z.of_nat (String.length s).

(** [toLowerCase] on one code unit: A-Z, and the Latin-1 capitals
    U+00C0..U+00DE without the multiplication sign U+00D7. *)
Definition toLowerChar (c : ascii) : ascii :=
  let n := code c in
  if (((65 <=? n) && (n <=? 90))
      || ((192 <=? n) && (n <=? 222) && negb (n =? 215)))%N
  then ascii_of_N (n + 32)
  else c.

Fixpoint toLowerCase (s : string) : string :=
  match s with
  | EmptyString => EmptyString
  | String c s' => String (toLowerChar c) (toLowerCase s')
  end.

(** [s.startsWith(p)] *)
Fixpoint startsWith (p s : string) : bool :=
  match p, s with
  | EmptyString, _ => true
  | String a p', String b s' => Ascii.eqb a b && startsWith p' s'
  | String _ _, EmptyString => false
  end.

(** [s.includes(sub)] *)
Fixpoint includes (s sub : string) : bool :=
  startsWith sub s
  || match s with
     | EmptyString => false
     | String _ s' => includes s' sub
     end.

(** [s.substring(n)] for [0 <= n] *)
Fixpoint drop (n : nat) (s : string) : string :=
  match n, s with
  | O, _ => s
  | S n', String _ s' => drop n' s'
  | S _, EmptyString => EmptyString
  end.

(** A pattern of ASCII letters under the flag [i] at the start of [s]. *)
Fixpoint startsWithIgnoreCase (p s : string) : bool :=
  match p, s with
  | EmptyString, _ => true
  | String a p', String b s' =>
      Ascii.eqb (toLowerChar a) (toLowerChar b) && startsWithIgnoreCase p' s'
  | String _ _, EmptyString => false
  end.

(** Every code unit is white space (used to characterise [trim]). *)
Fixpoint allWhiteSpace (s : string) : bool :=
  match s with
  | EmptyString => true
  | String c s' => isWhiteSpace c && allWhiteSpace s'
  end.

(** [!s]: the empty string is the only falsy string. *)
Definition falsy (s : string) : bool := isEmpty s.

End JsString.

Import JsString.

(** ** [src/services/gemini.ts] *)

Module Gemini.

Inductive QualityLevel : Type := strong | partial | needs_work.

Definition quality_eqb (a b : QualityLevel) : bool :=
  match a, b with
  | strong, strong | partial, partial | needs_work, needs_work => true
  | _, _ => false
  end.

Record ResponseEvaluation : Type := {
  quality : QualityLevel;
  feedback : string
}.

(** What [JSON.parse] returns. *)
#[warnings="-register-all"] Inductive json : Type :=
| JNull
| JBool (b : bool)
| JNumber (x : spec_float)
| JString (s : string)
| JArray (items : list json)
| JObject (fields : list (string * json)).

(** [v.key]: reading a property of [null] throws a TypeError, of an object
    gives the field or [undefined] ([None]); the other values have no
    property called [quality] or [feedback]. *)
Fixpoint lookup (key : string) (fields : list (string * json)) : option json :=
  match fields with
  | [] => None
  | (k, v) :: rest => if String.eqb k key then Some v else lookup key rest
  end.

Definition typeErrorMessage (key : string) : string :=
  "Cannot read properties of null (reading '" ++ key ++ "')".

Definition getProp (v : json) (key : string) : result (option json) :=
  match v with
  | JNull => Err (typeErrorMessage key)
  | JObject fields => Ok (lookup key fields)
  | _ => Ok None
  end.

Definition isZeroOrNaN (x : spec_float) : bool :=
  match x with
  | S754_zero _ | S754_nan => true
  | _ => false
  end.

(** [!v] for a property that was read. *)
Definition falsyProp (v : option json) : bool :=
  match v with
  | None | Some JNull => true
  | Some (JBool b) => negb b
  | Some (JNumber x) => isZeroOrNaN x
  | Some (JString s) => falsy s
  | Some (JArray _) | Some (JObject _) => false
  end.

(** [['strong', 'partial', 'needs_work'].includes(v)] *)
Definition qualityOf (v : option json) : option QualityLevel :=
  match v with
  | Some (JString s) =>
      if String.eqb s "strong" then Some strong
      else if String.eqb s "partial" then Some partial
      else if String.eqb s "needs_work" then Some needs_work
      else None
  | _ => None
  end.

(** *** The fenced block

    [jsonText.match(/```(?:json)?\s*(\{[\s\S]*\})\s*```/)]: the leftmost
    opening fence after which, an optional [json] and white space
    skipped, a brace opens; the capture runs to the last closing brace
    that only white space separates from a closing fence. *)

Definition fence : string := "```".

Definition closesFence (rest : string) : bool :=
  startsWith fence (trimStart rest).

Definition isCloseBrace (c : ascii) : bool := Ascii.eqb c "}"%char.
Definition isOpenBrace (c : ascii) : bool := Ascii.eqb c "{"%char.

Fixpoint lastClose (b : string) : option string :=
  match b with
  | EmptyString => None
  | String c b' =>
      match lastClose b' with
      | Some cap => Some (String c cap)
      | None =>
          if isCloseBrace c && closesFence b'
          then Some (String c EmptyString)
          else None
      end
  end.

Definition fencedBody (r : string) : option string :=
  match trimStart r with
  | String c b =>
      if isOpenBrace c
      then option_map (String c) (lastClose b)
      else None
  | EmptyString => None
  end.

Definition fenceAt (s : string) : option string :=
  if startsWith fence s then
    let r := drop 3 s in
    if startsWith "json" r then
      match fencedBody (drop 4 r) with
      | Some cap => Some cap
      | None => fencedBody r
      end
    else fencedBody r
  else None.

Fixpoint matchFence (s : string) : option string :=
  match fenceAt s with
  | Some cap => Some cap
  | None =>
      match s with
      | EmptyString => None
      | String _ s' => matchFence s'
      end
  end.

(** [let jsonText = text.trim(); if (jsonMatch) jsonText = jsonMatch[1]] *)
Definition jsonTextOf (text : string) : string :=
  let jsonText := trim text in
  match matchFence jsonText with
  | Some cap => cap
  | None => jsonText
  end.

(** [typeof t === 'string' && t.length > 0] *)
Definition nonEmptyString (v : json) : bool :=
  match v with
  | JString t => 0 <? JsString.length t
  | _ => false
  end.

(** [analysis.topics.filter((t) => typeof t === 'string' && t.length > 0)]
    of [analyzePDFContent]: the topic list the learning page receives. *)
Fixpoint keepStrings (items : list json) : list string :=
  match items with
  | [] => []
  | JString t :: rest =>
      if 0 <? JsString.length t then t :: keepStrings rest
      else keepStrings rest
  | _ :: rest => keepStrings rest
  end.

(** *** Validation shared by the adapters

    [difficultyLevel] is an integer here, so that [Number.isInteger]
    holds of it. *)

Definition validateInputs (question userAnswer pdfContent : string)
    (difficultyLevel : Z) : result unit :=
  if isEmpty (trim question) then Err "Question is empty"
  else if isEmpty (trim userAnswer) then Err "User answer is empty"
  else if isEmpty (trim pdfContent) then Err "PDF content is empty"
  else if (difficultyLevel <? 1) || (4 <? difficultyLevel)
  then Err "Difficulty level must be an integer between 1 and 4"
  else Ok tt.

(** *** [evaluateResponse] *)

Definition explanationPhrases : list string :=
  [ "the answer is"; "the correct answer"; "this is because";
    "it is"; "they are"; "this means" ].

Definition hasExplanation (feedback : string) : bool :=
  let feedbackLower := toLowerCase feedback in
  existsb (fun phrase => includes feedbackLower phrase) explanationPhrases.

Definition explorePrefix : string := "Let's explore this further. ".

Section WithJsonParse.

(** [JSON.parse]: a value, or a SyntaxError with its message. *)
Variable JSON_parse : string -> result json.

(** The body of the inner [try]: from the parsed value to the
    evaluation that is returned. *)
Definition checkEvaluation (evaluation : json) : result ResponseEvaluation :=
  q <- getProp evaluation "quality" ;;
  match (if falsyProp q then None else qualityOf q) with
  | None => Err "Invalid quality value in response"
  | Some ql =>
      f <- getProp evaluation "feedback" ;;
      match f with
      | Some (JString fb) =>
          if falsy fb then Err "Invalid feedback in response"
          else
            let fb' := if hasExplanation fb then explorePrefix ++ fb else fb in
            Ok {| quality := ql; feedback := trim fb' |}
      | _ => Err "Invalid feedback in response"
      end
  end.

Definition parseEvaluation (text : string) : result ResponseEvaluation :=
  rethrow "Failed to parse evaluation response: "
    (evaluation <- JSON_parse (jsonTextOf text) ;; checkEvaluation evaluation).

(** [reply] is what [model.generateContent(prompt)] and
    [response.text()] give, or the error of the client or of the call. *)
Definition evaluateResponse (question userAnswer pdfContent : string)
    (difficultyLevel : Z) (reply : result string)
  : result ResponseEvaluation :=
  rethrow "Failed to evaluate response: "
    (_ <- validateInputs question userAnswer pdfContent difficultyLevel ;;
     raw <- reply ;;
     parseEvaluation (trim raw)).

End WithJsonParse.

(** A parsed reply, for the examples: [partial] with the feedback [fb]. *)
Definition sampleEvaluation (fb : string) : json :=
  JObject [("quality", JString "partial"); ("feedback", JString fb)].

(** *** [generateExplanation] *)

Definition isQuote (c : ascii) : bool :=
  (code c =? 34)%N || (code c =? 39)%N.

(** [.replace(/^(Explanation|Response|Answer):\s*/i, '')] *)
Definition stripLabel (labels : list string) (s : string) : string :=
  match find (fun l => startsWithIgnoreCase (l ++ ":") s) labels with
  | Some l => trimStart (drop (String.length l + 1) s)
  | None => s
  end.

Definition dropLeadingQuote (s : string) : string :=
  match s with
  | String c s' => if isQuote c then s' else s
  | EmptyString => s
  end.

Fixpoint dropTrailingQuote (s : string) : string :=
  match s with
  | EmptyString => EmptyString
  | String c EmptyString => if isQuote c then EmptyString else s
  | String c s' => String c (dropTrailingQuote s')
  end.

(** [.replace(/^["']|["']$/g, '')] *)
Definition stripQuotes (s : string) : string :=
  dropTrailingQuote (dropLeadingQuote s).

Definition cleanExplanation (s : string) : string :=
  trim (stripQuotes (stripLabel ["Explanation"; "Response"; "Answer"] s)).

Definition encouragementPhrase : string := "Ready for the next question?".

Definition ensureEncouragement (explanation : string) : string :=
  if negb (includes (toLowerCase explanation) (toLowerCase encouragementPhrase))
  then explanation ++ " " ++ encouragementPhrase
  else explanation.

Definition generateExplanation (question userAnswer pdfContent : string)
    (difficultyLevel : Z) (reply : result string) : result string :=
  rethrow "Failed to generate explanation: "
    (_ <- validateInputs question userAnswer pdfContent difficultyLevel ;;
     raw <- reply ;;
     let explanation := trim raw in
     if falsy explanation then Err "Generated explanation is empty"
     else Ok (ensureEncouragement (cleanExplanation explanation))).

(** *** The other adapters

    The conversation history, the topic and the student's answer of a hint
    only enter the prompt; the adapters below take the arguments that are
    validated and the reply of the model. *)

Definition isDigit (c : ascii) : bool :=
  ((48 <=? code c) && (code c <=? 57))%N.

Fixpoint dropDigits (s : string) : string :=
  match s with
  | EmptyString => EmptyString
  | String c s' => if isDigit c then dropDigits s' else s
  end.

(** [\d+] at the start of [s]: what follows the digits. *)
Definition afterDigits (s : string) : option string :=
  match s with
  | String c _ => if isDigit c then Some (dropDigits s) else None
  | EmptyString => None
  end.

(** A literal of the pattern, under the flag [i], at the start of [s]:
    what follows it. *)
Definition afterLiteral (lit s : string) : option string :=
  if startsWithIgnoreCase lit s then Some (drop (String.length lit) s) else None.

Definition andAfter (a : option string) (k : string -> option string)
  : option string :=
  match a with
  | Some rest => k rest
  | None => None
  end.

Definition firstOf (a b : option string) : option string :=
  match a with
  | Some _ => a
  | None => b
  end.

(** [s.endsWith(c)] for a single character. *)
Fixpoint lastChar (s : string) : option ascii :=
  match s with
  | EmptyString => None
  | String c EmptyString => Some c
  | String _ s' => lastChar s'
  end.

Definition endsWithChar (c : ascii) (s : string) : bool :=
  match lastChar s with
  | Some d => Ascii.eqb c d
  | None => false
  end.

(** Validation of [generateSocraticQuestion] and [generateIntroExplanation]. *)
Definition validateContent (pdfContent : string) (difficultyLevel : Z)
  : result unit :=
  if isEmpty (trim pdfContent) then Err "PDF content is empty"
  else if (difficultyLevel <? 1) || (4 <? difficultyLevel)
  then Err "Difficulty level must be an integer between 1 and 4"
  else Ok tt.

(** *** [generateSocraticQuestion] *)

(** [/^(Question|Q:|Q\d+:)\s*/i]: the first alternative that matches. *)
Definition afterQuestionLabel (s : string) : option string :=
  firstOf (afterLiteral "Question" s)
    (firstOf (afterLiteral "Q:" s)
       (andAfter (afterLiteral "Q" s) (fun rest =>
          andAfter (afterDigits rest) (afterLiteral ":")))).

Definition stripQuestionLabel (s : string) : string :=
  match afterQuestionLabel s with
  | Some rest => trimStart rest
  | None => s
  end.

Definition cleanQuestion (s : string) : string :=
  trim (stripQuotes (stripQuestionLabel s)).

Definition ensureQuestionMark (cleanedQuestion : string) : string :=
  if negb (endsWithChar "?" cleanedQuestion)
     && negb (endsWithChar "." cleanedQuestion)
  then cleanedQuestion ++ "?"
  else cleanedQuestion.

Definition generateSocraticQuestion (pdfContent : string) (difficultyLevel : Z)
    (reply : result string) : result string :=
  rethrow "Failed to generate Socratic question: "
    (_ <- validateContent pdfContent difficultyLevel ;;
     raw <- reply ;;
     let question := trim raw in
     if falsy question then Err "Generated question is empty"
     else Ok (ensureQuestionMark (cleanQuestion question))).

(** *** [generateIntroExplanation] *)

Definition cleanIntro (s : string) : string :=
  trim (stripQuotes
          (stripLabel ["Introduction"; "Intro"; "Explanation"; "Response"] s)).

Definition transitionPhrases : list string :=
  ["question"; "explore"; "dive"; "let's"].

Definition transitionSentence : string :=
  " Let's explore this further through some questions.".

Definition ensureTransition (explanation : string) : string :=
  let hasTransition :=
    existsb (fun phrase => includes (toLowerCase explanation) phrase)
      transitionPhrases in
  if negb hasTransition || negb (includes (toLowerCase explanation) "question")
  then explanation ++ transitionSentence
  else explanation.

Definition generateIntroExplanation (pdfContent : string) (difficultyLevel : Z)
    (reply : result string) : result string :=
  rethrow "Failed to generate intro explanation: "
    (_ <- validateContent pdfContent difficultyLevel ;;
     raw <- reply ;;
     let explanation := trim raw in
     if falsy explanation then Err "Generated intro explanation is empty"
     else Ok (ensureTransition (cleanIntro explanation))).

(** *** [generateHint] *)

Definition validateHint (question : string) (hintNumber : Z)
    (pdfContent : string) (difficultyLevel : Z) : result unit :=
  if isEmpty (trim question) then Err "Question is empty"
  else if (hintNumber <? 1) || (3 <? hintNumber)
  then Err "Hint number must be 1, 2, or 3"
  else if isEmpty (trim pdfContent) then Err "PDF content is empty"
  else if (difficultyLevel <? 1) || (4 <? difficultyLevel)
  then Err "Difficulty level must be an integer between 1 and 4"
  else Ok tt.

(** The prefix pattern of a hint, followed by a colon: [Hint] or [Hint]
    and a number.  Its two other alternatives spell the light bulb with
    code units above 255, which no string of this model holds. *)
Definition afterHintLabel (s : string) : option string :=
  firstOf (andAfter (afterLiteral "Hint" s) (afterLiteral ":"))
    (andAfter (afterLiteral "Hint " s) (fun rest =>
       andAfter (afterDigits rest) (afterLiteral ":"))).

Definition stripHintLabel (s : string) : string :=
  match afterHintLabel s with
  | Some rest => trimStart rest
  | None => s
  end.

Definition cleanHint (s : string) : string :=
  trim (stripQuotes (stripHintLabel s)).

Definition generateHint (question : string) (hintNumber : Z)
    (pdfContent : string) (difficultyLevel : Z) (reply : result string)
  : result string :=
  rethrow "Failed to generate hint: "
    (_ <- validateHint question hintNumber pdfContent difficultyLevel ;;
     raw <- reply ;;
     let hint := trim raw in
     if falsy hint then Err "Generated hint is empty"
     else Ok (cleanHint hint)).

(** *** [analyzePDFContent] *)

Record PDFAnalysisResult : Type := {
  analysis_topics : list string;
  analysis_concepts : list string
}.

Section WithJsonParseAnalysis.

Variable JSON_parse : string -> result json.

(** The validation of the parsed value and the two filters. *)
Definition checkAnalysis (analysis : json) : result PDFAnalysisResult :=
  t <- getProp analysis "topics" ;;
  match t with
  | Some (JArray ts) =>
      c <- getProp analysis "concepts" ;;
      match c with
      | Some (JArray cs) =>
          Ok {| analysis_topics := keepStrings ts;
                analysis_concepts := keepStrings cs |}
      | _ => Err "Invalid response structure from API"
      end
  | _ => Err "Invalid response structure from API"
  end.

Definition analyzePDFContent (pdfText : string) (reply : result string)
  : result PDFAnalysisResult :=
  rethrow "Failed to analyze PDF content: "
    (if isEmpty (trim pdfText) then Err "PDF text content is empty"
     else
       raw <- reply ;;
       rethrow "Failed to parse analysis response: "
         (analysis <- JSON_parse (jsonTextOf raw) ;; checkAnalysis analysis)).

End WithJsonParseAnalysis.

(** No backtick in a text. *)
Fixpoint noBacktick (s : string) : bool :=
  match s with
  | EmptyString => true
  | String c s' => negb (Ascii.eqb c "`"%char) && noBacktick s'
  end.

(** A line feed, for the examples. *)
Definition newline : string := String "010" EmptyString.

End Gemini.

(** ** JavaScript numbers

    IEEE 754 binary64 with round to nearest, ties to even, as
    [spec_float] at precision 53 and maximal exponent 1024. *)

Module JsNumber.

Definition number : Type := spec_float.

Definition prec : Z := 53.
Definition emax : Z := 1024.

(** The number an integer literal denotes. *)
Definition ofZ (z : Z) : number := binary_normalize prec emax z 0 false.

Definition add (x y : number) : number := SFadd prec emax x y.
Definition sub (x y : number) : number := SFsub prec emax x y.
Definition mul (x y : number) : number := SFmul prec emax x y.
Definition div (x y : number) : number := SFdiv prec emax x y.

(** [x < y], [x > y], [x <= y], [x >= y]: false as soon as an operand
    is NaN. *)
Definition lt (x y : number) : bool := SFltb x y.
Definition gt (x y : number) : bool := SFltb y x.
Definition le (x y : number) : bool := SFleb x y.
Definition ge (x y : number) : bool := SFleb y x.

(** [!!x] *)
Definition truthy (x : number) : bool :=
  match x with
  | S754_zero _ | S754_nan => false
  | _ => true
  end.

Definition isNaN (x : number) : bool :=
  match x with
  | S754_nan => true
  | _ => false
  end.

(** [Math.min(x, y)] and [Math.max(x, y)]: NaN if an operand is NaN;
    -0 is below +0. *)
Definition Math_min (x y : number) : number :=
  if isNaN x || isNaN y then S754_nan
  else match x, y with
       | S754_zero sx, S754_zero sy => S754_zero (sx || sy)
       | _, _ => if SFltb y x then y else x
       end.

Definition Math_max (x y : number) : number :=
  if isNaN x || isNaN y then S754_nan
  else match x, y with
       | S754_zero sx, S754_zero sy => S754_zero (sx && sy)
       | _, _ => if SFltb x y then y else x
       end.

(** [Math.round(x)]: the integer nearest to [x], a tie going up; NaN,
    the infinities, the zeros and the integers are returned as they
    are, and a result that is zero keeps the sign of [x]. *)
Definition Math_round (x : number) : number :=
  match x with
  | S754_finite s m (Zneg k) =>
      let half := Z.pow 2 (Zpos k) in
      let n := Z.div (Z.add (Z.mul 2 (if s then Zneg m else Zpos m)) half)
                     (Z.mul 2 half) in
      binary_normalize prec emax n 0 s
  | _ => x
  end.

End JsNumber.

(** ** [backend/src/utils/progressCalculator.ts] *)

Module ProgressCalculator.

Import JsNumber.

Definition n0 : number := Eval cbv in ofZ 0.
Definition n1 : number := Eval cbv in ofZ 1.
Definition n2 : number := Eval cbv in ofZ 2.
Definition n5 : number := Eval cbv in ofZ 5.
Definition n10 : number := Eval cbv in ofZ 10.
Definition n15 : number := Eval cbv in ofZ 15.
Definition n20 : number := Eval cbv in ofZ 20.
Definition n60 : number := Eval cbv in ofZ 60.
Definition n100 : number := Eval cbv in ofZ 100.

(** The branch on the average time per question. *)
Definition timeBonusOfAverage (avgTimePerQuestion : number) : number :=
  if ge avgTimePerQuestion n2 && le avgTimePerQuestion n5 then n20
  else if lt avgTimePerQuestion n2 then n10
  else if le avgTimePerQuestion n10 then n15
  else n5.

(** [timeSpentMinutes] is optional ([None] is [undefined]);
    [totalQuestions] defaults to 1 when it is not passed. *)
Definition calculateThinkingScore (correctAnswers hintsUsed : number)
    (timeSpentMinutes : option number) (totalQuestionsArg : option number)
  : number :=
  let totalQuestions :=
    match totalQuestionsArg with Some n => n | None => n1 end in
  let correctnessScore :=
    if gt totalQuestions n0
    then mul (div correctAnswers totalQuestions) n60
    else n0 in
  let hintsPenalty := Math_min (mul hintsUsed n2) n20 in
  let timeBonus :=
    match timeSpentMinutes with
    | Some t =>
        if truthy t && gt t n0 && gt totalQuestions n0
        then timeBonusOfAverage (div t totalQuestions)
        else n10
    | None => n10
    end in
  let score :=
    Math_max n0 (Math_min n100 (add (sub correctnessScore hintsPenalty) timeBonus)) in
  div (Math_round (mul score n10)) n10.

(** The correctness part and the time that counts, as the code has them:
    named to state what the score is made of. *)
Definition correctnessPart (correctAnswers totalQuestions : number) : number :=
  if gt totalQuestions n0
  then mul (div correctAnswers totalQuestions) n60
  else n0.

Definition timed (timeSpentMinutes : option number) (totalQuestions : number)
  : option number :=
  match timeSpentMinutes with
  | Some t => if gt t n0 && gt totalQuestions n0 then Some t else None
  | None => None
  end.

(** *** The score as the specification words it

    Written from the sentence of the specification, to be compared with
    [calculateThinkingScore]: the correctness part is 0 when
    [totalQuestions] is 0; the time bonus is 10 without time data and is
    otherwise read off the average [timeSpentMinutes / totalQuestions]
    ([None] when the average is in none of the four ranges). *)
Definition claimedCorrectness (correctAnswers totalQuestions : number)
  : number :=
  if SFeqb totalQuestions n0 then n0
  else mul (div correctAnswers totalQuestions) n60.

Definition claimedTimeBonus (timeSpentMinutes : option number)
    (totalQuestions : number) : option number :=
  match timeSpentMinutes with
  | None => Some n10
  | Some t =>
      let avg := div t totalQuestions in
      if ge avg n2 && le avg n5 then Some n20
      else if lt avg n2 then Some n10
      else if gt avg n5 && le avg n10 then Some n15
      else if gt avg n10 then Some n5
      else None
  end.

(** Clamped to [0, 100] and rounded to one decimal place. *)
Definition clampAndRound (raw : number) : number :=
  div (Math_round (mul (Math_max n0 (Math_min n100 raw)) n10)) n10.

Definition claimedThinkingScore (correctAnswers hintsUsed : number)
    (timeSpentMinutes : option number) (totalQuestions : number)
  : option number :=
  option_map
    (fun timeBonus =>
       clampAndRound
         (add (sub (claimedCorrectness correctAnswers totalQuestions)
                   (Math_min (mul hintsUsed n2) n20))
              timeBonus))
    (claimedTimeBonus timeSpentMinutes totalQuestions).

(** *** [calculateTimeSpent]

    [startDate] and [endDate] stand for the two [getTime()] values: the
    milliseconds since the epoch, NaN for an invalid date.  [endDate]
    is always passed: its default is the time of the call. *)
Definition calculateTimeSpent (startDate endDate : number) : number :=
  let diffMs := sub endDate startDate in
  div diffMs (mul (ofZ 1000) (ofZ 60)).

End ProgressCalculator.

(** ** [src/components/LearningInterface.tsx] *)

Module LearningInterface.

Export Gemini.

Local Open Scope list_scope.

(** [ConversationMessage] of [gemini.ts]. *)
Inductive Role : Type := user | assistant.
Inductive TurnType : Type := question | answer | explanation.

Record ConversationMessage : Type := {
  role : Role;
  content : string;
  type : TurnType
}.

(** [Message]; [id] and [timestamp] are read from the clock and are
    left out. *)
Inductive MessageType : Type := ai_question | user_answer | ai_explanation.

Record Message : Type := {
  msg_type : MessageType;
  msg_content : string
}.

(** What the component receives through the navigation state. *)
Record Props : Type := {
  pdfContent : string;
  topics : list string
}.

(** *** Renders and closures

    The handlers are closures of one render: they read the values the
    state had at that render, whatever has been set since.  [Render]
    holds the values they read. *)
Record Render : Type := {
  r_currentQuestionText : string;
  r_currentQuestionNumber : Z;
  r_currentAttempts : Z;
  r_hintsUsed : Z;
  r_conversationHistory : list ConversationMessage;
  r_currentDifficulty : Z;
  r_userAnswer : string;
  r_hasShownIntro : bool
}.

(** [lastErrorAction]: [retryAction] of [showIntroExplanation] or of
    [generateNextQuestion], with the render it closes over. *)
Inductive RetryAction : Type :=
| RetryIntro (r : Render)
| RetryQuestion (r : Render).

Record State : Type := {
  currentQuestionText : string;
  currentQuestionNumber : Z;
  currentAttempts : Z;
  hintsUsed : Z;
  conversationHistory : list ConversationMessage;
  isLoading : bool;
  showHintButton : bool;
  currentDifficulty : Z;
  recentQualities : list QualityLevel;
  messages : list Message;
  userAnswer : string;
  error : option string;
  difficultyChanged : bool;
  exploredTopics : list string;
  lastErrorAction : option RetryAction;
  hasShownIntro : bool
}.

(** The setters: [setX v] stores [v], [updX f] is [setX(prev => f prev)]. *)

Definition updCurrentQuestionText (f : string -> string) (st : State) : State :=
  {| currentQuestionText := f (currentQuestionText st);
     currentQuestionNumber := currentQuestionNumber st;
     currentAttempts := currentAttempts st;
     hintsUsed := hintsUsed st;
     conversationHistory := conversationHistory st;
     isLoading := isLoading st;
     showHintButton := showHintButton st;
     currentDifficulty := currentDifficulty st;
     recentQualities := recentQualities st;
     messages := messages st;
     userAnswer := userAnswer st;
     error := error st;
     difficultyChanged := difficultyChanged st;
     exploredTopics := exploredTopics st;
     lastErrorAction := lastErrorAction st;
     hasShownIntro := hasShownIntro st |}.

Definition setCurrentQuestionText (v : string) : State -> State :=
  updCurrentQuestionText (fun _ => v).

Definition updCurrentQuestionNumber (f : Z -> Z) (st : State) : State :=
  {| currentQuestionText := currentQuestionText st;
     currentQuestionNumber := f (currentQuestionNumber st);
     currentAttempts := currentAttempts st;
     hintsUsed := hintsUsed st;
     conversationHistory := conversationHistory st;
     isLoading := isLoading st;
     showHintButton := showHintButton st;
     currentDifficulty := currentDifficulty st;
     recentQualities := recentQualities st;
     messages := messages st;
     userAnswer := userAnswer st;
     error := error st;
     difficultyChanged := difficultyChanged st;
     exploredTopics := exploredTopics st;
     lastErrorAction := lastErrorAction st;
     hasShownIntro := hasShownIntro st |}.

Definition setCurrentQuestionNumber (v : Z) : State -> State :=
  updCurrentQuestionNumber (fun _ => v).

Definition updCurrentAttempts (f : Z -> Z) (st : State) : State :=
  {| currentQuestionText := currentQuestionText st;
     currentQuestionNumber := currentQuestionNumber st;
     currentAttempts := f (currentAttempts st);
     hintsUsed := hintsUsed st;
     conversationHistory := conversationHistory st;
     isLoading := isLoading st;
     showHintButton := showHintButton st;
     currentDifficulty := currentDifficulty st;
     recentQualities := recentQualities st;
     messages := messages st;
     userAnswer := userAnswer st;
     error := error st;
     difficultyChanged := difficultyChanged st;
     exploredTopics := exploredTopics st;
     lastErrorAction := lastErrorAction st;
     hasShownIntro := hasShownIntro st |}.

Definition setCurrentAttempts (v : Z) : State -> State :=
  updCurrentAttempts (fun _ => v).

Definition updHintsUsed (f : Z -> Z) (st : State) : State :=
  {| currentQuestionText := currentQuestionText st;
     currentQuestionNumber := currentQuestionNumber st;
     currentAttempts := currentAttempts st;
     hintsUsed := f (hintsUsed st);
     conversationHistory := conversationHistory st;
     isLoading := isLoading st;
     showHintButton := showHintButton st;
     currentDifficulty := currentDifficulty st;
     recentQualities := recentQualities st;
     messages := messages st;
     userAnswer := userAnswer st;
     error := error st;
     difficultyChanged := difficultyChanged st;
     exploredTopics := exploredTopics st;
     lastErrorAction := lastErrorAction st;
     hasShownIntro := hasShownIntro st |}.

Definition setHintsUsed (v : Z) : State -> State :=
  updHintsUsed (fun _ => v).

Definition updConversationHistory (f : (list ConversationMessage) -> (list ConversationMessage)) (st : State) : State :=
  {| currentQuestionText := currentQuestionText st;
     currentQuestionNumber := currentQuestionNumber st;
     currentAttempts := currentAttempts st;
     hintsUsed := hintsUsed st;
     conversationHistory := f (conversationHistory st);
     isLoading := isLoading st;
     showHintButton := showHintButton st;
     currentDifficulty := currentDifficulty st;
     recentQualities := recentQualities st;
     messages := messages st;
     userAnswer := userAnswer st;
     error := error st;
     difficultyChanged := difficultyChanged st;
     exploredTopics := exploredTopics st;
     lastErrorAction := lastErrorAction st;
     hasShownIntro := hasShownIntro st |}.

Definition setConversationHistory (v : list ConversationMessage) : State -> State :=
  updConversationHistory (fun _ => v).

Definition updIsLoading (f : bool -> bool) (st : State) : State :=
  {| currentQuestionText := currentQuestionText st;
     currentQuestionNumber := currentQuestionNumber st;
     currentAttempts := currentAttempts st;
     hintsUsed := hintsUsed st;
     conversationHistory := conversationHistory st;
     isLoading := f (isLoading st);
     showHintButton := showHintButton st;
     currentDifficulty := currentDifficulty st;
     recentQualities := recentQualities st;
     messages := messages st;
     userAnswer := userAnswer st;
     error := error st;
     difficultyChanged := difficultyChanged st;
     exploredTopics := exploredTopics st;
     lastErrorAction := lastErrorAction st;
     hasShownIntro := hasShownIntro st |}.

Definition setIsLoading (v : bool) : State -> State :=
  updIsLoading (fun _ => v).

Definition updShowHintButton (f : bool -> bool) (st : State) : State :=
  {| currentQuestionText := currentQuestionText st;
     currentQuestionNumber := currentQuestionNumber st;
     currentAttempts := currentAttempts st;
     hintsUsed := hintsUsed st;
     conversationHistory := conversationHistory st;
     isLoading := isLoading st;
     showHintButton := f (showHintButton st);
     currentDifficulty := currentDifficulty st;
     recentQualities := recentQualities st;
     messages := messages st;
     userAnswer := userAnswer st;
     error := error st;
     difficultyChanged := difficultyChanged st;
     exploredTopics := exploredTopics st;
     lastErrorAction := lastErrorAction st;
     hasShownIntro := hasShownIntro st |}.

Definition setShowHintButton (v : bool) : State -> State :=
  updShowHintButton (fun _ => v).

Definition updCurrentDifficulty (f : Z -> Z) (st : State) : State :=
  {| currentQuestionText := currentQuestionText st;
     currentQuestionNumber := currentQuestionNumber st;
     currentAttempts := currentAttempts st;
     hintsUsed := hintsUsed st;
     conversationHistory := conversationHistory st;
     isLoading := isLoading st;
     showHintButton := showHintButton st;
     currentDifficulty := f (currentDifficulty st);
     recentQualities := recentQualities st;
     messages := messages st;
     userAnswer := userAnswer st;
     error := error st;
     difficultyChanged := difficultyChanged st;
     exploredTopics := exploredTopics st;
     lastErrorAction := lastErrorAction st;
     hasShownIntro := hasShownIntro st |}.

Definition setCurrentDifficulty (v : Z) : State -> State :=
  updCurrentDifficulty (fun _ => v).

Definition updRecentQualities (f : (list QualityLevel) -> (list QualityLevel)) (st : State) : State :=
  {| currentQuestionText := currentQuestionText st;
     currentQuestionNumber := currentQuestionNumber st;
     currentAttempts := currentAttempts st;
     hintsUsed := hintsUsed st;
     conversationHistory := conversationHistory st;
     isLoading := isLoading st;
     showHintButton := showHintButton st;
     currentDifficulty := currentDifficulty st;
     recentQualities := f (recentQualities st);
     messages := messages st;
     userAnswer := userAnswer st;
     error := error st;
     difficultyChanged := difficultyChanged st;
     exploredTopics := exploredTopics st;
     lastErrorAction := lastErrorAction st;
     hasShownIntro := hasShownIntro st |}.

Definition setRecentQualities (v : list QualityLevel) : State -> State :=
  updRecentQualities (fun _ => v).

Definition updMessages (f : (list Message) -> (list Message)) (st : State) : State :=
  {| currentQuestionText := currentQuestionText st;
     currentQuestionNumber := currentQuestionNumber st;
     currentAttempts := currentAttempts st;
     hintsUsed := hintsUsed st;
     conversationHistory := conversationHistory st;
     isLoading := isLoading st;
     showHintButton := showHintButton st;
     currentDifficulty := currentDifficulty st;
     recentQualities := recentQualities st;
     messages := f (messages st);
     userAnswer := userAnswer st;
     error := error st;
     difficultyChanged := difficultyChanged st;
     exploredTopics := exploredTopics st;
     lastErrorAction := lastErrorAction st;
     hasShownIntro := hasShownIntro st |}.

Definition setMessages (v : list Message) : State -> State :=
  updMessages (fun _ => v).

Definition updUserAnswer (f : string -> string) (st : State) : State :=
  {| currentQuestionText := currentQuestionText st;
     currentQuestionNumber := currentQuestionNumber st;
     currentAttempts := currentAttempts st;
     hintsUsed := hintsUsed st;
     conversationHistory := conversationHistory st;
     isLoading := isLoading st;
     showHintButton := showHintButton st;
     currentDifficulty := currentDifficulty st;
     recentQualities := recentQualities st;
     messages := messages st;
     userAnswer := f (userAnswer st);
     error := error st;
     difficultyChanged := difficultyChanged st;
     exploredTopics := exploredTopics st;
     lastErrorAction := lastErrorAction st;
     hasShownIntro := hasShownIntro st |}.

Definition setUserAnswer (v : string) : State -> State :=
  updUserAnswer (fun _ => v).

Definition updError (f : (option string) -> (option string)) (st : State) : State :=
  {| currentQuestionText := currentQuestionText st;
     currentQuestionNumber := currentQuestionNumber st;
     currentAttempts := currentAttempts st;
     hintsUsed := hintsUsed st;
     conversationHistory := conversationHistory st;
     isLoading := isLoading st;
     showHintButton := showHintButton st;
     currentDifficulty := currentDifficulty st;
     recentQualities := recentQualities st;
     messages := messages st;
     userAnswer := userAnswer st;
     error := f (error st);
     difficultyChanged := difficultyChanged st;
     exploredTopics := exploredTopics st;
     lastErrorAction := lastErrorAction st;
     hasShownIntro := hasShownIntro st |}.

Definition setError (v : option string) : State -> State :=
  updError (fun _ => v).

Definition updDifficultyChanged (f : bool -> bool) (st : State) : State :=
  {| currentQuestionText := currentQuestionText st;
     currentQuestionNumber := currentQuestionNumber st;
     currentAttempts := currentAttempts st;
     hintsUsed := hintsUsed st;
     conversationHistory := conversationHistory st;
     isLoading := isLoading st;
     showHintButton := showHintButton st;
     currentDifficulty := currentDifficulty st;
     recentQualities := recentQualities st;
     messages := messages st;
     userAnswer := userAnswer st;
     error := error st;
     difficultyChanged := f (difficultyChanged st);
     exploredTopics := exploredTopics st;
     lastErrorAction := lastErrorAction st;
     hasShownIntro := hasShownIntro st |}.

Definition setDifficultyChanged (v : bool) : State -> State :=
  updDifficultyChanged (fun _ => v).

Definition updExploredTopics (f : (list string) -> (list string)) (st : State) : State :=
  {| currentQuestionText := currentQuestionText st;
     currentQuestionNumber := currentQuestionNumber st;
     currentAttempts := currentAttempts st;
     hintsUsed := hintsUsed st;
     conversationHistory := conversationHistory st;
     isLoading := isLoading st;
     showHintButton := showHintButton st;
     currentDifficulty := currentDifficulty st;
     recentQualities := recentQualities st;
     messages := messages st;
     userAnswer := userAnswer st;
     error := error st;
     difficultyChanged := difficultyChanged st;
     exploredTopics := f (exploredTopics st);
     lastErrorAction := lastErrorAction st;
     hasShownIntro := hasShownIntro st |}.

Definition setExploredTopics (v : list string) : State -> State :=
  updExploredTopics (fun _ => v).

Definition updLastErrorAction (f : (option RetryAction) -> (option RetryAction)) (st : State) : State :=
  {| currentQuestionText := currentQuestionText st;
     currentQuestionNumber := currentQuestionNumber st;
     currentAttempts := currentAttempts st;
     hintsUsed := hintsUsed st;
     conversationHistory := conversationHistory st;
     isLoading := isLoading st;
     showHintButton := showHintButton st;
     currentDifficulty := currentDifficulty st;
     recentQualities := recentQualities st;
     messages := messages st;
     userAnswer := userAnswer st;
     error := error st;
     difficultyChanged := difficultyChanged st;
     exploredTopics := exploredTopics st;
     lastErrorAction := f (lastErrorAction st);
     hasShownIntro := hasShownIntro st |}.

Definition setLastErrorAction (v : option RetryAction) : State -> State :=
  updLastErrorAction (fun _ => v).

Definition updHasShownIntro (f : bool -> bool) (st : State) : State :=
  {| currentQuestionText := currentQuestionText st;
     currentQuestionNumber := currentQuestionNumber st;
     currentAttempts := currentAttempts st;
     hintsUsed := hintsUsed st;
     conversationHistory := conversationHistory st;
     isLoading := isLoading st;
     showHintButton := showHintButton st;
     currentDifficulty := currentDifficulty st;
     recentQualities := recentQualities st;
     messages := messages st;
     userAnswer := userAnswer st;
     error := error st;
     difficultyChanged := difficultyChanged st;
     exploredTopics := exploredTopics st;
     lastErrorAction := lastErrorAction st;
     hasShownIntro := f (hasShownIntro st) |}.

Definition setHasShownIntro (v : bool) : State -> State :=
  updHasShownIntro (fun _ => v).

Definition render (st : State) : Render :=
  {| r_currentQuestionText := currentQuestionText st;
     r_currentQuestionNumber := currentQuestionNumber st;
     r_currentAttempts := currentAttempts st;
     r_hintsUsed := hintsUsed st;
     r_conversationHistory := conversationHistory st;
     r_currentDifficulty := currentDifficulty st;
     r_userAnswer := userAnswer st;
     r_hasShownIntro := hasShownIntro st |}.

(** The initial values of the [useState] hooks. *)
Definition initialState : State :=
  {| currentQuestionText := "";
     currentQuestionNumber := 1;
     currentAttempts := 0;
     hintsUsed := 0;
     conversationHistory := [];
     isLoading := false;
     showHintButton := false;
     currentDifficulty := 1;
     recentQualities := [];
     messages := [];
     userAnswer := "";
     error := None;
     difficultyChanged := false;
     exploredTopics := [];
     lastErrorAction := None;
     hasShownIntro := false |}.

(** *** Effects *)

Inductive OracleRequest : Type :=
| Call_generateIntroExplanation (pdf : string) (difficulty : Z)
    (topic : option string)
| Call_generateSocraticQuestion (pdf : string) (difficulty : Z)
    (history : list ConversationMessage) (topic : option string)
| Call_evaluateResponse (questionText answerText pdf : string) (difficulty : Z)
| Call_generateExplanation (questionText answerText pdf : string)
    (difficulty : Z)
| Call_generateHint (questionText answerText : string) (hintNumber : Z)
    (pdf : string) (difficulty : Z).

(** The callbacks given to [setTimeout]. *)
Inductive Timer : Type :=
| NextQuestionTimer (r : Render)
| AdvanceTimer (r : Render) (celebrate : bool)
| DifficultyAnimationTimer.

Inductive ToastKind : Type := toast_success | toast_error | toast_plain.

Inductive Effect : Type :=
| OracleCall (req : OracleRequest)
| SetTimeout (t : Timer) (ms : Z)
| Toast (kind : ToastKind) (text : string)
| ConsoleError (text : string)
| Navigate (path : string).

Definition Step : Type := (State * list Effect)%type.

(** Sequencing of two parts of a handler. *)
Definition andThen (a : Step) (k : State -> Step) : Step :=
  let (st, e1) := a in
  let (st', e2) := k st in
  (st', e1 ++ e2).

Definition emit (effects : list Effect) (st : State) : Step := (st, effects).

Notation "st '|>' f" := (f st) (at level 49, left associativity, only parsing).

(** *** Topics *)

Definition topicAt (ts : list string) (i : Z) : option string :=
  if i <? 0 then None else nth_error ts (Z.to_nat i).

(** [Math.min(Math.floor((currentQuestionNumber - 1) / 3), topics.length - 1)] *)
Definition topicIndex (ts : list string) (questionNumber : Z) : Z :=
  Z.min ((questionNumber - 1) / 3) (Z.of_nat (List.length ts) - 1).

(** [a || b] on values that are a string or [undefined]. *)
Definition orElse (a b : option string) : option string :=
  match a with
  | Some s => if falsy s then b else a
  | None => b
  end.

(** The fourth argument of [generateSocraticQuestion]. *)
Definition focusTopic (ts : list string) (questionNumber : Z) : option string :=
  orElse (topicAt ts (topicIndex ts questionNumber)) (topicAt ts 0).

(** [new Set([...prev, t])] *)
Definition addTopic (t : string) (prev : list string) : list string :=
  if existsb (String.eqb t) prev then prev else prev ++ [t].

Definition markExplored (ts : list string) (questionNumber : Z) (st : State)
  : State :=
  if 0 <? Z.of_nat (List.length ts) then
    match topicAt ts (topicIndex ts questionNumber) with
    | Some currentTopic =>
        if falsy currentTopic then st
        else st |> updExploredTopics (addTopic currentTopic)
    | None => st
    end
  else st.

Definition rateLimitMessage : string :=
  "API rate limit reached. Please wait a moment and try again.".

Definition shownError (errorMessage : string) : string :=
  if includes errorMessage "rate limit" || includes errorMessage "quota"
  then rateLimitMessage
  else errorMessage.

(** *** [generateNextQuestion]

    [r] is the render whose closure runs; [reply] is what
    [generateSocraticQuestion] resolves or rejects with. *)
Definition generateNextQuestion (p : Props) (r : Render)
    (reply : result string) (st : State) : Step :=
  if falsy (pdfContent p) then (st, [])
  else
    let st1 :=
      st |> setIsLoading true
         |> setError None
         |> setLastErrorAction (Some (RetryQuestion r))
         |> markExplored (topics p) (r_currentQuestionNumber r) in
    let call :=
      OracleCall (Call_generateSocraticQuestion (pdfContent p)
                    (r_currentDifficulty r) (r_conversationHistory r)
                    (focusTopic (topics p) (r_currentQuestionNumber r))) in
    match reply with
    | Ok questionText =>
        (st1 |> setCurrentQuestionText questionText
             |> updMessages (fun prev =>
                  prev ++ [{| msg_type := ai_question;
                              msg_content := questionText |}])
             |> updConversationHistory (fun prev =>
                  prev ++ [{| role := assistant; content := questionText;
                              type := question |}])
             |> setLastErrorAction None
             |> setIsLoading false,
         [call])
    | Err errorMessage =>
        (st1 |> setError (Some (shownError errorMessage))
             |> setIsLoading false,
         [call;
          ConsoleError "Error generating question:";
          Toast toast_error
            "Failed to generate question. Click retry to try again."])
    end.

(** *** [showIntroExplanation] *)
Definition showIntroExplanation (p : Props) (r : Render)
    (reply : result string) (st : State) : Step :=
  if falsy (pdfContent p) then (st, [])
  else
    let st1 :=
      st |> setIsLoading true
         |> setError None
         |> setLastErrorAction (Some (RetryIntro r)) in
    let firstTopic :=
      if 0 <? Z.of_nat (List.length (topics p)) then topicAt (topics p) 0
      else None in
    let call :=
      OracleCall (Call_generateIntroExplanation (pdfContent p)
                    (r_currentDifficulty r) firstTopic) in
    match reply with
    | Ok introExplanation =>
        (st1 |> updMessages (fun prev =>
                  prev ++ [{| msg_type := ai_explanation;
                              msg_content := introExplanation |}])
             |> updConversationHistory (fun prev =>
                  prev ++ [{| role := assistant; content := introExplanation;
                              type := explanation |}])
             |> setHasShownIntro true
             |> setLastErrorAction None,
         [call; SetTimeout (NextQuestionTimer r) 500])
    | Err errorMessage =>
        (st1 |> setError (Some (shownError errorMessage))
             |> setIsLoading false,
         [call;
          ConsoleError "Error generating intro:";
          Toast toast_error
            "Failed to generate introduction. Click retry to try again."])
    end.

(** *** [checkAndAdjustDifficulty]

    [r] gives the [currentDifficulty] the closure reads. *)
Definition checkAndAdjustDifficulty (r : Render)
    (qualities : list QualityLevel) (st : State) : Step :=
  if Z.of_nat (List.length qualities) =? 3 then
    let allStrong := forallb (fun q => quality_eqb q strong) qualities in
    let allNeedsWork := forallb (fun q => quality_eqb q needs_work) qualities in
    if allStrong && (r_currentDifficulty r <? 4) then
      let newDifficulty := r_currentDifficulty r + 1 in
      (st |> setCurrentDifficulty newDifficulty
          |> setDifficultyChanged true
          |> setRecentQualities [],
       [Toast toast_success "Excellent! Moving to harder questions...";
        SetTimeout DifficultyAnimationTimer 1000])
    else if allNeedsWork && (1 <? r_currentDifficulty r) then
      let newDifficulty := r_currentDifficulty r - 1 in
      (st |> setCurrentDifficulty newDifficulty
          |> setDifficultyChanged true
          |> setRecentQualities [],
       [Toast toast_plain "Let's try a simpler approach...";
        SetTimeout DifficultyAnimationTimer 1000])
    else (st, [])
  else (st, []).

(** Whether [checkAndAdjustDifficulty] changes the difficulty, read at
    difficulty [d] on the window [w]. *)
Definition adjusts (d : Z) (w : list QualityLevel) : bool :=
  (Z.of_nat (List.length w) =? 3)
  && ((forallb (fun q => quality_eqb q strong) w && (d <? 4))
      || (forallb (fun q => quality_eqb q needs_work) w && (1 <? d))).

(** [updated.slice(-3)] *)
Definition lastThree {A : Type} (l : list A) : list A :=
  skipn (List.length l - 3) l.

(** The updater given to [setRecentQualities] after an evaluation.

    An updater runs when the queued update is processed, at the next
    render of the component.  The setters [checkAndAdjustDifficulty]
    calls while the updater runs are updates scheduled during that render;
    they are applied after the update being processed, on top of the
    value the updater returns.  So the window the updater returns is
    stored first and the setters of the policy apply to it.

    The toast and the timer of the policy are listed here, where the
    handler calls [setRecentQualities]; on the page they come with that
    next render, which is after the request the handler sends next.
    Their place among the requests is not used. *)
Definition pushQuality (r : Render) (q : QualityLevel) (st : State) : Step :=
  let updated := recentQualities st ++ [q] in
  let recentThree := lastThree updated in
  let st1 := st |> setRecentQualities recentThree in
  if Z.of_nat (List.length recentThree) =? 3
  then checkAndAdjustDifficulty r recentThree st1
  else (st1, []).

(** *** The 2000 ms callback that moves to the next question

    [celebrate] tells the callback of the [strong] branch, which shows a
    toast, from the one of the third attempt. *)
Definition advance (p : Props) (r : Render) (celebrate : bool)
    (reply : result string) (st : State) : Step :=
  andThen
    (st |> setCurrentAttempts 0
        |> setHintsUsed 0
        |> setShowHintButton false
        |> updCurrentQuestionNumber (fun prev => prev + 1),
     if celebrate
     then [Toast toast_success "Great job! Moving to the next question..."]
     else [])
    (generateNextQuestion p r reply).

(** *** [handleSubmitAnswer]

    [evaluation] is the outcome of [evaluateResponse]; [explained], the
    outcome of [generateExplanation], is consulted in the [strong]
    branch only. *)
Definition handleSubmitAnswer (p : Props) (r : Render)
    (evaluation : result ResponseEvaluation) (explained : result string)
    (st : State) : Step :=
  if JsString.length (trim (r_userAnswer r)) <? 20 then (st, [])
  else if falsy (r_currentQuestionText r) || falsy (pdfContent p) then (st, [])
  else
    let st1 :=
      st |> setIsLoading true
         |> setError None
         |> updMessages (fun prev =>
              prev ++ [{| msg_type := user_answer;
                          msg_content := r_userAnswer r |}])
         |> updConversationHistory (fun prev =>
              prev ++ [{| role := user; content := r_userAnswer r;
                          type := answer |}]) in
    let finally (st : State) : State :=
      st |> setIsLoading false |> setUserAnswer "" in
    let caught (errorMessage : string) (st : State) : Step :=
      (st |> setError (Some errorMessage),
       [ConsoleError "Error evaluating answer:"]) in
    let body : Step :=
      andThen
        (st1, [OracleCall (Call_evaluateResponse (r_currentQuestionText r)
                             (r_userAnswer r) (pdfContent p)
                             (r_currentDifficulty r))])
        (fun st2 =>
           match evaluation with
           | Err errorMessage => caught errorMessage st2
           | Ok ev =>
               andThen (pushQuality r (quality ev) st2)
                 (fun st3 =>
                    if quality_eqb (quality ev) strong then
                      andThen
                        (st3, [OracleCall (Call_generateExplanation
                                             (r_currentQuestionText r)
                                             (r_userAnswer r) (pdfContent p)
                                             (r_currentDifficulty r))])
                        (fun st4 =>
                           match explained with
                           | Err errorMessage => caught errorMessage st4
                           | Ok text =>
                               (st4 |> updMessages (fun prev =>
                                         prev ++ [{| msg_type := ai_explanation;
                                                     msg_content := text |}])
                                    |> updConversationHistory (fun prev =>
                                         prev ++ [{| role := assistant;
                                                     content := text;
                                                     type := explanation |}]),
                                [SetTimeout (AdvanceTimer r true) 2000])
                           end)
                    else
                      let newAttempts := r_currentAttempts r + 1 in
                      (st3 |> updMessages (fun prev =>
                                prev ++ [{| msg_type := ai_explanation;
                                            msg_content := feedback ev |}])
                           |> updConversationHistory (fun prev =>
                                prev ++ [{| role := assistant;
                                            content := feedback ev;
                                            type := explanation |}])
                           |> setCurrentAttempts newAttempts
                           |> setShowHintButton true,
                       if 3 <=? newAttempts
                       then [SetTimeout (AdvanceTimer r false) 2000]
                       else []))
           end) in
    andThen body (fun st' => (finally st', [])).

(** *** [handleGetHint] *)

(** The light bulb that opens a hint message, kept as four bytes. *)
Definition lightBulb : string :=
  String "240" (String "159" (String "146" (String "161" ""))).

Definition decimal (n : Z) : string := NilZero.string_of_int (Z.to_int n).

(** [userAnswer || ''] *)
Definition orElseEmpty (s : string) : string :=
  if falsy s then EmptyString else s.

Definition handleGetHint (p : Props) (r : Render) (reply : result string)
    (st : State) : Step :=
  if (3 <=? r_hintsUsed r) || falsy (r_currentQuestionText r)
     || falsy (pdfContent p)
  then (st, [])
  else
    let st1 := st |> setIsLoading true |> setError None in
    let call :=
      OracleCall (Call_generateHint (r_currentQuestionText r)
                    (orElseEmpty (r_userAnswer r)) (r_hintsUsed r + 1)
                    (pdfContent p) (r_currentDifficulty r)) in
    match reply with
    | Ok hint =>
        let st2 :=
          st1 |> updMessages (fun prev =>
                   prev ++ [{| msg_type := ai_explanation;
                               msg_content :=
                                 (lightBulb ++ " Hint "
                                  ++ decimal (r_hintsUsed r + 1)
                                  ++ "/3: " ++ hint)%string |}])
              |> updHintsUsed (fun prev => prev + 1) in
        (* the updater hides the button once three hints are used *)
        let st3 :=
          if 3 <=? hintsUsed st2 then st2 |> setShowHintButton false else st2 in
        (st3 |> setIsLoading false, [call])
    | Err errorMessage =>
        (st1 |> setError (Some errorMessage) |> setIsLoading false,
         [call; ConsoleError "Error generating hint:"])
    end.

(** *** [handleNewSession]; [confirmed] is the answer to [window.confirm]. *)
Definition handleNewSession (confirmed : bool) (st : State) : Step :=
  if confirmed then
    (st |> setMessages []
        |> setConversationHistory []
        |> setCurrentQuestionNumber 1
        |> setCurrentQuestionText ""
        |> setCurrentAttempts 0
        |> setHintsUsed 0
        |> setShowHintButton false
        |> setCurrentDifficulty 1
        |> setRecentQualities []
        |> setUserAnswer ""
        |> setError None
        |> setExploredTopics []
        |> setDifficultyChanged false,
     [Navigate "/";
      Toast toast_success
        "Session cleared. Upload a new PDF to start learning!"])
  else (st, []).

(** [handleAnswerChange] *)
Definition handleAnswerChange (value : string) (st : State) : State :=
  st |> setUserAnswer value.

(** *** The transition system

    Between two events the component has rendered: the handler an event
    runs is the closure of the current state.  A timer keeps the render
    of the handler that started it.  The replies of the oracle come
    with the event: no timer fires and nothing is clicked between a
    request and its reply.  [Page], further down, drops this for the
    request of a hint. *)

Record System : Type := {
  state : State;
  timers : list Timer
}.

Inductive Event : Type :=
| Mount (intro : result string)
| ClickSubmit (evaluation : result ResponseEvaluation)
    (explained : result string)
| ClickHint (hint : result string)
| ClickRetry (reply : result string)
| ClickNewSession (confirmed : bool)
| TypeAnswer (value : string)
| Fire (i : nat) (reply : result string).

Fixpoint timersOf (effects : list Effect) : list Timer :=
  match effects with
  | [] => []
  | SetTimeout t _ :: rest => t :: timersOf rest
  | _ :: rest => timersOf rest
  end.

Fixpoint removeNth {A : Type} (i : nat) (l : list A) : list A :=
  match i, l with
  | _, [] => []
  | O, _ :: rest => rest
  | S i', x :: rest => x :: removeNth i' rest
  end.

Definition runTimer (p : Props) (t : Timer) (reply : result string)
    (st : State) : Step :=
  match t with
  | NextQuestionTimer r => generateNextQuestion p r reply st
  | AdvanceTimer r celebrate => advance p r celebrate reply st
  | DifficultyAnimationTimer => (st |> setDifficultyChanged false, [])
  end.

Definition runRetry (p : Props) (a : RetryAction) (reply : result string)
    (st : State) : Step :=
  match a with
  | RetryIntro r => showIntroExplanation p r reply st
  | RetryQuestion r => generateNextQuestion p r reply st
  end.

Definition commit (pending : list Timer) (s : Step) : System :=
  {| state := fst s; timers := pending ++ timersOf (snd s) |}.

(** The step an event takes, when the event is enabled. *)
Definition dispatch (p : Props) (e : Event) (sys : System) : option System :=
  let st := state sys in
  match e with
  | Mount intro =>
      if negb (falsy (pdfContent p)) && negb (hasShownIntro st)
      then Some (commit (timers sys)
                   (showIntroExplanation p (render st) intro st))
      else None
  | ClickSubmit evaluation explained =>
      Some (commit (timers sys)
              (handleSubmitAnswer p (render st) evaluation explained st))
  | ClickHint hint =>
      Some (commit (timers sys) (handleGetHint p (render st) hint st))
  | ClickRetry reply =>
      match lastErrorAction st with
      | Some a => Some (commit (timers sys) (runRetry p a reply st))
      | None => None
      end
  | ClickNewSession confirmed =>
      Some (commit (timers sys) (handleNewSession confirmed st))
  | TypeAnswer value =>
      Some {| state := handleAnswerChange value st; timers := timers sys |}
  | Fire i reply =>
      match nth_error (timers sys) i with
      | Some t => Some (commit (removeNth i (timers sys))
                          (runTimer p t reply st))
      | None => None
      end
  end.

Definition initialSystem : System :=
  {| state := initialState; timers := [] |}.

Inductive reachable (p : Props) : System -> Prop :=
| reachable_init : reachable p initialSystem
| reachable_step : forall sys e sys',
    reachable p sys -> dispatch p e sys = Some sys' -> reachable p sys'.

(** *** Names for the parts of the handlers

    The guard of [handleSubmitAnswer], the turn and the call it makes,
    and the state in which the evaluation is awaited. *)
Definition blocked (p : Props) (r : Render) : bool :=
  (JsString.length (trim (r_userAnswer r)) <? 20)
  || falsy (r_currentQuestionText r) || falsy (pdfContent p).

Definition answerTurn (r : Render) : ConversationMessage :=
  {| role := user; content := r_userAnswer r; type := answer |}.

Definition evaluationCall (p : Props) (r : Render) : Effect :=
  OracleCall (Call_evaluateResponse (r_currentQuestionText r) (r_userAnswer r)
                (pdfContent p) (r_currentDifficulty r)).

Definition submitted (r : Render) (st : State) : State :=
  st |> setIsLoading true
     |> setError None
     |> updMessages (fun prev =>
          prev ++ [{| msg_type := user_answer; msg_content := r_userAnswer r |}])
     |> updConversationHistory (fun prev => prev ++ [answerTurn r]).

(** The fields [pushQuality] does not write. *)
Definition sameSession (a b : State) : Prop :=
  currentQuestionText a = currentQuestionText b
  /\ currentQuestionNumber a = currentQuestionNumber b
  /\ currentAttempts a = currentAttempts b
  /\ hintsUsed a = hintsUsed b
  /\ conversationHistory a = conversationHistory b
  /\ messages a = messages b
  /\ userAnswer a = userAnswer b
  /\ lastErrorAction a = lastErrorAction b.

Definition explanationCall (e : Effect) : bool :=
  match e with
  | OracleCall (Call_generateExplanation _ _ _ _) => true
  | _ => false
  end.

(** The state the 2000 ms callback sets before it asks for a question. *)
Definition cleared (st : State) : State :=
  st |> setCurrentAttempts 0
     |> setHintsUsed 0
     |> setShowHintButton false
     |> updCurrentQuestionNumber (fun prev => prev + 1).

Definition questionCall (p : Props) (r : Render) : Effect :=
  OracleCall (Call_generateSocraticQuestion (pdfContent p)
                (r_currentDifficulty r) (r_conversationHistory r)
                (focusTopic (topics p) (r_currentQuestionNumber r))).

Definition hintCall (p : Props) (r : Render) : Effect :=
  OracleCall (Call_generateHint (r_currentQuestionText r)
                (orElseEmpty (r_userAnswer r)) (r_hintsUsed r + 1)
                (pdfContent p) (r_currentDifficulty r)).

Definition hintMessage (r : Render) (hint : string) : Message :=
  {| msg_type := ai_explanation;
     msg_content := (lightBulb ++ " Hint " ++ decimal (r_hintsUsed r + 1)
                     ++ "/3: " ++ hint)%string |}.

(** *** A session, for the examples *)

Fixpoint run (p : Props) (events : list Event) (sys : System) : option System :=
  match events with
  | [] => Some sys
  | e :: rest =>
      match dispatch p e sys with
      | Some sys' => run p rest sys'
      | None => None
      end
  end.

Definition sampleProps : Props :=
  {| pdfContent := "Cells divide by mitosis or by meiosis.";
     topics := ["Mitosis"; "Meiosis"; "Cell cycle"] |}.

Definition sampleAnswer : string := "Mitosis makes two identical cells.".

Definition sampleEvents : list Event :=
  [ Mount (Ok "Cells divide. Let us ask some questions.");
    Fire 0 (Ok "What does mitosis produce?");
    TypeAnswer sampleAnswer ].

(** The first question is asked and an answer is typed. *)
Definition sampleSystem : System :=
  match run sampleProps sampleEvents initialSystem with
  | Some sys => sys
  | None => initialSystem
  end.

(** The same, after two answers that were not [strong] and one hint. *)
Definition secondAttemptState : State :=
  state sampleSystem |> setCurrentAttempts 2 |> setHintsUsed 1
                     |> setRecentQualities [partial; needs_work].

Definition strongEvaluation : ResponseEvaluation :=
  {| quality := strong; feedback := "Great thinking!" |}.

(** Three [strong] answers to the first question. *)
Definition escalationEvents : list Event :=
  sampleEvents
  ++ [ ClickSubmit (Ok strongEvaluation) (Ok "Yes. Ready for the next question?");
       TypeAnswer sampleAnswer;
       ClickSubmit (Ok strongEvaluation) (Ok "Yes. Ready for the next question?");
       TypeAnswer sampleAnswer;
       ClickSubmit (Ok strongEvaluation) (Ok "Yes. Ready for the next question?") ].

Definition escalatedSystem : System :=
  match run sampleProps escalationEvents initialSystem with
  | Some sys => sys
  | None => initialSystem
  end.

Definition weakEvaluation : ResponseEvaluation :=
  {| quality := needs_work; feedback := "What happens to the chromosomes?" |}.

(** *** What the page shows *)

Record DifficultyInfo : Type := {
  info_level : Z;
  info_name : string;
  info_color : string;
  info_bgColor : string
}.

(** [DIFFICULTY_LEVELS[d]]: the record has the keys 1 to 4. *)
Definition DIFFICULTY_LEVELS (d : Z) : option DifficultyInfo :=
  if d =? 1 then
    Some {| info_level := 1; info_name := "Basic";
            info_color := "#10B981"; info_bgColor := "bg-green-500" |}
  else if d =? 2 then
    Some {| info_level := 2; info_name := "Foundational";
            info_color := "#3B82F6"; info_bgColor := "bg-blue-500" |}
  else if d =? 3 then
    Some {| info_level := 3; info_name := "Intermediate";
            info_color := "#F59E0B"; info_bgColor := "bg-orange-500" |}
  else if d =? 4 then
    Some {| info_level := 4; info_name := "Advanced";
            info_color := "#8B5CF6"; info_bgColor := "bg-purple-500" |}
  else None.

(** [const difficultyInfo = DIFFICULTY_LEVELS[currentDifficulty]] *)
Definition difficultyInfo (st : State) : option DifficultyInfo :=
  DIFFICULTY_LEVELS (currentDifficulty st).

Definition minChars : Z := 20.

(** [charCount >= minChars && !isLoading] *)
Definition canSubmit (st : State) : bool :=
  (minChars <=? JsString.length (userAnswer st)) && negb (isLoading st).

(** *** The effects of a step *)

Definition effectsOf (p : Props) (e : Event) (sys : System) : list Effect :=
  let st := state sys in
  match e with
  | Mount intro =>
      if negb (falsy (pdfContent p)) && negb (hasShownIntro st)
      then snd (showIntroExplanation p (render st) intro st)
      else []
  | ClickSubmit evaluation explained =>
      snd (handleSubmitAnswer p (render st) evaluation explained st)
  | ClickHint hint => snd (handleGetHint p (render st) hint st)
  | ClickRetry reply =>
      match lastErrorAction st with
      | Some a => snd (runRetry p a reply st)
      | None => []
      end
  | ClickNewSession confirmed => snd (handleNewSession confirmed st)
  | TypeAnswer _ => []
  | Fire i reply =>
      match nth_error (timers sys) i with
      | Some t => snd (runTimer p t reply st)
      | None => []
      end
  end.

(** The numbers a request carries are those the adapters accept: a
    difficulty from 1 to 4 and, for a hint, a number from 1 to 3. *)
Definition requestInRange (req : OracleRequest) : Prop :=
  match req with
  | Call_generateIntroExplanation _ d _ => 1 <= d <= 4
  | Call_generateSocraticQuestion _ d _ _ => 1 <= d <= 4
  | Call_evaluateResponse _ _ _ d => 1 <= d <= 4
  | Call_generateExplanation _ _ _ d => 1 <= d <= 4
  | Call_generateHint _ _ n _ d => 1 <= n <= 3 /\ 1 <= d <= 4
  end.

Definition renderInRange (r : Render) : Prop :=
  1 <= r_currentDifficulty r <= 4.

Definition timerInRange (t : Timer) : Prop :=
  match t with
  | NextQuestionTimer r => renderInRange r
  | AdvanceTimer r _ => renderInRange r
  | DifficultyAnimationTimer => True
  end.

Definition retryInRange (a : option RetryAction) : Prop :=
  match a with
  | Some (RetryIntro r) => renderInRange r
  | Some (RetryQuestion r) => renderInRange r
  | None => True
  end.

(** What holds of every state of a session. *)
Definition sane (p : Props) (sys : System) : Prop :=
  let st := state sys in
  1 <= currentDifficulty st <= 4
  /\ 0 <= hintsUsed st <= 3
  /\ 1 <= currentQuestionNumber st
  /\ 0 <= currentAttempts st
  /\ (List.length (recentQualities st) <= 3)%nat
  /\ NoDup (exploredTopics st)
  /\ incl (exploredTopics st) (topics p)
  /\ retryInRange (lastErrorAction st)
  /\ Forall timerInRange (timers sys).

(** [b] is [a] with turns appended. *)
Definition extends {A : Type} (a b : list A) : Prop :=
  exists more, b = a ++ more.

(** The explored topics after [generateNextQuestion] marks the topic of
    question [questionNumber]. *)
Definition explore (ts : list string) (questionNumber : Z)
    (prev : list string) : list string :=
  if 0 <? Z.of_nat (List.length ts) then
    match topicAt ts (topicIndex ts questionNumber) with
    | Some currentTopic =>
        if falsy currentTopic then prev else addTopic currentTopic prev
    | None => prev
    end
  else prev.

(** The state in which [generateNextQuestion] awaits the question. *)
Definition asking (p : Props) (r : Render) (st : State) : State :=
  st |> setIsLoading true
     |> setError None
     |> setLastErrorAction (Some (RetryQuestion r))
     |> markExplored (topics p) (r_currentQuestionNumber r).

Definition introCall (p : Props) (r : Render) : Effect :=
  OracleCall (Call_generateIntroExplanation (pdfContent p)
                (r_currentDifficulty r)
                (if 0 <? Z.of_nat (List.length (topics p))
                 then topicAt (topics p) 0 else None)).

Definition explanationRequest (p : Props) (r : Render) : Effect :=
  OracleCall (Call_generateExplanation (r_currentQuestionText r)
                (r_userAnswer r) (pdfContent p) (r_currentDifficulty r)).

(** *** The questions a session asks for *)

(** The focus topics of the requests for a question among [effects]. *)
Definition questionTopics (effects : list Effect) : list (option string) :=
  flat_map (fun e =>
              match e with
              | OracleCall (Call_generateSocraticQuestion _ _ _ focusTopic) =>
                  [focusTopic]
              | _ => []
              end) effects.

(** Every question a run asks for: the question number of the state the
    step leaves, which is the number the page shows with the question,
    and the focus topic of the request. *)
Fixpoint asked (p : Props) (events : list Event) (sys : System)
  : list (Z * option string) :=
  match events with
  | [] => []
  | e :: rest =>
      match dispatch p e sys with
      | Some sys' =>
          map (fun t => (currentQuestionNumber (state sys'), t))
              (questionTopics (effectsOf p e sys))
          ++ asked p rest sys'
      | None => []
      end
  end.

Definition threeTopics : Props :=
  {| pdfContent := "Cells divide by mitosis or by meiosis.";
     topics := ["A"; "B"; "C"] |}.

(** An answer that is evaluated [strong], and the 2000 ms callback. *)
Definition strongRound : list Event :=
  [ TypeAnswer sampleAnswer;
    ClickSubmit (Ok strongEvaluation) (Ok "Yes. Ready for the next question?");
    Fire 0 (Ok "And then?") ].

(** The same when the answer is the third [strong] one in a row: the
    1000 ms timer of the difficulty badge fires before the callback. *)
Definition strongRoundAdjusting : list Event :=
  [ TypeAnswer sampleAnswer;
    ClickSubmit (Ok strongEvaluation) (Ok "Yes. Ready for the next question?");
    Fire 0 (Ok "And then?");
    Fire 0 (Ok "And then?") ].

(** The introduction, the first question and eight [strong] answers:
    nine questions are asked. *)
Definition nineQuestions : list Event :=
  [ Mount (Ok "Cells divide. Let us ask some questions.");
    Fire 0 (Ok "What does mitosis produce?") ]
  ++ strongRound ++ strongRound ++ strongRoundAdjusting
  ++ strongRound ++ strongRound ++ strongRoundAdjusting
  ++ strongRound ++ strongRound.

(** *** Replies that arrive later

    [dispatch] hands a handler its reply with the event.  On the page the
    request of [handleGetHint] is pending until the reply arrives, and
    timers fire and the learner goes on in between.  [handleGetHint] is
    cut at its [await]: the part before it runs with the click, the part
    after it with the reply, in the state of that time and with the
    closure [r] of the click. *)

Definition handleGetHint_request (p : Props) (r : Render) (st : State)
  : option Step :=
  if (3 <=? r_hintsUsed r) || falsy (r_currentQuestionText r)
     || falsy (pdfContent p)
  then None
  else Some (st |> setIsLoading true |> setError None, [hintCall p r]).

Definition handleGetHint_reply (r : Render) (reply : result string)
    (st : State) : Step :=
  match reply with
  | Ok hint =>
      let st2 :=
        st |> updMessages (fun prev => prev ++ [hintMessage r hint])
           |> updHintsUsed (fun prev => prev + 1) in
      let st3 :=
        if 3 <=? hintsUsed st2 then st2 |> setShowHintButton false else st2 in
      (st3 |> setIsLoading false, [])
  | Err errorMessage =>
      (st |> setError (Some errorMessage) |> setIsLoading false,
       [ConsoleError "Error generating hint:"])
  end.

(** The page: the component, and the renders of the hint requests that
    wait for their reply. *)
Record Page : Type := {
  page_system : System;
  page_hints : list Render
}.

Inductive PageEvent : Type :=
| Now (e : Event)
| HintClicked
| HintReplied (i : nat) (reply : result string).

(** [showHintButton && hintsUsed < 3], and the button is not disabled. *)
Definition hintEnabled (st : State) : bool :=
  showHintButton st && (hintsUsed st <? 3) && negb (isLoading st).

(** What the page lets happen: the submit button is disabled unless
    [canSubmit] (and while loading), the text area while loading; the
    retry button is rendered with the error, when there is an action. *)
Definition enabled (e : Event) (st : State) : bool :=
  match e with
  | Mount _ => true
  | ClickSubmit _ _ => canSubmit st && negb (isLoading st)
  | ClickHint _ => hintEnabled st
  | ClickRetry _ =>
      match error st, lastErrorAction st with
      | Some message, Some _ => negb (falsy message)
      | _, _ => false
      end
  | ClickNewSession _ => true
  | TypeAnswer _ => negb (isLoading st)
  | Fire _ _ => true
  end.

Definition pageStep (p : Props) (e : PageEvent) (pg : Page) : option Page :=
  let sys := page_system pg in
  let st := state sys in
  match e with
  | Now e =>
      if enabled e st then
        match dispatch p e sys with
        | Some sys' => Some {| page_system := sys'; page_hints := page_hints pg |}
        | None => None
        end
      else None
  | HintClicked =>
      if hintEnabled st then
        match handleGetHint_request p (render st) st with
        | Some s =>
            Some {| page_system := commit (timers sys) s;
                    page_hints := page_hints pg ++ [render st] |}
        | None => None
        end
      else None
  | HintReplied i reply =>
      match nth_error (page_hints pg) i with
      | Some r =>
          Some {| page_system := commit (timers sys)
                                   (handleGetHint_reply r reply st);
                  page_hints := removeNth i (page_hints pg) |}
      | None => None
      end
  end.

Fixpoint pageRun (p : Props) (events : list PageEvent) (pg : Page)
  : option Page :=
  match events with
  | [] => Some pg
  | e :: rest =>
      match pageStep p e pg with
      | Some pg' => pageRun p rest pg'
      | None => None
      end
  end.

Definition initialPage : Page :=
  {| page_system := initialSystem; page_hints := [] |}.

Definition weakRound : list PageEvent :=
  [ Now (TypeAnswer sampleAnswer);
    Now (ClickSubmit (Ok weakEvaluation) (Ok "unused")) ].

(** Three weak answers to the first question; a hint is asked for before
    the 2000 ms callback runs; on the second question a weak answer and
    three hints; then the reply to the first request arrives. *)
Definition lateHintEvents : list PageEvent :=
  [ Now (Mount (Ok "Cells divide. Let us ask some questions."));
    Now (Fire 0 (Ok "What does mitosis produce?")) ]
  ++ weakRound ++ weakRound ++ weakRound
  ++ [ HintClicked;
       Now (Fire 0 (Ok "What does meiosis produce?")) ]
  ++ weakRound
  ++ [ Now (ClickHint (Ok "Think of the chromosomes."));
       Now (ClickHint (Ok "Count them."));
       Now (ClickHint (Ok "Compare with the parent cell."));
       HintReplied 0 (Ok "Look at the first sentence.") ].

End LearningInterface.

(** * Properties *)

(** ** Strings *)

Module JsStringFacts.

Lemma isEmpty_true (s : string) : isEmpty s = true <-> s = EmptyString.
Proof. destruct s; simpl; split; congruence. Qed.

Lemma isEmpty_false (s : string) : isEmpty s = false <-> s <> EmptyString.
Proof. destruct s; simpl; split; congruence. Qed.

Lemma toLowerCase_app (a b : string) :
  toLowerCase (a ++ b) = (toLowerCase a ++ toLowerCase b)%string.
Proof. induction a as [|c a IH]; simpl; [reflexivity | now rewrite IH]. Qed.

Lemma startsWith_refl_app (x rest : string) : startsWith x (x ++ rest) = true.
Proof.
  induction x as [|c x IH]; simpl; [reflexivity|].
  now rewrite Ascii.eqb_refl, IH.
Qed.

Lemma includes_here (s sub : string) :
  startsWith sub s = true -> includes s sub = true.
Proof. intros H. destruct s; simpl in *; rewrite H; reflexivity. Qed.

Lemma includes_app_r (a b sub : string) :
  includes b sub = true -> includes (a ++ b) sub = true.
Proof.
  intros H. induction a as [|c a IH]; simpl; [exact H|].
  rewrite IH. apply orb_true_r.
Qed.

Lemma includes_suffix (a sub : string) : includes (a ++ sub) sub = true.
Proof.
  apply includes_app_r, includes_here.
  induction sub as [|c s IH]; simpl; [reflexivity|].
  now rewrite Ascii.eqb_refl, IH.
Qed.

(** [trim] never makes a string longer. *)
Lemma trimStart_length (s : string) :
  (String.length (trimStart s) <= String.length s)%nat.
Proof.
  induction s as [|c s IH]; simpl; [lia|].
  destruct (isWhiteSpace c); simpl; lia.
Qed.

Lemma trimEnd_length (s : string) :
  (String.length (trimEnd s) <= String.length s)%nat.
Proof.
  induction s as [|c s IH]; simpl; [lia|].
  destruct (isWhiteSpace c && isEmpty (trimEnd s)); simpl; lia.
Qed.

Lemma trim_length (s : string) : JsString.length (trim s) <= JsString.length s.
Proof.
  unfold JsString.length, trim.
  pose proof (trimEnd_length (trimStart s)). pose proof (trimStart_length s). lia.
Qed.

(** Behind a text that does not trim to nothing, what precedes is kept. *)
Lemma trimEnd_app (a b : string) :
  trimEnd b <> EmptyString -> trimEnd (a ++ b) = (a ++ trimEnd b)%string.
Proof.
  intros Hb. induction a as [|c a IH]; simpl; [reflexivity|].
  rewrite IH.
  assert (E : isEmpty (a ++ trimEnd b) = false).
  { apply isEmpty_false. destruct a; simpl; [exact Hb | discriminate]. }
  rewrite E, andb_false_r. reflexivity.
Qed.

Lemma trimEnd_empty (s : string) :
  trimEnd s = EmptyString -> allWhiteSpace s = true.
Proof.
  induction s as [|c s IH]; simpl; [reflexivity|].
  destruct (isWhiteSpace c) eqn:Hc; simpl; [|discriminate].
  destruct (trimEnd s) eqn:Ht; simpl; [intros _; now apply IH | discriminate].
Qed.

Lemma toLowerChar_whiteSpace (c : ascii) :
  isWhiteSpace c = true -> isWhiteSpace (toLowerChar c) = true.
Proof.
  destruct c as [[] [] [] [] [] [] [] []]; vm_compute; congruence.
Qed.

Lemma startsWith_head (c d : ascii) (p s : string) :
  startsWith (String c p) (String d s) = true -> d = c.
Proof.
  simpl. intros H. apply andb_true_iff in H as [H _].
  apply Ascii.eqb_eq in H. congruence.
Qed.

(** A text made of white space holds no phrase that starts with a
    letter, in whatever case it is compared. *)
Lemma includes_lower_whiteSpace (s : string) (c : ascii) (p : string) :
  isWhiteSpace c = false ->
  allWhiteSpace s = true ->
  includes (toLowerCase s) (String c p) = false.
Proof.
  intros Hc. induction s as [|d s IH]; simpl; [reflexivity|].
  intros H. apply andb_true_iff in H as [Hd Hs].
  rewrite (IH Hs), orb_false_r.
  destruct (Ascii.eqb c (toLowerChar d)) eqn:E; [|reflexivity].
  apply Ascii.eqb_eq in E. subst c.
  rewrite (toLowerChar_whiteSpace _ Hd) in Hc. discriminate.
Qed.

End JsStringFacts.

(** ** The oracle adapter *)

Module GeminiFacts.

Import Gemini JsStringFacts.

Lemma qualityOf_truthy (v : option json) (q : QualityLevel) :
  qualityOf v = Some q -> falsyProp v = false.
Proof.
  destruct v as [[| | |s| |]|]; simpl; try discriminate.
  destruct s; simpl; [discriminate | reflexivity].
Qed.

(** A feedback that holds one of the phrases does not trim to nothing. *)
Lemma hasExplanation_not_blank (fb : string) :
  hasExplanation fb = true -> trimEnd fb <> EmptyString.
Proof.
  intros H E. apply trimEnd_empty in E.
  unfold hasExplanation, explanationPhrases in H. simpl in H.
  rewrite !includes_lower_whiteSpace in H by (exact E || reflexivity).
  discriminate.
Qed.

Lemma trim_explorePrefix (fb : string) :
  trimEnd fb <> EmptyString ->
  trim (explorePrefix ++ fb) = (explorePrefix ++ trimEnd fb)%string.
Proof.
  intros H. unfold trim.
  change (trimStart (explorePrefix ++ fb)) with (explorePrefix ++ fb)%string.
  now apply trimEnd_app.
Qed.

Section WithJsonParse.

Variable JSON_parse : string -> result json.

(** C9 (as amended).  When the reply parses to a value whose [quality]
    is one of the three labels and whose [feedback] is a non-empty
    string, [evaluateResponse] returns that label; if the feedback
    holds one of the six phrases, in any letter case, the returned
    feedback is the prefix followed by the feedback and trimmed as a
    whole, that is the prefix and the feedback without its trailing
    white space; otherwise it is the feedback trimmed. *)
Theorem evaluateResponse_feedback
    (q a c : string) (d : Z) (raw : string) (obj : json)
    (qv : option json) (ql : QualityLevel) (fb : string) :
  validateInputs q a c d = Ok tt ->
  JSON_parse (jsonTextOf (trim raw)) = Ok obj ->
  getProp obj "quality" = Ok qv ->
  qualityOf qv = Some ql ->
  getProp obj "feedback" = Ok (Some (JString fb)) ->
  fb <> EmptyString ->
  exists ev,
    evaluateResponse JSON_parse q a c d (Ok raw) = Ok ev
    /\ quality ev = ql
    /\ (hasExplanation fb = true ->
        feedback ev = trim (explorePrefix ++ fb)
        /\ feedback ev = (explorePrefix ++ trimEnd fb)%string)
    /\ (hasExplanation fb = false -> feedback ev = trim fb).
Proof.
  intros Hv Hp Hq Hql Hf Hne.
  unfold evaluateResponse, parseEvaluation, checkEvaluation.
  rewrite Hv. simpl. rewrite Hp. simpl. rewrite Hq. simpl.
  rewrite (qualityOf_truthy _ _ Hql), Hql, Hf. simpl.
  apply isEmpty_false in Hne. unfold falsy. rewrite Hne.
  eexists. split; [reflexivity|]. simpl. split; [reflexivity|].
  split; intros He; rewrite He; [|reflexivity].
  split; [reflexivity|].
  now apply trim_explorePrefix, hasExplanation_not_blank.
Qed.

End WithJsonParse.

(** C9 (as amended), at a feedback that gives an answer away. *)
Lemma evaluateResponse_feedback_witness :
  exists ev,
    evaluateResponse (fun _ => Ok (sampleEvaluation "It is the mitochondria. "))
      "What is it?" "I am not sure" "Cells" 1 (Ok "{}") = Ok ev
    /\ quality ev = partial
    /\ (hasExplanation "It is the mitochondria. " = true ->
        feedback ev = trim (explorePrefix ++ "It is the mitochondria. ")
        /\ feedback ev = (explorePrefix ++ trimEnd "It is the mitochondria. ")%string)
    /\ (hasExplanation "It is the mitochondria. " = false ->
        feedback ev = trim "It is the mitochondria. ").
Proof.
  apply (evaluateResponse_feedback
           (fun _ => Ok (sampleEvaluation "It is the mitochondria. "))
           "What is it?" "I am not sure" "Cells" 1 "{}"
           (sampleEvaluation "It is the mitochondria. ")
           (Some (JString "partial")) partial "It is the mitochondria. ");
    try reflexivity.
  discriminate.
Defined.

(** C9 as stated fails: a feedback that holds a phrase and ends in white
    space is not returned as the prefix followed by the feedback; its
    trailing white space is gone. *)
Lemma evaluateResponse_prefix_counterexample :
  hasExplanation "it is " = true
  /\ exists ev,
       evaluateResponse (fun _ => Ok (sampleEvaluation "it is "))
         "What is it?" "I am not sure" "Cells" 1 (Ok "{}") = Ok ev
       /\ feedback ev = "Let's explore this further. it is"
       /\ feedback ev <> (explorePrefix ++ "it is ")%string.
Proof.
  split; [reflexivity|].
  eexists. split; [reflexivity|]. split; [reflexivity|].
  simpl. discriminate.
Qed.

(** [generateExplanation] returns a text as soon as its inputs are valid
    and the model replies something that is not blank. *)
Lemma generateExplanation_returns (q a c : string) (d : Z) (raw : string) :
  validateInputs q a c d = Ok tt ->
  trim raw <> EmptyString ->
  generateExplanation q a c d (Ok raw)
  = Ok (ensureEncouragement (cleanExplanation (trim raw))).
Proof.
  intros Hv Hne. unfold generateExplanation. rewrite Hv. simpl.
  apply isEmpty_false in Hne. unfold falsy. now rewrite Hne.
Qed.

Lemma ensureEncouragement_includes (s : string) :
  includes (toLowerCase (ensureEncouragement s))
           (toLowerCase encouragementPhrase) = true.
Proof.
  unfold ensureEncouragement.
  destruct (includes (toLowerCase s) (toLowerCase encouragementPhrase)) eqn:E;
    simpl negb; cbv iota; [exact E|].
  rewrite !toLowerCase_app.
  apply includes_app_r, includes_suffix.
Qed.

(** C10 (as amended).  Every text [generateExplanation] returns holds
    the phrase when letter case is ignored: it is the cleaned reply when
    that already holds the phrase in some letter case, and otherwise
    the cleaned reply followed by a space and the phrase. *)
Theorem generateExplanation_encouragement
    (q a c : string) (d : Z) (reply : result string) (s : string) :
  generateExplanation q a c d reply = Ok s ->
  includes (toLowerCase s) (toLowerCase encouragementPhrase) = true
  /\ exists raw,
       reply = Ok raw
       /\ s = if includes (toLowerCase (cleanExplanation (trim raw)))
                          (toLowerCase encouragementPhrase)
              then cleanExplanation (trim raw)
              else (cleanExplanation (trim raw) ++ " " ++ encouragementPhrase)%string.
Proof.
  unfold generateExplanation.
  destruct (validateInputs q a c d) as [[]|m]; simpl; [|discriminate].
  destruct reply as [raw|m]; simpl; [|discriminate].
  destruct (falsy (trim raw)); simpl; [discriminate|].
  intros H. injection H as <-. split.
  - apply ensureEncouragement_includes.
  - exists raw. split; [reflexivity|]. unfold ensureEncouragement.
    now destruct (includes _ _).
Qed.

Lemma generateExplanation_encouragement_witness :
  includes (toLowerCase "Yes, cells divide. Ready for the next question?")
           (toLowerCase encouragementPhrase) = true
  /\ exists raw,
       Ok "Answer: 'Yes, cells divide.'" = Ok raw
       /\ "Yes, cells divide. Ready for the next question?"
          = if includes (toLowerCase (cleanExplanation (trim raw)))
                        (toLowerCase encouragementPhrase)
            then cleanExplanation (trim raw)
            else (cleanExplanation (trim raw) ++ " " ++ encouragementPhrase)%string.
Proof.
  apply (generateExplanation_encouragement
           "Why do cells divide?" "Because they grow" "Cells" 2
           (Ok "Answer: 'Yes, cells divide.'")).
  reflexivity.
Defined.

(** C10 as stated fails: a reply that already asks the question in lower
    case is returned as it is, and the phrase, as it is spelled, is not
    in it. *)
Lemma generateExplanation_phrase_counterexample :
  generateExplanation "Why do cells divide?" "Because they grow" "Cells" 2
    (Ok "Right. ready for the next question?")
  = Ok "Right. ready for the next question?"
  /\ includes "Right. ready for the next question?" encouragementPhrase = false.
Proof. split; reflexivity. Qed.

(** *** More on strings *)

Lemma trimStart_head (s : string) :
  match trimStart s with
  | String c _ => isWhiteSpace c = false
  | EmptyString => True
  end.
Proof.
  induction s as [|c s IH]; simpl; [exact I|].
  destruct (isWhiteSpace c) eqn:E; [exact IH | exact E].
Qed.

Lemma trimStart_fixed (c : ascii) (s : string) :
  isWhiteSpace c = false -> trimStart (String c s) = String c s.
Proof. intros H. simpl. now rewrite H. Qed.

Lemma trimEnd_head (c : ascii) (s : string) :
  isWhiteSpace c = false ->
  exists t, trimEnd (String c s) = String c t.
Proof. intros H. simpl. rewrite H. simpl. eauto. Qed.

Lemma trimEnd_idempotent (s : string) : trimEnd (trimEnd s) = trimEnd s.
Proof.
  induction s as [|c s IH]; simpl; [reflexivity|].
  destruct (isWhiteSpace c && isEmpty (trimEnd s)) eqn:E; [reflexivity|].
  simpl. rewrite IH, E. reflexivity.
Qed.

Lemma trim_idempotent (s : string) : trim (trim s) = trim s.
Proof.
  unfold trim. pose proof (trimStart_head s) as H.
  destruct (trimStart s) as [|c t]; [reflexivity|].
  destruct (trimEnd_head c t H) as [u E]. rewrite E.
  rewrite (trimStart_fixed c u H), <- E. apply trimEnd_idempotent.
Qed.

Lemma lastChar_app (s : string) (c : ascii) :
  lastChar (s ++ String c EmptyString) = Some c.
Proof.
  induction s as [|d s IH]; simpl; [reflexivity|].
  rewrite IH. destruct (s ++ String c EmptyString) eqn:E; [|reflexivity].
  destruct s; discriminate.
Qed.

(** *** [generateSocraticQuestion] *)

(** X1.  [generateSocraticQuestion] returns a question only when the
    content is not blank, the difficulty is from 1 to 4 and the model
    replied with a text that is not blank.  The question is then not
    empty and ends in a question mark or a full stop: it is the cleaned
    reply, with a question mark appended when the cleaned reply ends in
    neither. *)
Theorem generateSocraticQuestion_shape
    (c : string) (d : Z) (reply : result string) (q : string) :
  generateSocraticQuestion c d reply = Ok q ->
  q <> EmptyString
  /\ (endsWithChar "?" q = true \/ endsWithChar "." q = true)
  /\ trim c <> EmptyString
  /\ 1 <= d <= 4
  /\ exists raw,
       reply = Ok raw
       /\ trim raw <> EmptyString
       /\ q = (if endsWithChar "?" (cleanQuestion (trim raw))
                  || endsWithChar "." (cleanQuestion (trim raw))
               then cleanQuestion (trim raw)
               else cleanQuestion (trim raw) ++ "?").
Proof.
  unfold generateSocraticQuestion, validateContent.
  destruct (isEmpty (trim c)) eqn:Ec; simpl; [discriminate|].
  destruct (d <? 1) eqn:D1; simpl; [discriminate|].
  destruct (4 <? d) eqn:D4; simpl; [discriminate|].
  destruct reply as [raw|m]; simpl; [|discriminate].
  destruct (falsy (trim raw)) eqn:Er; simpl; [discriminate|].
  intros H. injection H as <-.
  apply Z.ltb_ge in D1, D4. apply isEmpty_false in Ec.
  enough (G : forall cq,
             ensureQuestionMark cq <> EmptyString
             /\ (endsWithChar "?" (ensureQuestionMark cq) = true
                 \/ endsWithChar "." (ensureQuestionMark cq) = true)
             /\ ensureQuestionMark cq
                = (if endsWithChar "?" cq || endsWithChar "." cq
                   then cq else cq ++ "?")).
  { destruct (G (cleanQuestion (trim raw))) as (A & B & C).
    split; [exact A|]. split; [exact B|]. split; [exact Ec|].
    split; [lia|].
    exists raw. split; [reflexivity|]. split; [|exact C].
    now apply isEmpty_false. }
  intros cq. unfold ensureQuestionMark.
  destruct (endsWithChar "?" cq) eqn:E1; simpl.
  - split; [|split; [now left | reflexivity]].
    intros E. rewrite E in E1. discriminate.
  - destruct (endsWithChar "." cq) eqn:E2; simpl.
    + split; [|split; [now right | reflexivity]].
      intros E. rewrite E in E2. discriminate.
    + split; [|split; [left | reflexivity]].
      * destruct cq; discriminate.
      * unfold endsWithChar. now rewrite lastChar_app.
Qed.

Lemma generateSocraticQuestion_shape_witness :
  ": What is X?" <> EmptyString
  /\ (endsWithChar "?" ": What is X?" = true \/ endsWithChar "." ": What is X?" = true)
  /\ trim "Cells" <> EmptyString
  /\ 1 <= 1 <= 4
  /\ exists raw,
       Ok " Question: What is X  " = Ok raw
       /\ trim raw <> EmptyString
       /\ ": What is X?"
          = (if endsWithChar "?" (cleanQuestion (trim raw))
                || endsWithChar "." (cleanQuestion (trim raw))
             then cleanQuestion (trim raw)
             else cleanQuestion (trim raw) ++ "?").
Proof.
  apply (generateSocraticQuestion_shape "Cells" 1 (Ok " Question: What is X  ")).
  reflexivity.
Defined.

(** *** [generateIntroExplanation] *)

(** X2.  An introduction that [generateIntroExplanation] returns mentions
    the word question, in any case: it is the cleaned reply, followed by
    the transition sentence when the cleaned reply lacks it. *)
Theorem generateIntroExplanation_transition
    (c : string) (d : Z) (reply : result string) (e : string) :
  generateIntroExplanation c d reply = Ok e ->
  includes (toLowerCase e) "question" = true
  /\ exists raw,
       reply = Ok raw
       /\ (e = cleanIntro (trim raw)
           \/ e = cleanIntro (trim raw) ++ transitionSentence).
Proof.
  unfold generateIntroExplanation.
  destruct (validateContent c d) as [[]|m]; simpl; [|discriminate].
  destruct reply as [raw|m]; simpl; [|discriminate].
  destruct (falsy (trim raw)); simpl; [discriminate|].
  intros H. injection H as <-.
  enough (G : forall ci,
             includes (toLowerCase (ensureTransition ci)) "question" = true
             /\ (ensureTransition ci = ci
                 \/ ensureTransition ci = ci ++ transitionSentence)).
  { destruct (G (cleanIntro (trim raw))) as (A & B).
    split; [exact A | exists raw; split; [reflexivity | exact B]]. }
  intros ci. unfold ensureTransition. cbv zeta.
  destruct (includes (toLowerCase ci) "question") eqn:E.
  - destruct (existsb _ transitionPhrases); simpl.
    + split; [exact E | now left].
    + split; [|now right].
      rewrite toLowerCase_app. now apply includes_app_r.
  - rewrite orb_true_r. split; [|now right].
    rewrite toLowerCase_app. now apply includes_app_r.
Qed.

Lemma generateIntroExplanation_transition_witness :
  includes (toLowerCase "Cells divide. Let's explore this further through some questions.")
    "question" = true
  /\ exists raw,
       Ok "Intro: Cells divide." = Ok raw
       /\ ("Cells divide. Let's explore this further through some questions."
           = cleanIntro (trim raw)
           \/ "Cells divide. Let's explore this further through some questions."
              = cleanIntro (trim raw) ++ transitionSentence).
Proof.
  apply (generateIntroExplanation_transition "Cells" 1 (Ok "Intro: Cells divide.")).
  reflexivity.
Defined.

(** *** [generateHint] *)

(** X3.  [generateHint] succeeds only for a hint number from 1 to 3, a
    difficulty from 1 to 4, and a question and a content that are not
    blank; the hint it returns has no white space at either end. *)
Theorem generateHint_checked
    (q : string) (n : Z) (c : string) (d : Z) (reply : result string) (h : string) :
  generateHint q n c d reply = Ok h ->
  1 <= n <= 3 /\ 1 <= d <= 4
  /\ trim q <> EmptyString /\ trim c <> EmptyString
  /\ trim h = h.
Proof.
  unfold generateHint, validateHint.
  destruct (isEmpty (trim q)) eqn:Eq; simpl; [discriminate|].
  destruct (n <? 1) eqn:N1; simpl; [discriminate|].
  destruct (3 <? n) eqn:N3; simpl; [discriminate|].
  destruct (isEmpty (trim c)) eqn:Ec; simpl; [discriminate|].
  destruct (d <? 1) eqn:D1; simpl; [discriminate|].
  destruct (4 <? d) eqn:D4; simpl; [discriminate|].
  destruct reply as [raw|m]; simpl; [|discriminate].
  destruct (falsy (trim raw)); simpl; [discriminate|].
  intros H. injection H as <-.
  apply Z.ltb_ge in N1, N3, D1, D4. apply isEmpty_false in Eq, Ec.
  repeat split; try lia; try assumption.
  unfold cleanHint. apply trim_idempotent.
Qed.

Lemma generateHint_checked_witness :
  1 <= 2 <= 3 /\ 1 <= 1 <= 4
  /\ trim "What is X?" <> EmptyString /\ trim "Cells" <> EmptyString
  /\ trim "Consider X" = "Consider X".
Proof.
  apply (generateHint_checked "What is X?" 2 "Cells" 1 (Ok "Hint 2: 'Consider X'")).
  reflexivity.
Defined.

(** *** [analyzePDFContent] *)

Lemma keepStrings_filter (items : list json) :
  map JString (keepStrings items) = filter nonEmptyString items.
Proof.
  induction items as [|v items IH]; simpl; [reflexivity|].
  destruct v as [| | |s| |]; simpl; try exact IH.
  destruct (0 <? JsString.length s); simpl; now rewrite IH.
Qed.

(** X4.  When [analyzePDFContent] succeeds the text was not blank, the reply
    parsed to an object whose topics and concepts are arrays, and the
    topics and the concepts returned are the non-empty strings of these
    arrays, in the order and as often as the arrays hold them. *)
Theorem analyzePDFContent_result
    (JSON_parse : string -> result json)
    (pdfText : string) (reply : result string) (res : PDFAnalysisResult) :
  analyzePDFContent JSON_parse pdfText reply = Ok res ->
  trim pdfText <> EmptyString
  /\ exists raw obj ts cs,
       reply = Ok raw
       /\ JSON_parse (jsonTextOf raw) = Ok obj
       /\ getProp obj "topics" = Ok (Some (JArray ts))
       /\ getProp obj "concepts" = Ok (Some (JArray cs))
       /\ map JString (analysis_topics res) = filter nonEmptyString ts
       /\ map JString (analysis_concepts res) = filter nonEmptyString cs.
Proof.
  unfold analyzePDFContent, checkAnalysis.
  destruct (isEmpty (trim pdfText)) eqn:E; simpl; [discriminate|].
  destruct reply as [raw|m]; simpl; [|discriminate].
  destruct (JSON_parse (jsonTextOf raw)) as [obj|m] eqn:P; simpl; [|discriminate].
  destruct (getProp obj "topics") as [[[| | | |ts|]|]|m] eqn:T; simpl;
    try discriminate.
  destruct (getProp obj "concepts") as [[[| | | |cs|]|]|m] eqn:C; simpl;
    try discriminate.
  intros H. injection H as <-. split; [now apply isEmpty_false|].
  exists raw, obj, ts, cs. simpl.
  split; [reflexivity|]. split; [exact P|]. split; [exact T|].
  split; [exact C|]. split; apply keepStrings_filter.
Qed.

Lemma analyzePDFContent_result_witness :
  trim "Cells divide." <> EmptyString
  /\ exists raw obj ts cs,
       Ok "{}" = Ok raw
       /\ (fun _ : string =>
             Ok (JObject [("topics", JArray [JString "Mitosis"; JNull; JString "";
                                             JString "Meiosis"; JString "Mitosis"]);
                          ("concepts", JArray [JString "Spindle"])]))
            (jsonTextOf raw) = Ok obj
       /\ getProp obj "topics" = Ok (Some (JArray ts))
       /\ getProp obj "concepts" = Ok (Some (JArray cs))
       /\ map JString ["Mitosis"; "Meiosis"; "Mitosis"] = filter nonEmptyString ts
       /\ map JString ["Spindle"] = filter nonEmptyString cs.
Proof.
  apply (analyzePDFContent_result
           (fun _ : string =>
              Ok (JObject [("topics", JArray [JString "Mitosis"; JNull; JString "";
                                              JString "Meiosis"; JString "Mitosis"]);
                           ("concepts", JArray [JString "Spindle"])]))
           "Cells divide." (Ok "{}")
           {| analysis_topics := ["Mitosis"; "Meiosis"; "Mitosis"];
              analysis_concepts := ["Spindle"] |}).
  reflexivity.
Defined.

(** *** The fenced block *)

Lemma append_assoc (a b c : string) : (a ++ b) ++ c = a ++ (b ++ c).
Proof. induction a as [|x a IH]; simpl; [reflexivity | now rewrite IH]. Qed.

Lemma trimStart_app (pre : string) (c : ascii) (rest : string) :
  isWhiteSpace c = false ->
  trimStart (pre ++ String c rest) = trimStart pre ++ String c rest.
Proof.
  intros H. induction pre as [|d pre IH]; simpl; [now rewrite H|].
  destruct (isWhiteSpace d); [exact IH | reflexivity].
Qed.

Lemma trimStart_allWhiteSpace (ws : string) (c : ascii) (rest : string) :
  allWhiteSpace ws = true -> isWhiteSpace c = false ->
  trimStart (ws ++ String c rest) = String c rest.
Proof.
  intros Hw Hc. induction ws as [|d ws IH]; simpl; [now rewrite Hc|].
  simpl in Hw. apply andb_true_iff in Hw as [Hd Hw]. rewrite Hd. now apply IH.
Qed.

Lemma noBacktick_trimStart (s : string) :
  noBacktick s = true -> noBacktick (trimStart s) = true.
Proof.
  induction s as [|c s IH]; simpl; [reflexivity|].
  intros H. destruct (isWhiteSpace c); [|exact H].
  apply andb_true_iff in H as [_ H]. now apply IH.
Qed.

Lemma noBacktick_trimEnd (s : string) :
  noBacktick s = true -> noBacktick (trimEnd s) = true.
Proof.
  induction s as [|c s IH]; simpl; [reflexivity|].
  intros H. apply andb_true_iff in H as [Hc H].
  destruct (isWhiteSpace c && isEmpty (trimEnd s)); [reflexivity|].
  simpl. now rewrite Hc, IH.
Qed.

Lemma matchFence_noBacktick (s : string) :
  noBacktick s = true -> matchFence s = None.
Proof.
  induction s as [|c s IH]; [reflexivity|].
  intros H. simpl in H. apply andb_true_iff in H as [Hc H].
  cbn [matchFence]. unfold fenceAt. cbn [fence startsWith].
  apply negb_true_iff in Hc. rewrite Ascii.eqb_sym in Hc. rewrite Hc. simpl.
  now apply IH.
Qed.

Lemma matchFence_skip (pre rest : string) :
  noBacktick pre = true ->
  matchFence (pre ++ fence ++ rest) = matchFence (fence ++ rest).
Proof.
  induction pre as [|c pre IH]; [reflexivity|].
  intros H. simpl in H. apply andb_true_iff in H as [Hc H].
  change ((String c pre ++ fence ++ rest)%string)
    with (String c (pre ++ fence ++ rest)).
  cbn [matchFence]. unfold fenceAt at 1. cbn [fence startsWith].
  apply negb_true_iff in Hc. rewrite Ascii.eqb_sym in Hc. rewrite Hc. simpl.
  now apply IH.
Qed.

Lemma closesFence_tail (ws : string) :
  allWhiteSpace ws = true -> closesFence (ws ++ fence) = true.
Proof.
  intros H. unfold closesFence, fence.
  now rewrite (trimStart_allWhiteSpace ws "`" "``" H eq_refl).
Qed.

Lemma lastClose_tail (ws : string) :
  allWhiteSpace ws = true -> lastClose (ws ++ fence) = None.
Proof.
  intros H. induction ws as [|c ws IH]; [reflexivity|].
  simpl in H. apply andb_true_iff in H as [Hc H].
  change ((String c ws ++ fence)%string) with (String c (ws ++ fence)).
  cbn [lastClose]. rewrite (IH H).
  assert (E : isCloseBrace c = false).
  { unfold isCloseBrace. destruct (Ascii.eqb c "}") eqn:E; [|reflexivity].
    apply Ascii.eqb_eq in E. subst c. discriminate. }
  now rewrite E.
Qed.

Lemma lastClose_body (inner ws : string) :
  allWhiteSpace ws = true ->
  lastClose (inner ++ "}" ++ ws ++ fence) = Some (inner ++ "}").
Proof.
  intros H. induction inner as [|c inner IH].
  - change (("" ++ "}" ++ ws ++ fence)%string) with (String "}" (ws ++ fence)).
    cbn [lastClose]. rewrite (lastClose_tail ws H), (closesFence_tail ws H).
    reflexivity.
  - change ((String c inner ++ "}" ++ ws ++ fence)%string)
      with (String c (inner ++ "}" ++ ws ++ fence)).
    cbn [lastClose]. now rewrite IH.
Qed.

Lemma fencedBody_body (ws1 inner ws2 : string) :
  allWhiteSpace ws1 = true -> allWhiteSpace ws2 = true ->
  fencedBody (ws1 ++ "{" ++ inner ++ "}" ++ ws2 ++ fence)
  = Some ("{" ++ inner ++ "}").
Proof.
  intros H1 H2. unfold fencedBody.
  change (("{" ++ inner ++ "}" ++ ws2 ++ fence)%string)
    with (String "{" (inner ++ "}" ++ ws2 ++ fence)).
  rewrite (trimStart_allWhiteSpace ws1 "{" _ H1 eq_refl).
  cbn [isOpenBrace]. simpl Ascii.eqb. cbv iota.
  now rewrite (lastClose_body inner ws2 H2).
Qed.

Lemma startsWith_json_whiteSpace (ws rest : string) :
  allWhiteSpace ws = true ->
  startsWith "json" (ws ++ String "{" rest) = false.
Proof.
  destruct ws as [|c ws]; [reflexivity|].
  intros H. cbn [allWhiteSpace] in H. apply andb_true_iff in H as [Hc _].
  change ((String c ws ++ String "{" rest)%string)
    with (String c (ws ++ String "{" rest)).
  cbn [startsWith].
  destruct (Ascii.eqb "j" c) eqn:E; [|reflexivity].
  apply Ascii.eqb_eq in E. subst c. discriminate.
Qed.

(** X5.  The text handed to [JSON.parse]: an object in a fenced block, with
    or without the tag json, is found behind any text without a
    backtick and given back without the fence and the white space around
    it; a reply without a backtick is given back trimmed. *)
Theorem jsonTextOf_fenced :
  (forall pre tag ws1 inner ws2,
      noBacktick pre = true ->
      tag = EmptyString \/ tag = "json" ->
      allWhiteSpace ws1 = true ->
      allWhiteSpace ws2 = true ->
      jsonTextOf (pre ++ fence ++ tag ++ ws1 ++ "{" ++ inner ++ "}" ++ ws2 ++ fence)
      = "{" ++ inner ++ "}")
  /\ (forall text, noBacktick text = true -> jsonTextOf text = trim text).
Proof.
  split.
  - intros pre tag ws1 inner ws2 Hpre Htag H1 H2. unfold jsonTextOf.
    set (body := ("{" ++ inner ++ "}" ++ ws2 ++ fence)%string).
    assert (Etrim : trim (pre ++ fence ++ tag ++ ws1 ++ body)
                    = trimStart pre ++ fence ++ tag ++ ws1 ++ body).
    { unfold trim. change (fence ++ tag ++ ws1 ++ body)%string
        with (String "`" ("``" ++ tag ++ ws1 ++ body)).
      rewrite (trimStart_app pre "`" _ eq_refl).
      change (String "`" ("``" ++ tag ++ ws1 ++ body))
        with (fence ++ tag ++ ws1 ++ body)%string.
      subst body.
      rewrite <- !append_assoc.
      rewrite trimEnd_app by discriminate. reflexivity. }
    rewrite Etrim, (matchFence_skip (trimStart pre) _ (noBacktick_trimStart pre Hpre)).
    assert (Efence : fenceAt (fence ++ tag ++ ws1 ++ body) = Some ("{" ++ inner ++ "}")).
    { unfold fenceAt. rewrite startsWith_refl_app.
      change (drop 3 (fence ++ tag ++ ws1 ++ body)) with (tag ++ ws1 ++ body)%string.
      destruct Htag as [-> | ->].
      - change ("" ++ ws1 ++ body)%string with (ws1 ++ body)%string.
        subst body.
        change (("{" ++ inner ++ "}" ++ ws2 ++ fence)%string)
          with (String "{" (inner ++ "}" ++ ws2 ++ fence)).
        rewrite (startsWith_json_whiteSpace ws1 _ H1).
        apply (fencedBody_body ws1 inner ws2 H1 H2).
      - rewrite startsWith_refl_app.
        change (drop 4 ("json" ++ ws1 ++ body)) with (ws1 ++ body)%string.
        subst body. now rewrite (fencedBody_body ws1 inner ws2 H1 H2). }
    assert (Ematch : matchFence (fence ++ tag ++ ws1 ++ body) = Some ("{" ++ inner ++ "}")).
    { change (fence ++ tag ++ ws1 ++ body)%string
        with (String "`" ("``" ++ tag ++ ws1 ++ body)) in *.
      cbn [matchFence]. now rewrite Efence. }
    now rewrite Ematch.
  - intros text H. unfold jsonTextOf.
    rewrite matchFence_noBacktick; [reflexivity|].
    unfold trim. now apply noBacktick_trimEnd, noBacktick_trimStart.
Qed.

Lemma jsonTextOf_fenced_witness :
  jsonTextOf ("Here is the evaluation: " ++ fence ++ "json" ++ newline
              ++ "{" ++ " a: {b}, c " ++ "}" ++ newline ++ fence)
  = "{" ++ " a: {b}, c " ++ "}"
  /\ jsonTextOf "  {} " = "{}".
Proof.
  destruct jsonTextOf_fenced as [H1 H2]. split.
  - apply (H1 "Here is the evaluation: " "json" newline " a: {b}, c " newline);
      try reflexivity.
    now right.
  - apply (H2 "  {} "). reflexivity.
Defined.

(** *** [evaluateResponse], from the result back to the reply *)

(** X6.  When [evaluateResponse] succeeds the inputs passed the validation,
    the reply parsed to an object with a quality among the three levels
    and a non-empty feedback string, and the feedback returned has no
    white space at either end. *)
Theorem evaluateResponse_sound
    (JSON_parse : string -> result json)
    (q a c : string) (d : Z) (reply : result string) (ev : ResponseEvaluation) :
  evaluateResponse JSON_parse q a c d reply = Ok ev ->
  validateInputs q a c d = Ok tt
  /\ trim (feedback ev) = feedback ev
  /\ exists raw obj qv fb,
       reply = Ok raw
       /\ JSON_parse (jsonTextOf (trim raw)) = Ok obj
       /\ getProp obj "quality" = Ok qv
       /\ qualityOf qv = Some (quality ev)
       /\ getProp obj "feedback" = Ok (Some (JString fb))
       /\ fb <> EmptyString
       /\ feedback ev = trim (if hasExplanation fb then explorePrefix ++ fb else fb).
Proof.
  unfold evaluateResponse, parseEvaluation, checkEvaluation.
  destruct (validateInputs q a c d) as [[]|m]; simpl; [|discriminate].
  destruct reply as [raw|m]; simpl; [|discriminate].
  destruct (JSON_parse (jsonTextOf (trim raw))) as [obj|m] eqn:P; simpl;
    [|discriminate].
  destruct (getProp obj "quality") as [qv|m] eqn:Q; simpl; [|discriminate].
  destruct (falsyProp qv); simpl; [discriminate|].
  destruct (qualityOf qv) as [ql|] eqn:L; simpl; [|discriminate].
  destruct (getProp obj "feedback") as [[[| | |fb| |]|]|m] eqn:F; simpl;
    try discriminate.
  destruct (falsy fb) eqn:E; simpl; [discriminate|].
  intros H. injection H as <-. simpl.
  split; [reflexivity|]. split; [apply trim_idempotent|].
  exists raw, obj, qv, fb.
  repeat (split; [assumption || reflexivity|]).
  split; [now apply isEmpty_false | reflexivity].
Qed.

Lemma evaluateResponse_sound_witness :
  validateInputs "What is it?" "I am not sure" "Cells" 1 = Ok tt
  /\ trim (feedback {| quality := partial; feedback := "Think about energy." |})
     = feedback {| quality := partial; feedback := "Think about energy." |}.
Proof.
  destruct (evaluateResponse_sound
              (fun _ => Ok (sampleEvaluation "Think about energy. "))
              "What is it?" "I am not sure" "Cells" 1 (Ok "{}")
              {| quality := partial; feedback := "Think about energy." |})
    as (H1 & H2 & _).
  - reflexivity.
  - exact (conj H1 H2).
Defined.

End GeminiFacts.

(** ** The thinking score *)

Module ProgressCalculatorFacts.

Import JsNumber ProgressCalculator.

(** Comparisons of binary64 numbers. *)

Lemma SFcompare_antisym (x y : number) :
  SFcompare y x = option_map CompOpp (SFcompare x y).
Proof.
  destruct x as [sx|sx| |sx mx ex], y as [sy|sy| |sy my ey]; simpl;
    try reflexivity;
    try (destruct sx; reflexivity);
    try (destruct sy; reflexivity);
    try (destruct sx, sy; reflexivity).
  destruct sx, sy; simpl; try reflexivity;
    rewrite (Z.compare_antisym ex ey);
    destruct (ex ?= ey); simpl; try reflexivity;
    rewrite (Pos.compare_cont_antisym mx my Eq); simpl;
    try rewrite CompOpp_involutive; reflexivity.
Qed.

Lemma lt_not_ge (x y : number) : lt x y = true -> ge x y = false.
Proof.
  unfold lt, ge, SFltb, SFleb. rewrite (SFcompare_antisym x y).
  destruct (SFcompare x y) as [[]|]; simpl; congruence.
Qed.

Lemma gt_not_le (x y : number) : gt x y = true -> le x y = false.
Proof.
  unfold gt, le, SFltb, SFleb. rewrite (SFcompare_antisym x y).
  destruct (SFcompare x y) as [[]|]; simpl; congruence.
Qed.

Lemma positive_truthy (x : number) : gt x n0 = true -> truthy x = true.
Proof. destruct x as [s|s| |s m e]; simpl; try reflexivity; discriminate. Qed.

(** A number above a positive finite bound is above every positive
    finite bound of a smaller exponent. *)
Lemma above_exponent (x : number) (mh ml : positive) (eh el : Z) :
  gt x (S754_finite false mh eh) = true ->
  el < eh ->
  SFcompare x (S754_finite false ml el) = Some Gt.
Proof.
  intros H He. unfold gt, SFltb in H.
  destruct x as [s|s| |s m e]; simpl in *; try discriminate.
  - destruct s; [discriminate | reflexivity].
  - destruct s; [discriminate|].
    destruct (Z.compare_spec eh e) as [E|E|E]; try discriminate.
    + subst e. now rewrite (proj2 (Z.compare_gt_iff eh el)) by lia.
    + now rewrite (proj2 (Z.compare_gt_iff e el)) by lia.
Qed.

Lemma above_five (x : number) :
  gt x n5 = true -> lt x n2 = false /\ ge x n2 = true.
Proof.
  intros H.
  pose proof (above_exponent x _ 4503599627370496 _ (-51) H eq_refl) as E.
  unfold lt, ge, SFltb, SFleb. rewrite (SFcompare_antisym x n2).
  unfold n2. rewrite E. split; reflexivity.
Qed.

Lemma above_ten (x : number) :
  gt x n10 = true ->
  lt x n2 = false /\ le x n5 = false /\ le x n10 = false.
Proof.
  intros H.
  pose proof (above_exponent x _ 4503599627370496 _ (-51) H eq_refl) as E2.
  pose proof (above_exponent x _ 5629499534213120 _ (-50) H eq_refl) as E5.
  split; [|split].
  - unfold lt, SFltb, n2. now rewrite E2.
  - unfold le, SFleb, n5. now rewrite E5.
  - now apply gt_not_le.
Qed.

Lemma timeBonus_ranges (avg : number) :
  (ge avg n2 = true -> le avg n5 = true -> timeBonusOfAverage avg = n20)
  /\ (lt avg n2 = true -> timeBonusOfAverage avg = n10)
  /\ (gt avg n5 = true -> le avg n10 = true -> timeBonusOfAverage avg = n15)
  /\ (gt avg n10 = true -> timeBonusOfAverage avg = n5).
Proof.
  unfold timeBonusOfAverage. repeat split.
  - intros -> ->. reflexivity.
  - intros H. now rewrite (lt_not_ge _ _ H), H.
  - intros H5 H10. destruct (above_five _ H5) as [-> _].
    now rewrite (gt_not_le _ _ H5), andb_false_r, H10.
  - intros H. destruct (above_ten _ H) as (-> & -> & ->).
    now rewrite andb_false_r.
Qed.

(** C7 (as amended).  For all inputs the score is the clamped and
    rounded value of correctness - min(hintsUsed * 2, 20) + timeBonus,
    where correctness is (correctAnswers / totalQuestions) * 60 when
    totalQuestions > 0 and 0 otherwise, and timeBonus is 10 unless
    timeSpentMinutes is given and positive and totalQuestions > 0; in
    that case, with avg = timeSpentMinutes / totalQuestions, it is 20
    for avg in [2,5], 10 for avg < 2, 15 for avg in (5,10] and 5 for
    avg > 10.  The scores of (8, 2, 25, 10) and of (0, 0, no time, 0)
    are 64 and 10. *)
Theorem calculateThinkingScore_formula :
  (forall (c h : number) (t : option number) (n : number),
      exists timeBonus,
        calculateThinkingScore c h t (Some n)
        = clampAndRound
            (add (sub (correctnessPart c n) (Math_min (mul h n2) n20))
                 timeBonus)
        /\ (timed t n = None -> timeBonus = n10)
        /\ (forall x, timed t n = Some x ->
              let avg := div x n in
              (ge avg n2 = true -> le avg n5 = true -> timeBonus = n20)
              /\ (lt avg n2 = true -> timeBonus = n10)
              /\ (gt avg n5 = true -> le avg n10 = true -> timeBonus = n15)
              /\ (gt avg n10 = true -> timeBonus = n5)))
  /\ calculateThinkingScore (ofZ 8) (ofZ 2) (Some (ofZ 25)) (Some (ofZ 10))
     = ofZ 64
  /\ calculateThinkingScore (ofZ 0) (ofZ 0) None (Some (ofZ 0)) = ofZ 10.
Proof.
  split; [|split; vm_compute; reflexivity].
  intros c h t n. unfold calculateThinkingScore, clampAndRound, correctnessPart, timed.
  destruct t as [t|].
  - destruct (gt t n0) eqn:Ht.
    + rewrite (positive_truthy _ Ht). simpl.
      destruct (gt n n0) eqn:Hn.
      * exists (timeBonusOfAverage (div t n)). split; [reflexivity|].
        split; [discriminate|].
        intros x Hx. injection Hx as <-. apply timeBonus_ranges.
      * exists n10. split; [reflexivity|]. split; [reflexivity | discriminate].
    + exists n10. rewrite andb_false_r. simpl.
      split; [reflexivity|]. split; [reflexivity | discriminate].
  - exists n10. split; [reflexivity|]. split; [reflexivity | discriminate].
Qed.

Lemma calculateThinkingScore_formula_witness :
  exists timeBonus,
    calculateThinkingScore (ofZ 8) (ofZ 2) (Some (ofZ 25)) (Some (ofZ 10))
    = clampAndRound
        (add (sub (correctnessPart (ofZ 8) (ofZ 10))
                  (Math_min (mul (ofZ 2) n2) n20))
             timeBonus)
    /\ timeBonus = n20.
Proof.
  destruct calculateThinkingScore_formula as [H _].
  destruct (H (ofZ 8) (ofZ 2) (Some (ofZ 25)) (ofZ 10)) as (b & Hs & _ & Hr).
  exists b. split; [exact Hs|].
  destruct (Hr (ofZ 25) eq_refl) as (H20 & _).
  apply H20; reflexivity.
Defined.

(** C7 as stated fails when no question was asked and time was spent:
    the code gives the flat bonus 10, the claimed formula the bonus 5 of
    an average above 10 (25 / 0 is +Infinity). *)
Lemma calculateThinkingScore_zero_questions_counterexample :
  calculateThinkingScore (ofZ 0) (ofZ 0) (Some (ofZ 25)) (Some (ofZ 0)) = ofZ 10
  /\ claimedThinkingScore (ofZ 0) (ofZ 0) (Some (ofZ 25)) (ofZ 0) = Some (ofZ 5)
  /\ ofZ 10 <> ofZ 5.
Proof. repeat split; vm_compute; congruence. Qed.

(** *** The cap of the penalty and the time of a session *)

Lemma SFcompare_positive (m1 m2 : positive) (e1 e2 : Z) :
  SFcompare (S754_finite false m1 e1) (S754_finite false m2 e2)
  = Some match e1 ?= e2 with
         | Lt => Lt
         | Gt => Gt
         | Eq => Pos.compare_cont Eq m1 m2
         end.
Proof. reflexivity. Qed.

(** [Math.min(x, 20)] is 20 as soon as [x >= 20]. *)
Lemma Math_min_cap (x : number) : ge x n20 = true -> Math_min x n20 = n20.
Proof.
  unfold ge, SFleb, Math_min, SFltb, n20.
  destruct x as [s|s| |s m e]; try discriminate.
  - now destruct s.
  - destruct s; [discriminate|].
    cbn [isNaN orb]. rewrite SFcompare_positive.
    destruct (Z.compare_spec (-48) e) as [E|E|E]; try discriminate;
      try reflexivity.
    subst e. destruct (Pos.compare_cont Eq 5629499534213120 m) eqn:P;
      try discriminate; try reflexivity.
    apply Pos.compare_eq in P. now subst m.
Qed.

(** X7.  From ten hints on the penalty is the same: whenever hintsUsed * 2
    is at least 20 the score is the score with ten hints. *)
Theorem hints_penalty_capped (c h : number) (t n : option number) :
  ge (mul h n2) n20 = true ->
  calculateThinkingScore c h t n = calculateThinkingScore c (ofZ 10) t n.
Proof.
  intros H. unfold calculateThinkingScore.
  rewrite (Math_min_cap _ H).
  replace (Math_min (mul (ofZ 10) n2) n20) with n20 by (vm_compute; reflexivity).
  reflexivity.
Qed.

Lemma hints_penalty_capped_witness :
  calculateThinkingScore (ofZ 8) (ofZ 37) (Some (ofZ 25)) (Some (ofZ 10))
  = calculateThinkingScore (ofZ 8) (ofZ 10) (Some (ofZ 25)) (Some (ofZ 10)).
Proof.
  apply (hints_penalty_capped (ofZ 8) (ofZ 37) (Some (ofZ 25)) (Some (ofZ 10))).
  vm_compute. reflexivity.
Defined.

Lemma sub_diag_falsy (x : number) : truthy (sub x x) = false.
Proof.
  destruct x as [s|s| |s m e]; simpl.
  - now destruct s.
  - now destruct s.
  - reflexivity.
  - unfold sub, SFsub. now rewrite Z.sub_diag.
Qed.

Lemma calculateTimeSpent_falsy (x : number) :
  truthy (calculateTimeSpent x x) = false.
Proof.
  unfold calculateTimeSpent. cbv zeta.
  pose proof (sub_diag_falsy x) as H.
  replace (mul (ofZ 1000) (ofZ 60))
    with (S754_finite false 8246337208320000 (-37)) by (vm_compute; reflexivity).
  destruct (sub x x) as [s|s| |s m e]; try discriminate; reflexivity.
Qed.

(** X8.  A session whose end is its start gets the flat time bonus: with
    the time [calculateTimeSpent] gives for two equal dates, valid or
    not, the score is the score without a time. *)
Theorem unchanged_session_flat_bonus (x c h : number) (n : option number) :
  calculateThinkingScore c h (Some (calculateTimeSpent x x)) n
  = calculateThinkingScore c h None n.
Proof.
  unfold calculateThinkingScore. now rewrite calculateTimeSpent_falsy.
Qed.

End ProgressCalculatorFacts.

(** ** The dialogue controller *)

Module LearningInterfaceFacts.

Import LearningInterface JsStringFacts.

Local Open Scope list_scope.

Ltac break_if :=
  match goal with
  | |- context [if ?b then _ else _] => destruct b eqn:?
  end.

(** *** The difficulty policy *)

Lemma quality_eqb_eq (a b : QualityLevel) : quality_eqb a b = true <-> a = b.
Proof. destruct a, b; simpl; split; congruence. Qed.

Lemma forallb_quality (q : QualityLevel) (w : list QualityLevel) :
  forallb (fun x => quality_eqb x q) w = true <-> Forall (eq q) w.
Proof.
  rewrite forallb_forall, Forall_forall. split; intros H x Hx.
  - symmetry. now apply quality_eqb_eq, H.
  - apply quality_eqb_eq. symmetry. now apply H.
Qed.

Lemma needs_work_not_strong (w : list QualityLevel) :
  w <> [] -> Forall (eq needs_work) w ->
  forallb (fun q => quality_eqb q strong) w = false.
Proof.
  destruct w as [|q w]; [congruence|]. intros _ H.
  inversion H; subst. reflexivity.
Qed.

(** C2.  On a window [w] of exactly three labels, read at difficulty
    [d]: three [strong] below level 4 raise the difficulty by one and
    empty the window; three [needs_work] above level 1 lower it by one
    and empty the window; in every other case the state is left as it
    is, the window with its three labels and the difficulty. *)
Theorem checkAndAdjustDifficulty_policy
    (st : State) (w : list QualityLevel) (d : Z) :
  List.length w = 3%nat ->
  recentQualities st = w ->
  currentDifficulty st = d ->
  let st' := fst (checkAndAdjustDifficulty (render st) w st) in
  (Forall (eq strong) w -> d < 4 ->
     currentDifficulty st' = d + 1 /\ recentQualities st' = [])
  /\ (Forall (eq needs_work) w -> 1 < d ->
        currentDifficulty st' = d - 1 /\ recentQualities st' = [])
  /\ (~ (Forall (eq strong) w /\ d < 4) ->
      ~ (Forall (eq needs_work) w /\ 1 < d) ->
        st' = st /\ currentDifficulty st' = d /\ recentQualities st' = w
        /\ List.length (recentQualities st') = 3%nat).
Proof.
  intros Hlen Hw Hd st'. subst st'. unfold checkAndAdjustDifficulty.
  rewrite Hlen. change (Z.of_nat 3 =? 3) with true. cbv iota.
  change (r_currentDifficulty (render st)) with (currentDifficulty st).
  rewrite Hd. split; [|split].
  - intros Hs H4. apply forallb_quality in Hs. apply Z.ltb_lt in H4.
    rewrite Hs, H4. simpl. split; reflexivity.
  - intros Hn H1.
    rewrite (needs_work_not_strong w);
      [| intros E; rewrite E in Hlen; discriminate | exact Hn].
    apply forallb_quality in Hn. apply Z.ltb_lt in H1.
    rewrite Hn, H1. simpl. split; reflexivity.
  - intros Hs Hn.
    assert (Es : forallb (fun q => quality_eqb q strong) w && (d <? 4) = false).
    { apply not_true_is_false. intros E. apply andb_true_iff in E as [E1 E2].
      apply Hs. split; [now apply forallb_quality | now apply Z.ltb_lt]. }
    assert (En : forallb (fun q => quality_eqb q needs_work) w && (1 <? d) = false).
    { apply not_true_is_false. intros E. apply andb_true_iff in E as [E1 E2].
      apply Hn. split; [now apply forallb_quality | now apply Z.ltb_lt]. }
    rewrite Es, En. simpl. rewrite Hw, Hlen. auto.
Qed.

Lemma checkAndAdjustDifficulty_policy_witness :
  let full := secondAttemptState |> setRecentQualities [strong; strong; strong] in
  let low :=
    secondAttemptState |> setRecentQualities [needs_work; needs_work; needs_work] in
  (currentDifficulty
     (fst (checkAndAdjustDifficulty (render full) [strong; strong; strong] full))
   = 2
   /\ recentQualities
        (fst (checkAndAdjustDifficulty (render full) [strong; strong; strong] full))
      = [])
  /\ (currentDifficulty
        (fst (checkAndAdjustDifficulty (render low)
                [needs_work; needs_work; needs_work] low))
      = 1
      /\ recentQualities
           (fst (checkAndAdjustDifficulty (render low)
                   [needs_work; needs_work; needs_work] low))
         = [needs_work; needs_work; needs_work]).
Proof.
  split.
  - destruct (checkAndAdjustDifficulty_policy
                (secondAttemptState |> setRecentQualities [strong; strong; strong])
                [strong; strong; strong] 1 eq_refl eq_refl eq_refl)
      as (H & _).
    apply H; [repeat constructor | lia].
  - destruct (checkAndAdjustDifficulty_policy
                (secondAttemptState
                   |> setRecentQualities [needs_work; needs_work; needs_work])
                [needs_work; needs_work; needs_work] 1 eq_refl eq_refl eq_refl)
      as (_ & _ & H).
    destruct H as (_ & Hd & Hw & _).
    + intros [F _]. inversion F. discriminate.
    + intros [_ F]. lia.
    + exact (conj Hd Hw).
Defined.

Lemma pushQuality_window (r : Render) (q : QualityLevel) (st : State) :
  recentQualities (fst (pushQuality r q st))
  = let w := lastThree (recentQualities st ++ [q]) in
    if adjusts (r_currentDifficulty r) w then [] else w.
Proof.
  unfold pushQuality, checkAndAdjustDifficulty, adjusts. cbv zeta.
  destruct (Z.of_nat (List.length (lastThree (recentQualities st ++ [q]))) =? 3);
    [|reflexivity].
  destruct (forallb (fun x => quality_eqb x strong) _ && _); [reflexivity|].
  destruct (forallb (fun x => quality_eqb x needs_work) _ && _); reflexivity.
Qed.

(** On a window that is full once the label is pushed, the updater
    stores the window and runs the policy on it. *)
Lemma pushQuality_full_window (r : Render) (q : QualityLevel) (st : State)
    (w : list QualityLevel) :
  lastThree (recentQualities st ++ [q]) = w ->
  List.length w = 3%nat ->
  pushQuality r q st
  = checkAndAdjustDifficulty r w (st |> setRecentQualities w).
Proof.
  intros Hw Hlen. unfold pushQuality. cbv zeta. rewrite Hw, Hlen. reflexivity.
Qed.

Lemma pushQuality_difficulty (r : Render) (q : QualityLevel) (st : State) :
  let d := r_currentDifficulty r in
  let d' := currentDifficulty (fst (pushQuality r q st)) in
  d' = currentDifficulty st
  \/ (d' = d + 1 /\ d < 4)
  \/ (d' = d - 1 /\ 1 < d).
Proof.
  unfold pushQuality, checkAndAdjustDifficulty. cbv zeta.
  destruct (Z.of_nat (List.length (lastThree (recentQualities st ++ [q]))) =? 3);
    [|left; reflexivity].
  destruct (forallb (fun x => quality_eqb x strong) _); simpl.
  - destruct (r_currentDifficulty r <? 4) eqn:E.
    + right. left. apply Z.ltb_lt in E. split; [reflexivity | exact E].
    + destruct (forallb (fun x => quality_eqb x needs_work) _); simpl;
        [|left; reflexivity].
      destruct (1 <? r_currentDifficulty r) eqn:E1; [|left; reflexivity].
      right. right. apply Z.ltb_lt in E1. split; [reflexivity | exact E1].
  - destruct (forallb (fun x => quality_eqb x needs_work) _); simpl;
      [|left; reflexivity].
    destruct (1 <? r_currentDifficulty r) eqn:E1; [|left; reflexivity].
    right. right. apply Z.ltb_lt in E1. split; [reflexivity | exact E1].
Qed.

Lemma pushQuality_frame (r : Render) (q : QualityLevel) (st : State) :
  sameSession (fst (pushQuality r q st)) st.
Proof.
  unfold pushQuality, checkAndAdjustDifficulty, sameSession. cbv zeta.
  repeat break_if; simpl; repeat split; reflexivity.
Qed.

Lemma pushQuality_effects (r : Render) (q : QualityLevel) (st : State) :
  forall req, ~ In (OracleCall req) (snd (pushQuality r q st)).
Proof.
  intros req. unfold pushQuality, checkAndAdjustDifficulty. cbv zeta.
  repeat break_if; simpl; intuition discriminate.
Qed.

Lemma handleSubmitAnswer_blocked p r ev ex st :
  blocked p r = true -> handleSubmitAnswer p r ev ex st = (st, []).
Proof.
  unfold blocked, handleSubmitAnswer. intros H.
  destruct (JsString.length (trim (r_userAnswer r)) <? 20); [reflexivity|].
  simpl in H. now rewrite H.
Qed.

Lemma blocked_false p r :
  blocked p r = false ->
  (JsString.length (trim (r_userAnswer r)) <? 20) = false
  /\ (falsy (r_currentQuestionText r) || falsy (pdfContent p)) = false.
Proof.
  unfold blocked. intros H. rewrite <- orb_assoc in H.
  now apply orb_false_iff in H.
Qed.

Lemma handleSubmitAnswer_failed p r m ex st :
  blocked p r = false ->
  handleSubmitAnswer p r (Err m) ex st
  = (submitted r st |> setError (Some m) |> setIsLoading false |> setUserAnswer "",
     [evaluationCall p r; ConsoleError "Error evaluating answer:"]).
Proof.
  intros H. apply blocked_false in H as [H1 H2].
  unfold handleSubmitAnswer. rewrite H1, H2. reflexivity.
Qed.

(** After a successful evaluation that is not [strong]. *)
Lemma handleSubmitAnswer_weak p r ev ex st :
  blocked p r = false ->
  quality ev <> strong ->
  handleSubmitAnswer p r (Ok ev) ex st
  = (fst (pushQuality r (quality ev) (submitted r st))
       |> updMessages (fun prev =>
            prev ++ [{| msg_type := ai_explanation; msg_content := feedback ev |}])
       |> updConversationHistory (fun prev =>
            prev ++ [{| role := assistant; content := feedback ev;
                        type := explanation |}])
       |> setCurrentAttempts (r_currentAttempts r + 1)
       |> setShowHintButton true
       |> setIsLoading false
       |> setUserAnswer "",
     evaluationCall p r
     :: snd (pushQuality r (quality ev) (submitted r st))
     ++ (if 3 <=? r_currentAttempts r + 1
         then [SetTimeout (AdvanceTimer r false) 2000] else [])).
Proof.
  intros H Hq. apply blocked_false in H as [H1 H2].
  unfold handleSubmitAnswer. rewrite H1, H2. cbv zeta.
  fold (answerTurn r). fold (submitted r st).
  assert (E : quality_eqb (quality ev) strong = false).
  { destruct (quality ev); simpl; congruence. }
  unfold andThen at 2 3. rewrite E.
  destruct (pushQuality r (quality ev) (submitted r st)) as [st3 e3].
  simpl. rewrite app_nil_r. reflexivity.
Qed.

Lemma handleSubmitAnswer_strong p r ev ex st :
  blocked p r = false ->
  quality ev = strong ->
  handleSubmitAnswer p r (Ok ev) ex st
  = let pushed := pushQuality r strong (submitted r st) in
    let call := OracleCall (Call_generateExplanation (r_currentQuestionText r)
                              (r_userAnswer r) (pdfContent p)
                              (r_currentDifficulty r)) in
    match ex with
    | Ok text =>
        (fst pushed
           |> updMessages (fun prev =>
                prev ++ [{| msg_type := ai_explanation; msg_content := text |}])
           |> updConversationHistory (fun prev =>
                prev ++ [{| role := assistant; content := text;
                            type := explanation |}])
           |> setIsLoading false
           |> setUserAnswer "",
         evaluationCall p r
         :: snd pushed ++ [call; SetTimeout (AdvanceTimer r true) 2000])
    | Err m =>
        (fst pushed |> setError (Some m) |> setIsLoading false |> setUserAnswer "",
         evaluationCall p r
         :: snd pushed ++ [call; ConsoleError "Error evaluating answer:"])
    end.
Proof.
  intros H Hq. apply blocked_false in H as [H1 H2].
  unfold handleSubmitAnswer. rewrite H1, H2. cbv zeta.
  fold (answerTurn r). fold (submitted r st).
  unfold andThen at 2 3. rewrite Hq. simpl quality_eqb. cbv iota.
  destruct (pushQuality r strong (submitted r st)) as [st3 e3].
  destruct ex; simpl; rewrite ?app_nil_r; reflexivity.
Qed.

Lemma blocked_iff p r :
  blocked p r = true
  <-> (JsString.length (trim (r_userAnswer r)) < 20
       \/ r_currentQuestionText r = "" \/ pdfContent p = "")%string.
Proof.
  unfold blocked, falsy. rewrite !orb_true_iff, Z.ltb_lt, !isEmpty_true. tauto.
Qed.

Lemma handleSubmitAnswer_calls p r ev ex st :
  blocked p r = false ->
  (exists later,
      conversationHistory (fst (handleSubmitAnswer p r ev ex st))
      = conversationHistory st ++ answerTurn r :: later)
  /\ (exists rest,
        snd (handleSubmitAnswer p r ev ex st) = evaluationCall p r :: rest).
Proof.
  intros H. destruct ev as [ev|m].
  - destruct (quality_eqb (quality ev) strong) eqn:E.
    + apply quality_eqb_eq in E.
      rewrite (handleSubmitAnswer_strong p r ev ex st H E). cbv zeta.
      destruct (pushQuality_frame r strong (submitted r st))
        as (_ & _ & _ & _ & Hh & _).
      destruct ex as [text|m]; simpl; rewrite Hh; simpl;
        (split; [|eexists; reflexivity]).
      * exists [{| role := assistant; content := text; type := explanation |}].
        now rewrite <- app_assoc.
      * exists []. reflexivity.
    + assert (Hq : quality ev <> strong).
      { intros Hq. rewrite Hq in E. discriminate. }
      rewrite (handleSubmitAnswer_weak p r ev ex st H Hq).
      destruct (pushQuality_frame r (quality ev) (submitted r st))
        as (_ & _ & _ & _ & Hh & _).
      simpl. rewrite Hh. simpl. split; [|eexists; reflexivity].
      exists [{| role := assistant; content := feedback ev; type := explanation |}].
      now rewrite <- app_assoc.
  - rewrite (handleSubmitAnswer_failed p r m ex st H). simpl.
    split; [exists [] | eexists]; reflexivity.
Qed.

(** C3 (as amended).  [handleSubmitAnswer] changes nothing and calls no
    oracle exactly when the answer, trimmed, has fewer than 20
    characters, or no question is pending, or the content is empty; an
    answer of fewer than 20 characters is such a case.  For every
    answer that has 20 characters or more once trimmed, with a pending
    question and a content that is not empty, the answer as typed is
    appended to the conversation history and the first effect is the
    request for its evaluation. *)
Theorem handleSubmitAnswer_guard p r ev ex st :
  ((JsString.length (trim (r_userAnswer r)) < 20
    \/ r_currentQuestionText r = "" \/ pdfContent p = "")%string
   <-> handleSubmitAnswer p r ev ex st = (st, []))
  /\ (JsString.length (r_userAnswer r) < 20 ->
      handleSubmitAnswer p r ev ex st = (st, []))
  /\ (20 <= JsString.length (trim (r_userAnswer r)) ->
      r_currentQuestionText r <> ""%string -> pdfContent p <> ""%string ->
      (exists later,
          conversationHistory (fst (handleSubmitAnswer p r ev ex st))
          = conversationHistory st ++ answerTurn r :: later)
      /\ (exists rest,
            snd (handleSubmitAnswer p r ev ex st) = evaluationCall p r :: rest)).
Proof.
  assert (Hcalls : blocked p r = false ->
                   handleSubmitAnswer p r ev ex st <> (st, [])).
  { intros H E. destruct (handleSubmitAnswer_calls p r ev ex st H) as [_ [rest Hr]].
    rewrite E in Hr. discriminate. }
  split; [|split].
  - rewrite <- blocked_iff. split.
    + apply handleSubmitAnswer_blocked.
    + intros E. destruct (blocked p r) eqn:B; [reflexivity|].
      now destruct (Hcalls eq_refl).
  - intros Hlen. apply handleSubmitAnswer_blocked, blocked_iff. left.
    pose proof (trim_length (r_userAnswer r)). lia.
  - intros Hlen Hq Hc. apply handleSubmitAnswer_calls.
    destruct (blocked p r) eqn:B; [|reflexivity].
    apply blocked_iff in B. intuition lia.
Qed.

Lemma handleSubmitAnswer_guard_witness :
  (exists later,
      conversationHistory
        (fst (handleSubmitAnswer sampleProps (render (state sampleSystem))
                (Ok weakEvaluation) (Err "unused") (state sampleSystem)))
      = conversationHistory (state sampleSystem)
        ++ answerTurn (render (state sampleSystem)) :: later)
  /\ (exists rest,
        snd (handleSubmitAnswer sampleProps (render (state sampleSystem))
               (Ok weakEvaluation) (Err "unused") (state sampleSystem))
        = evaluationCall sampleProps (render (state sampleSystem)) :: rest).
Proof.
  apply (handleSubmitAnswer_guard sampleProps (render (state sampleSystem))
           (Ok weakEvaluation) (Err "unused") (state sampleSystem)).
  - vm_compute. discriminate.
  - vm_compute. discriminate.
  - vm_compute. discriminate.
Defined.

(** C3 as stated fails: an answer of 20 characters that are all spaces,
    typed while a question is pending over a content that is not empty,
    is neither appended nor evaluated. *)
Lemma handleSubmitAnswer_blank_counterexample :
  let st := state sampleSystem |> setUserAnswer "                    " in
  JsString.length (userAnswer st) = 20
  /\ currentQuestionText st <> ""%string
  /\ pdfContent sampleProps <> ""%string
  /\ handleSubmitAnswer sampleProps (render st) (Ok weakEvaluation)
       (Err "unused") st
     = (st, []).
Proof. vm_compute. repeat split; discriminate. Qed.

Lemma submitted_window r st : recentQualities (submitted r st) = recentQualities st.
Proof. reflexivity. Qed.

(** The window after a successful evaluation: one label pushed. *)
Lemma handleSubmitAnswer_window p r ev ex st :
  blocked p r = false ->
  recentQualities (fst (handleSubmitAnswer p r (Ok ev) ex st))
  = let w := lastThree (recentQualities st ++ [quality ev]) in
    if adjusts (r_currentDifficulty r) w then [] else w.
Proof.
  intros H. rewrite <- (submitted_window r st), <- pushQuality_window.
  destruct (quality_eqb (quality ev) strong) eqn:E.
  - apply quality_eqb_eq in E.
    rewrite (handleSubmitAnswer_strong p r ev ex st H E). cbv zeta.
    rewrite E. destruct ex; reflexivity.
  - assert (Hq : quality ev <> strong).
    { intros Hq. rewrite Hq in E. discriminate. }
    rewrite (handleSubmitAnswer_weak p r ev ex st H Hq). reflexivity.
Qed.

(** C5.  When the evaluation fails, the conversation history is the
    former one followed by the answer that was submitted, and the
    quality window, the attempts, the hints, the difficulty and the
    question number are the former ones.  When the same answer is then
    typed again and evaluated, the window is the former window with the
    one new label pushed (and emptied if the policy fires on it): the
    window a single successful submission gives. *)
Theorem evaluation_failure_and_retry p st m ex ev ex' :
  blocked p (render st) = false ->
  let failed := fst (handleSubmitAnswer p (render st) (Err m) ex st) in
  let retyped := handleAnswerChange (userAnswer st) failed in
  let retried :=
    fst (handleSubmitAnswer p (render retyped) (Ok ev) ex' retyped) in
  let w := lastThree (recentQualities st ++ [quality ev]) in
  conversationHistory failed
  = conversationHistory st ++ [answerTurn (render st)]
  /\ recentQualities failed = recentQualities st
  /\ currentAttempts failed = currentAttempts st
  /\ hintsUsed failed = hintsUsed st
  /\ currentDifficulty failed = currentDifficulty st
  /\ currentQuestionNumber failed = currentQuestionNumber st
  /\ recentQualities retried
     = (if adjusts (currentDifficulty st) w then [] else w)
  /\ recentQualities retried
     = recentQualities (fst (handleSubmitAnswer p (render st) (Ok ev) ex' st)).
Proof.
  intros H failed retyped retried w. subst failed retyped retried.
  rewrite (handleSubmitAnswer_failed p (render st) m ex st H).
  repeat (split; [reflexivity|]).
  set (retyped := handleAnswerChange _ _).
  assert (Hb : blocked p (render retyped) = false) by exact H.
  rewrite (handleSubmitAnswer_window p (render retyped) ev ex' retyped Hb).
  rewrite (handleSubmitAnswer_window p (render st) ev ex' st H).
  split; reflexivity.
Qed.

Lemma evaluation_failure_and_retry_witness :
  let st := state sampleSystem in
  let failed :=
    fst (handleSubmitAnswer sampleProps (render st) (Err "quota") (Err "unused") st) in
  let retyped := handleAnswerChange (userAnswer st) failed in
  let retried :=
    fst (handleSubmitAnswer sampleProps (render retyped) (Ok weakEvaluation)
           (Err "unused") retyped) in
  conversationHistory failed = conversationHistory st ++ [answerTurn (render st)]
  /\ recentQualities failed = []
  /\ recentQualities retried = [needs_work].
Proof.
  destruct (evaluation_failure_and_retry sampleProps (state sampleSystem)
              "quota" (Err "unused") weakEvaluation (Err "unused") eq_refl)
    as (H1 & H2 & _ & _ & _ & _ & H3 & _).
  exact (conj H1 (conj H2 H3)).
Defined.

Lemma generateNextQuestion_frame p r reply st :
  let st' := fst (generateNextQuestion p r reply st) in
  currentAttempts st' = currentAttempts st
  /\ hintsUsed st' = hintsUsed st
  /\ currentQuestionNumber st' = currentQuestionNumber st
  /\ currentDifficulty st' = currentDifficulty st
  /\ recentQualities st' = recentQualities st.
Proof.
  unfold generateNextQuestion, markExplored. cbv zeta.
  destruct (falsy (pdfContent p)); [repeat split; reflexivity|].
  destruct reply;
    destruct (0 <? Z.of_nat (List.length (topics p)));
    try destruct (topicAt (topics p) _) as [t|];
    try destruct (falsy t);
    repeat split; reflexivity.
Qed.

Lemma generateNextQuestion_calls p r reply st :
  pdfContent p <> ""%string ->
  exists rest,
    snd (generateNextQuestion p r reply st) = questionCall p r :: rest
    /\ forall req, ~ In (OracleCall req) rest.
Proof.
  intros H. apply isEmpty_false in H. unfold generateNextQuestion, falsy.
  rewrite H. destruct reply; simpl; eexists; (split; [reflexivity|]);
    simpl; intuition discriminate.
Qed.

Lemma pushQuality_no_explanation r q st :
  existsb explanationCall (snd (pushQuality r q st)) = false.
Proof.
  unfold pushQuality, checkAndAdjustDifficulty. cbv zeta.
  repeat break_if; reflexivity.
Qed.

Lemma advance_eq p r celebrate reply st :
  advance p r celebrate reply st
  = (fst (generateNextQuestion p r reply (cleared st)),
     (if celebrate
      then [Toast toast_success "Great job! Moving to the next question..."]
      else [])
     ++ snd (generateNextQuestion p r reply (cleared st))).
Proof.
  unfold advance, andThen. fold (cleared st).
  now destruct (generateNextQuestion p r reply (cleared st)).
Qed.

(** C4.  When an evaluation that is not [strong] comes for an answer
    submitted at two attempts, the handler asks for no explanation,
    counts three attempts and starts the 2000 ms callback; that callback
    leaves no attempt and no hint counted, adds one to the question
    number and asks the oracle for the next question and for nothing
    else; the callback of a [strong] outcome does the same, a toast
    apart. *)
Theorem third_attempt_forces_advance p st ev ex reply :
  blocked p (render st) = false ->
  quality ev <> strong ->
  currentAttempts st = 2 ->
  let r := render st in
  let answered := handleSubmitAnswer p r (Ok ev) ex st in
  let advanced := runTimer p (AdvanceTimer r false) reply (fst answered) in
  let afterStrong := runTimer p (AdvanceTimer r true) reply (fst answered) in
  existsb explanationCall (snd answered) = false
  /\ In (SetTimeout (AdvanceTimer r false) 2000) (snd answered)
  /\ currentAttempts (fst answered) = 3
  /\ currentAttempts (fst advanced) = 0
  /\ hintsUsed (fst advanced) = 0
  /\ currentQuestionNumber (fst advanced) = currentQuestionNumber st + 1
  /\ (exists rest,
        snd advanced = questionCall p r :: rest
        /\ forall req, ~ In (OracleCall req) rest)
  /\ fst afterStrong = fst advanced
  /\ snd afterStrong
     = Toast toast_success "Great job! Moving to the next question..."
       :: snd advanced.
Proof.
  intros H Hq Ha r answered advanced afterStrong.
  assert (Hc : pdfContent p <> ""%string).
  { intros E. apply blocked_false in H as [_ H].
    apply orb_false_iff in H as [_ H]. rewrite E in H. discriminate. }
  subst advanced afterStrong. unfold runTimer. rewrite !advance_eq.
  cbn [fst snd app].
  destruct (generateNextQuestion_frame p r reply (cleared (fst answered)))
    as (Fa & Fh & Fn & _).
  rewrite Fa, Fh, Fn. subst answered.
  rewrite (handleSubmitAnswer_weak p r ev ex st H Hq). cbn [fst snd].
  destruct (pushQuality_frame r (quality ev) (submitted r st))
    as (_ & Pn & _).
  change (r_currentAttempts r) with (currentAttempts st). rewrite Ha.
  change (3 <=? 2 + 1) with true. cbv iota.
  repeat split; try reflexivity.
  - simpl existsb. rewrite existsb_app, pushQuality_no_explanation. reflexivity.
  - right. apply in_or_app. right. now left.
  - simpl. rewrite Pn. reflexivity.
  - apply generateNextQuestion_calls, Hc.
Qed.

Lemma third_attempt_forces_advance_witness :
  let r := render secondAttemptState in
  let answered :=
    handleSubmitAnswer sampleProps r (Ok weakEvaluation) (Err "unused")
      secondAttemptState in
  let advanced :=
    runTimer sampleProps (AdvanceTimer r false) (Ok "What is meiosis?")
      (fst answered) in
  existsb explanationCall (snd answered) = false
  /\ currentAttempts (fst answered) = 3
  /\ currentAttempts (fst advanced) = 0
  /\ hintsUsed (fst advanced) = 0
  /\ currentQuestionNumber (fst advanced) = 2.
Proof.
  destruct (third_attempt_forces_advance sampleProps secondAttemptState
              weakEvaluation (Err "unused") (Ok "What is meiosis?") eq_refl)
    as (H1 & _ & H3 & H4 & H5 & H6 & _).
  - discriminate.
  - reflexivity.
  - exact (conj H1 (conj H3 (conj H4 (conj H5 H6)))).
Defined.

(** *** Hints *)

Lemma handleGetHint_refused p r reply st :
  (3 <= r_hintsUsed r \/ r_currentQuestionText r = "" \/ pdfContent p = "")%string ->
  handleGetHint p r reply st = (st, []).
Proof.
  intros H. unfold handleGetHint.
  replace ((3 <=? r_hintsUsed r) || falsy (r_currentQuestionText r)
           || falsy (pdfContent p)) with true; [reflexivity|].
  symmetry. rewrite !orb_true_iff, Z.leb_le. unfold falsy.
  rewrite !isEmpty_true. tauto.
Qed.

Lemma handleGetHint_served p r reply st :
  r_hintsUsed r < 3 ->
  r_currentQuestionText r <> ""%string ->
  pdfContent p <> ""%string ->
  let st' := fst (handleGetHint p r reply st) in
  (exists rest,
      snd (handleGetHint p r reply st) = hintCall p r :: rest
      /\ forall req, ~ In (OracleCall req) rest)
  /\ conversationHistory st' = conversationHistory st
  /\ currentAttempts st' = currentAttempts st
  /\ currentQuestionNumber st' = currentQuestionNumber st
  /\ currentDifficulty st' = currentDifficulty st
  /\ recentQualities st' = recentQualities st
  /\ currentQuestionText st' = currentQuestionText st
  /\ (forall hint, reply = Ok hint ->
        hintsUsed st' = hintsUsed st + 1
        /\ messages st' = messages st ++ [hintMessage r hint])
  /\ (forall m, reply = Err m ->
        hintsUsed st' = hintsUsed st /\ messages st' = messages st).
Proof.
  intros Hh Hq Hc. unfold handleGetHint.
  apply Z.leb_gt in Hh. apply isEmpty_false in Hq, Hc. unfold falsy.
  rewrite Hh, Hq, Hc. cbv zeta. simpl orb. cbv iota.
  fold (hintCall p r).
  destruct reply as [hint|m].
  - fold (hintMessage r hint).
    destruct (3 <=? hintsUsed _); cbn [fst snd];
      (split; [eexists; split; [reflexivity | simpl; tauto]|]);
      repeat (split; [reflexivity|]);
      (split; [intros h E; injection E as <-; split; reflexivity
              | intros m E; discriminate]).
  - cbn [fst snd].
    split; [eexists; split; [reflexivity | simpl; intuition discriminate]|].
    repeat (split; [reflexivity|]).
    split; [intros h E; discriminate | intros m' E; split; reflexivity].
Qed.

(** *** What is reachable *)

Lemma state_commit (pending : list Timer) (s : Step) :
  state (commit pending s) = fst s.
Proof. reflexivity. Qed.

Lemma generateNextQuestion_no_content p r reply st :
  pdfContent p = ""%string -> generateNextQuestion p r reply st = (st, []).
Proof. intros E. unfold generateNextQuestion. now rewrite E. Qed.

Lemma showIntroExplanation_no_content p r reply st :
  pdfContent p = ""%string -> showIntroExplanation p r reply st = (st, []).
Proof. intros E. unfold showIntroExplanation. now rewrite E. Qed.

(** A question is only ever pending over a content that is not empty. *)
Lemma pending_question_has_content p sys :
  reachable p sys ->
  pdfContent p = ""%string -> currentQuestionText (state sys) = ""%string.
Proof.
  intros R E. induction R as [|sys e sys' R IH D]; [reflexivity|].
  destruct e; simpl in D.
  - rewrite E in D. discriminate.
  - injection D as <-. rewrite state_commit, handleSubmitAnswer_blocked; [exact IH|].
    apply blocked_iff. auto.
  - injection D as <-. rewrite state_commit, handleGetHint_refused; auto.
  - destruct (lastErrorAction (state sys)) as [[r|r]|]; [| |discriminate];
      injection D as <-; rewrite state_commit; simpl;
      rewrite ?showIntroExplanation_no_content, ?generateNextQuestion_no_content
        by exact E; exact IH.
  - injection D as <-. rewrite state_commit. destruct confirmed; [reflexivity | exact IH].
  - injection D as <-. exact IH.
  - destruct (nth_error (timers sys) i) as [[r|r c|]|]; [| | |discriminate];
      injection D as <-; rewrite state_commit; simpl.
    + rewrite generateNextQuestion_no_content by exact E. exact IH.
    + rewrite advance_eq, generateNextQuestion_no_content by exact E. exact IH.
    + exact IH.
Qed.

(** The 2000 ms callback asks for the next question as the closure of the
    render [r] of the submission: with the question number, the history
    and the difficulty of that render, while the state it leaves counts
    one question more than the state it found. *)
Remark advance_asks_from_render p r celebrate reply st :
  pdfContent p <> ""%string ->
  currentQuestionNumber (fst (advance p r celebrate reply st))
  = currentQuestionNumber st + 1
  /\ In (OracleCall (Call_generateSocraticQuestion (pdfContent p)
                       (r_currentDifficulty r) (r_conversationHistory r)
                       (focusTopic (topics p) (r_currentQuestionNumber r))))
        (snd (advance p r celebrate reply st)).
Proof.
  intros Hc. rewrite advance_eq. cbn [fst snd].
  destruct (generateNextQuestion_frame p r reply (cleared st)) as (_ & _ & -> & _).
  split; [reflexivity|].
  destruct (generateNextQuestion_calls p r reply (cleared st) Hc) as (rest & -> & _).
  apply in_or_app. right. now left.
Qed.

(** C6.  In a reachable state, [handleGetHint] changes nothing and calls
    no oracle when three hints are used or no question is pending.
    Otherwise it asks for hint number [hintsUsed + 1] and makes no other
    call; the conversation history, the attempts, the question number,
    the difficulty, the quality window and the question are left as
    they are; when the oracle answers, one hint more is counted and the
    hint is appended to the displayed messages; when it fails, the hint
    count and the messages are the former ones. *)
Theorem handleGetHint_effect p sys reply :
  reachable p sys ->
  let st := state sys in
  let r := render st in
  let st' := fst (handleGetHint p r reply st) in
  ((3 <= hintsUsed st \/ currentQuestionText st = "")%string ->
     handleGetHint p r reply st = (st, []))
  /\ (hintsUsed st < 3 -> currentQuestionText st <> ""%string ->
      (exists rest,
          snd (handleGetHint p r reply st) = hintCall p r :: rest
          /\ forall req, ~ In (OracleCall req) rest)
      /\ conversationHistory st' = conversationHistory st
      /\ currentAttempts st' = currentAttempts st
      /\ currentQuestionNumber st' = currentQuestionNumber st
      /\ currentDifficulty st' = currentDifficulty st
      /\ recentQualities st' = recentQualities st
      /\ currentQuestionText st' = currentQuestionText st
      /\ (forall hint, reply = Ok hint ->
            hintsUsed st' = hintsUsed st + 1
            /\ messages st' = messages st ++ [hintMessage r hint])
      /\ (forall m, reply = Err m ->
            hintsUsed st' = hintsUsed st /\ messages st' = messages st)).
Proof.
  intros R st r st'. split.
  - intros H. apply handleGetHint_refused. simpl. tauto.
  - intros Hh Hq. apply (handleGetHint_served p r reply st Hh Hq).
    intros E. apply Hq. exact (pending_question_has_content p sys R E).
Qed.

Lemma run_reachable p events sys sys' :
  reachable p sys -> run p events sys = Some sys' -> reachable p sys'.
Proof.
  revert sys. induction events as [|e events IH]; simpl; intros sys R H.
  - injection H as <-. exact R.
  - destruct (dispatch p e sys) as [sys1|] eqn:D; [|discriminate].
    exact (IH sys1 (reachable_step p sys e sys1 R D) H).
Qed.

Lemma handleGetHint_effect_witness :
  let st := state sampleSystem in
  let st' := fst (handleGetHint sampleProps (render st) (Ok "Think of copies.") st) in
  hintsUsed st' = 1
  /\ conversationHistory st' = conversationHistory st
  /\ messages st'
     = messages st ++ [hintMessage (render st) "Think of copies."].
Proof.
  destruct (handleGetHint_effect sampleProps sampleSystem (Ok "Think of copies."))
    as [_ H].
  - apply (run_reachable sampleProps sampleEvents initialSystem);
      [apply reachable_init | reflexivity].
  - destruct H as (_ & Hh & _ & _ & _ & _ & _ & Hok & _).
    + vm_compute. reflexivity.
    + vm_compute. discriminate.
    + destruct (Hok _ eq_refl) as [Hn Hm].
      exact (conj Hn (conj Hh Hm)).
Defined.

(** *** The difficulty *)

Lemma showIntroExplanation_difficulty p r reply st :
  currentDifficulty (fst (showIntroExplanation p r reply st))
  = currentDifficulty st.
Proof.
  unfold showIntroExplanation.
  destruct (falsy (pdfContent p)); [reflexivity|]. now destruct reply.
Qed.

Lemma handleGetHint_difficulty p r reply st :
  currentDifficulty (fst (handleGetHint p r reply st)) = currentDifficulty st.
Proof.
  unfold handleGetHint. cbv zeta.
  destruct (_ || _ || _); [reflexivity|].
  destruct reply; [|reflexivity]. now destruct (3 <=? hintsUsed _).
Qed.

Lemma runTimer_difficulty p t reply st :
  currentDifficulty (fst (runTimer p t reply st)) = currentDifficulty st.
Proof.
  destruct t as [r|r c|]; simpl; [| |reflexivity].
  - apply generateNextQuestion_frame.
  - rewrite advance_eq. cbn [fst].
    now destruct (generateNextQuestion_frame p r reply (cleared st))
      as (_ & _ & _ & -> & _).
Qed.

Lemma runRetry_difficulty p a reply st :
  currentDifficulty (fst (runRetry p a reply st)) = currentDifficulty st.
Proof.
  destruct a as [r|r]; simpl.
  - apply showIntroExplanation_difficulty.
  - apply generateNextQuestion_frame.
Qed.

(** A submitted answer moves the difficulty by one level at most, and
    only after an evaluation; [r] is any render. *)
Lemma handleSubmitAnswer_difficulty p r st evaluation ex :
  let d := r_currentDifficulty r in
  let d' := currentDifficulty (fst (handleSubmitAnswer p r evaluation ex st)) in
  d' = currentDifficulty st
  \/ ((exists ev, evaluation = Ok ev)
      /\ ((d' = d + 1 /\ d < 4) \/ (d' = d - 1 /\ 1 < d))).
Proof.
  cbv zeta. destruct (blocked p r) eqn:B.
  - rewrite handleSubmitAnswer_blocked by exact B. now left.
  - destruct evaluation as [ev|m].
    + assert (E : currentDifficulty (fst (handleSubmitAnswer p r (Ok ev) ex st))
                  = currentDifficulty
                      (fst (pushQuality r (quality ev) (submitted r st)))).
      { destruct (quality_eqb (quality ev) strong) eqn:Q.
        - apply quality_eqb_eq in Q.
          rewrite (handleSubmitAnswer_strong p r ev ex st B Q). cbv zeta.
          rewrite Q. now destruct ex.
        - assert (Hq : quality ev <> strong).
          { intros Hq. rewrite Hq in Q. discriminate. }
          now rewrite (handleSubmitAnswer_weak p r ev ex st B Hq). }
      rewrite E.
      destruct (pushQuality_difficulty r (quality ev) (submitted r st)) as [H|H].
      * left. exact H.
      * right. split; [now exists ev | exact H].
    + rewrite handleSubmitAnswer_failed by exact B. now left.
Qed.

Lemma dispatch_difficulty p e sys sys' :
  dispatch p e sys = Some sys' ->
  let d := currentDifficulty (state sys) in
  let d' := currentDifficulty (state sys') in
  d' = d
  \/ ((exists ev ex, e = ClickSubmit (Ok ev) ex)
      /\ ((d' = d + 1 /\ d < 4) \/ (d' = d - 1 /\ 1 < d)))
  \/ (e = ClickNewSession true /\ d' = 1).
Proof.
  intros D. cbv zeta. destruct e; simpl in D.
  - destruct (_ && _); [|discriminate]. injection D as <-.
    rewrite state_commit, showIntroExplanation_difficulty. now left.
  - injection D as <-. rewrite state_commit.
    destruct (handleSubmitAnswer_difficulty p (render (state sys)) (state sys)
                evaluation explained) as [H|[[ev ->] H]].
    + now left.
    + right. left. split; [now exists ev, explained | exact H].
  - injection D as <-. rewrite state_commit, handleGetHint_difficulty. now left.
  - destruct (lastErrorAction (state sys)); [|discriminate]. injection D as <-.
    rewrite state_commit, runRetry_difficulty. now left.
  - injection D as <-. rewrite state_commit. destruct confirmed.
    + right. right. split; reflexivity.
    + now left.
  - injection D as <-. now left.
  - destruct (nth_error (timers sys) i); [|discriminate]. injection D as <-.
    rewrite state_commit, runTimer_difficulty. now left.
Qed.



(** *** The focus topic *)

Lemma keepStrings_truthy (items : list json) :
  Forall (fun t => falsy t = false) (keepStrings items).
Proof.
  induction items as [|v items IH]; simpl; [constructor|].
  destruct v; try exact IH.
  destruct s as [|c s]; simpl; [exact IH|].
  constructor; [reflexivity | exact IH].
Qed.

Lemma topicIndex_range (ts : list string) (n : Z) :
  ts <> [] -> 1 <= n ->
  0 <= topicIndex ts n < Z.of_nat (List.length ts).
Proof.
  intros Hne Hn. unfold topicIndex.
  assert (0 < Z.of_nat (List.length ts)) by (destruct ts; simpl; [congruence | lia]).
  assert (0 <= (n - 1) / 3) by (apply Z.div_pos; lia). lia.
Qed.

Lemma focusTopic_index (ts : list string) (n : Z) :
  Forall (fun t => falsy t = false) ts ->
  ts <> [] -> 1 <= n ->
  exists t,
    nth_error ts (Z.to_nat (Z.min ((n - 1) / 3) (Z.of_nat (List.length ts) - 1)))
    = Some t
    /\ focusTopic ts n = Some t.
Proof.
  intros Hall Hne Hn. pose proof (topicIndex_range ts n Hne Hn) as Hr.
  unfold focusTopic, topicAt at 1. fold (topicIndex ts n).
  destruct (topicIndex ts n <? 0) eqn:E; [apply Z.ltb_lt in E; lia|].
  destruct (nth_error ts (Z.to_nat (topicIndex ts n))) as [t|] eqn:Ht.
  - exists t. split; [reflexivity|]. simpl.
    rewrite Forall_forall in Hall.
    now rewrite (Hall t (nth_error_In _ _ Ht)).
  - apply nth_error_None in Ht. lia.
Qed.

(** The focus topic as a function of the question number the closure
    reads.  When the topic list, as [analyzePDFContent] keeps it, is not
    empty and the content is not empty, [generateNextQuestion] passes
    to the oracle the topic at index
    min(floor((currentQuestionNumber - 1) / 3), topics.length - 1) of
    the question number of its render.  For three topics A, B and C the
    numbers 1 to 9 give A, A, A, B, B, B, C, C, C and every number from
    10 on gives C. *)
Theorem focusTopic_selection :
  (forall p r reply st items,
      topics p = keepStrings items ->
      topics p <> [] ->
      pdfContent p <> ""%string ->
      1 <= r_currentQuestionNumber r ->
      exists t rest,
        nth_error (topics p)
          (Z.to_nat (Z.min ((r_currentQuestionNumber r - 1) / 3)
                           (Z.of_nat (List.length (topics p)) - 1)))
        = Some t
        /\ snd (generateNextQuestion p r reply st)
           = OracleCall (Call_generateSocraticQuestion (pdfContent p)
                           (r_currentDifficulty r) (r_conversationHistory r)
                           (Some t))
             :: rest)
  /\ (forall A B C : string,
         A <> ""%string -> B <> ""%string -> C <> ""%string ->
         map (focusTopic [A; B; C]) [1; 2; 3; 4; 5; 6; 7; 8; 9]
         = [Some A; Some A; Some A; Some B; Some B; Some B;
            Some C; Some C; Some C]
         /\ forall n, 10 <= n -> focusTopic [A; B; C] n = Some C).
Proof.
  split.
  - intros p r reply st items Ht Hne Hc Hn.
    assert (Hall : Forall (fun t => falsy t = false) (topics p)).
    { rewrite Ht. apply keepStrings_truthy. }
    destruct (focusTopic_index (topics p) (r_currentQuestionNumber r) Hall Hne Hn)
      as (t & Hnth & Hf).
    destruct (generateNextQuestion_calls p r reply st Hc) as (rest & Hs & _).
    exists t, rest. split; [exact Hnth|]. now rewrite <- Hf.
  - intros A B C HA HB HC.
    apply isEmpty_false in HA, HB, HC.
    split.
    + unfold focusTopic, topicIndex, orElse, falsy. simpl.
      now rewrite HA, HB, HC.
    + intros n Hn. unfold focusTopic, topicIndex, orElse, falsy.
      assert (3 <= (n - 1) / 3) by (apply Z.div_le_lower_bound; lia).
      replace (Z.min ((n - 1) / 3) (Z.of_nat (List.length [A; B; C]) - 1))
        with 2 by (simpl; lia).
      simpl. now rewrite HC.
Qed.

Lemma focusTopic_selection_witness :
  exists rest,
    snd (generateNextQuestion sampleProps (render (state sampleSystem))
           (Ok "What is meiosis?") (state sampleSystem))
    = OracleCall (Call_generateSocraticQuestion (pdfContent sampleProps) 1
                    (conversationHistory (state sampleSystem))
                    (Some "Mitosis"%string))
      :: rest.
Proof.
  destruct focusTopic_selection as [H _].
  destruct (H sampleProps (render (state sampleSystem)) (Ok "What is meiosis?")
              (state sampleSystem)
              [JString "Mitosis"; JNull; JString "Meiosis"; JString "";
               JString "Cell cycle"])
    as (t & rest & Ht & Hs).
  - reflexivity.
  - discriminate.
  - discriminate.
  - vm_compute. discriminate.
  - exists rest. vm_compute in Ht. injection Ht as <-. exact Hs.
Defined.

(** *** The question number the callback reads *)

Lemma questionTopics_none (effects : list Effect) :
  (forall req, ~ In (OracleCall req) effects) -> questionTopics effects = [].
Proof.
  induction effects as [|e effects IH]; intros H; [reflexivity|].
  unfold questionTopics in *. cbn [flat_map].
  rewrite IH by (intros req Hin; apply (H req); now right).
  destruct e as [req| | | |]; try reflexivity.
  elim (H req). now left.
Qed.

Lemma questionTopics_app (a b : list Effect) :
  questionTopics (a ++ b) = questionTopics a ++ questionTopics b.
Proof. unfold questionTopics. apply flat_map_app. Qed.

(** C8.  The 2000 ms callback adds one to the question number and then
    runs the [generateNextQuestion] of the render of the submission,
    which reads the number before the increment: when that render shows
    the number of the state, the request for the next question carries
    the focus topic of the question just answered.  With the topics A,
    B and C, the questions 1 to 9 of a session are asked with the focus
    topics A, A, A, A, B, B, B, C, C, where the index
    min(floor((questionNumber - 1) / 3), topics.length - 1) gives A, A,
    A, B, B, B, C, C, C. *)
Theorem focus_topic_lags_behind :
  (forall p r celebrate reply st,
      pdfContent p <> "" ->
      r_currentQuestionNumber r = currentQuestionNumber st ->
      currentQuestionNumber (fst (advance p r celebrate reply st))
      = currentQuestionNumber st + 1
      /\ questionTopics (snd (advance p r celebrate reply st))
         = [focusTopic (topics p) (currentQuestionNumber st)])
  /\ asked threeTopics nineQuestions initialSystem
     = [(1, Some "A"); (2, Some "A"); (3, Some "A");
        (4, Some "A"); (5, Some "B"); (6, Some "B");
        (7, Some "B"); (8, Some "C"); (9, Some "C")]
  /\ map (focusTopic (topics threeTopics)) [1; 2; 3; 4; 5; 6; 7; 8; 9]
     = [Some "A"; Some "A"; Some "A"; Some "B"; Some "B"; Some "B";
        Some "C"; Some "C"; Some "C"].
Proof.
  split; [|split; vm_compute; reflexivity].
  intros p r celebrate reply st Hc Hr. rewrite advance_eq. cbn [fst snd].
  destruct (generateNextQuestion_frame p r reply (cleared st)) as (_ & _ & -> & _).
  split; [reflexivity|].
  destruct (generateNextQuestion_calls p r reply (cleared st) Hc)
    as (rest & -> & Hrest).
  rewrite questionTopics_app.
  replace (questionTopics
             (if celebrate
              then [Toast toast_success "Great job! Moving to the next question..."]
              else [])) with (@nil (option string)) by now destruct celebrate.
  unfold questionCall. change (questionTopics (?c :: rest)) with
    (questionTopics [c] ++ questionTopics rest).
  cbn [app]. unfold questionTopics at 1. cbn [flat_map app].
  rewrite (questionTopics_none rest Hrest), Hr. reflexivity.
Qed.

Lemma focus_topic_lags_behind_witness :
  currentQuestionNumber
    (fst (advance threeTopics (render (state sampleSystem)) true
            (Ok "And then?") (state sampleSystem)))
  = 2
  /\ questionTopics
       (snd (advance threeTopics (render (state sampleSystem)) true
               (Ok "And then?") (state sampleSystem)))
     = [Some "A"].
Proof.
  destruct focus_topic_lags_behind as [H _].
  apply (H threeTopics (render (state sampleSystem)) true (Ok "And then?")
           (state sampleSystem)).
  - discriminate.
  - reflexivity.
Defined.

(** *** What each handler writes *)

Lemma timersOf_app_effects (a b : list Effect) :
  timersOf (a ++ b) = timersOf a ++ timersOf b.
Proof.
  induction a as [|e a IH]; simpl; [reflexivity|].
  destruct e; simpl; now rewrite IH.
Qed.


Lemma lastThree_length {A : Type} (l : list A) :
  (List.length (lastThree l) <= 3)%nat.
Proof. unfold lastThree. rewrite length_skipn. lia. Qed.

Lemma extends_refl {A : Type} (l : list A) : extends l l.
Proof. exists []. now rewrite app_nil_r. Qed.

Lemma extends_app {A : Type} (l more : list A) : extends l (l ++ more).
Proof. now exists more. Qed.

Lemma extends_trans {A : Type} (a b c : list A) :
  extends a b -> extends b c -> extends a c.
Proof. intros [x ->] [y ->]. exists (x ++ y). now rewrite app_assoc. Qed.

Lemma addTopic_NoDup (t : string) (l : list string) :
  NoDup l -> NoDup (addTopic t l).
Proof.
  intros H. unfold addTopic. destruct (existsb (String.eqb t) l) eqn:E; [exact H|].
  apply NoDup_app; [exact H | repeat constructor; simpl; tauto |].
  intros x Hx [Ex|[]]. subst x.
  assert (existsb (String.eqb t) l = true); [|congruence].
  apply existsb_exists. exists t. split; [exact Hx | apply String.eqb_refl].
Qed.

Lemma addTopic_incl (t : string) (l ts : list string) :
  In t ts -> incl l ts -> incl (addTopic t l) ts.
Proof.
  intros Ht H. unfold addTopic. destruct (existsb (String.eqb t) l); [exact H|].
  intros x Hx. apply in_app_or in Hx as [Hx|[<-|[]]]; auto.
Qed.

Lemma topicAt_In (ts : list string) (i : Z) (t : string) :
  topicAt ts i = Some t -> In t ts.
Proof.
  unfold topicAt. destruct (i <? 0); [discriminate|]. apply nth_error_In.
Qed.

Lemma markExplored_explored (ts : list string) (n : Z) (st : State) :
  NoDup (exploredTopics st) -> incl (exploredTopics st) ts ->
  NoDup (exploredTopics (markExplored ts n st))
  /\ incl (exploredTopics (markExplored ts n st)) ts.
Proof.
  intros Hn Hi. unfold markExplored.
  destruct (0 <? Z.of_nat (List.length ts)); [|auto].
  destruct (topicAt ts (topicIndex ts n)) as [t|] eqn:E; [|auto].
  destruct (falsy t); [auto|]. simpl. split.
  - now apply addTopic_NoDup.
  - apply addTopic_incl; [exact (topicAt_In _ _ _ E) | exact Hi].
Qed.

(** The fields [markExplored] leaves. *)
Lemma markExplored_frame (ts : list string) (n : Z) (st : State) :
  let st' := markExplored ts n st in
  currentQuestionText st' = currentQuestionText st
  /\ currentQuestionNumber st' = currentQuestionNumber st
  /\ currentAttempts st' = currentAttempts st
  /\ hintsUsed st' = hintsUsed st
  /\ conversationHistory st' = conversationHistory st
  /\ currentDifficulty st' = currentDifficulty st
  /\ recentQualities st' = recentQualities st
  /\ messages st' = messages st
  /\ lastErrorAction st' = lastErrorAction st.
Proof.
  unfold markExplored. cbv zeta.
  destruct (0 <? Z.of_nat (List.length ts)); [|repeat split; reflexivity].
  destruct (topicAt ts (topicIndex ts n)) as [t|]; [|repeat split; reflexivity].
  destruct (falsy t); repeat split; reflexivity.
Qed.

Lemma generateNextQuestion_eq p r reply st :
  pdfContent p <> "" ->
  generateNextQuestion p r reply st
  = match reply with
    | Ok questionText =>
        (asking p r st
           |> setCurrentQuestionText questionText
           |> updMessages (fun prev =>
                prev ++ [{| msg_type := ai_question; msg_content := questionText |}])
           |> updConversationHistory (fun prev =>
                prev ++ [{| role := assistant; content := questionText;
                            type := question |}])
           |> setLastErrorAction None
           |> setIsLoading false,
         [questionCall p r])
    | Err errorMessage =>
        (asking p r st
           |> setError (Some (shownError errorMessage))
           |> setIsLoading false,
         [questionCall p r;
          ConsoleError "Error generating question:";
          Toast toast_error "Failed to generate question. Click retry to try again."])
    end.
Proof.
  intros H. apply isEmpty_false in H. unfold generateNextQuestion, falsy.
  rewrite H. reflexivity.
Qed.

Lemma generateNextQuestion_footprint p r reply st :
  let st' := fst (generateNextQuestion p r reply st) in
  currentDifficulty st' = currentDifficulty st
  /\ hintsUsed st' = hintsUsed st
  /\ currentQuestionNumber st' = currentQuestionNumber st
  /\ currentAttempts st' = currentAttempts st
  /\ recentQualities st' = recentQualities st
  /\ extends (conversationHistory st) (conversationHistory st')
  /\ extends (messages st) (messages st')
  /\ (NoDup (exploredTopics st) -> incl (exploredTopics st) (topics p) ->
      NoDup (exploredTopics st') /\ incl (exploredTopics st') (topics p))
  /\ (lastErrorAction st' = lastErrorAction st
      \/ lastErrorAction st' = Some (RetryQuestion r)
      \/ lastErrorAction st' = None)
  /\ timersOf (snd (generateNextQuestion p r reply st)) = [].
Proof.
  cbv zeta. destruct (String.eqb (pdfContent p) "") eqn:E.
  - apply String.eqb_eq in E. rewrite generateNextQuestion_no_content by exact E.
    simpl. repeat split; auto using extends_refl.
  - apply String.eqb_neq in E. rewrite generateNextQuestion_eq by exact E.
    pose proof (markExplored_frame (topics p) (r_currentQuestionNumber r)
                  (st |> setIsLoading true |> setError None
                      |> setLastErrorAction (Some (RetryQuestion r)))) as F.
    cbv zeta in F. destruct F as (F1 & F2 & F3 & F4 & F5 & F6 & F7 & F8 & F9).
    pose proof (markExplored_explored (topics p) (r_currentQuestionNumber r)
                  (st |> setIsLoading true |> setError None
                      |> setLastErrorAction (Some (RetryQuestion r)))) as G.
    fold (asking p r st) in F1, F2, F3, F4, F5, F6, F7, F8, F9, G.
    destruct reply as [q|m]; cbn [fst snd]; simpl;
      rewrite ?F2, ?F3, ?F4, ?F5, ?F6, ?F7, ?F8, ?F9; simpl;
      repeat split; auto using extends_refl, extends_app.
  all: try (now apply G).
Qed.

Lemma showIntroExplanation_footprint p r reply st :
  let st' := fst (showIntroExplanation p r reply st) in
  currentDifficulty st' = currentDifficulty st
  /\ hintsUsed st' = hintsUsed st
  /\ currentQuestionNumber st' = currentQuestionNumber st
  /\ currentAttempts st' = currentAttempts st
  /\ recentQualities st' = recentQualities st
  /\ exploredTopics st' = exploredTopics st
  /\ extends (conversationHistory st) (conversationHistory st')
  /\ extends (messages st) (messages st')
  /\ (lastErrorAction st' = lastErrorAction st
      \/ lastErrorAction st' = Some (RetryIntro r)
      \/ lastErrorAction st' = None)
  /\ (timersOf (snd (showIntroExplanation p r reply st)) = []
      \/ timersOf (snd (showIntroExplanation p r reply st)) = [NextQuestionTimer r]).
Proof.
  cbv zeta. unfold showIntroExplanation.
  destruct (falsy (pdfContent p)).
  - simpl. repeat split; auto using extends_refl.
  - destruct reply as [intro|m]; simpl;
      repeat split; auto using extends_refl, extends_app.
Qed.

Lemma handleGetHint_footprint p r reply st :
  let st' := fst (handleGetHint p r reply st) in
  currentDifficulty st' = currentDifficulty st
  /\ currentQuestionNumber st' = currentQuestionNumber st
  /\ currentAttempts st' = currentAttempts st
  /\ recentQualities st' = recentQualities st
  /\ exploredTopics st' = exploredTopics st
  /\ lastErrorAction st' = lastErrorAction st
  /\ conversationHistory st' = conversationHistory st
  /\ extends (messages st) (messages st')
  /\ (hintsUsed st' = hintsUsed st
      \/ (hintsUsed st' = hintsUsed st + 1 /\ r_hintsUsed r < 3))
  /\ timersOf (snd (handleGetHint p r reply st)) = [].
Proof.
  cbv zeta. unfold handleGetHint. cbv zeta.
  destruct (3 <=? r_hintsUsed r) eqn:E; simpl orb; cbv iota.
  - simpl. repeat split; auto using extends_refl.
  - apply Z.leb_gt in E.
    destruct (falsy (r_currentQuestionText r) || falsy (pdfContent p)).
    + simpl. repeat split; auto using extends_refl.
    + destruct reply as [hint|m].
      * destruct (3 <=? hintsUsed _); cbn [fst snd]; simpl;
          repeat split; auto using extends_refl, extends_app.
      * simpl. repeat split; auto using extends_refl.
Qed.

Lemma pushQuality_more (r : Render) (q : QualityLevel) (st : State) :
  exploredTopics (fst (pushQuality r q st)) = exploredTopics st
  /\ (List.length (recentQualities (fst (pushQuality r q st))) <= 3)%nat
  /\ Forall timerInRange (timersOf (snd (pushQuality r q st))).
Proof.
  split; [|split].
  - unfold pushQuality, checkAndAdjustDifficulty. cbv zeta.
    repeat break_if; reflexivity.
  - rewrite pushQuality_window. cbv zeta.
    destruct (adjusts _ _); [simpl; lia | apply lastThree_length].
  - unfold pushQuality, checkAndAdjustDifficulty. cbv zeta.
    repeat break_if; simpl; repeat constructor.
Qed.

Lemma handleSubmitAnswer_footprint p r evaluation ex st :
  let st' := fst (handleSubmitAnswer p r evaluation ex st) in
  hintsUsed st' = hintsUsed st
  /\ currentQuestionNumber st' = currentQuestionNumber st
  /\ exploredTopics st' = exploredTopics st
  /\ lastErrorAction st' = lastErrorAction st
  /\ currentQuestionText st' = currentQuestionText st
  /\ (currentAttempts st' = currentAttempts st
      \/ currentAttempts st' = r_currentAttempts r + 1)
  /\ (recentQualities st' = recentQualities st
      \/ (List.length (recentQualities st') <= 3)%nat)
  /\ extends (conversationHistory st) (conversationHistory st')
  /\ extends (messages st) (messages st')
  /\ (renderInRange r ->
      Forall timerInRange (timersOf (snd (handleSubmitAnswer p r evaluation ex st)))).
Proof.
  cbv zeta. destruct (blocked p r) eqn:B.
  { rewrite handleSubmitAnswer_blocked by exact B. simpl.
    repeat split; auto using extends_refl. }
  destruct evaluation as [ev|m].
  2:{ rewrite handleSubmitAnswer_failed by exact B. simpl.
      repeat split; auto using extends_refl, extends_app. }
  destruct (pushQuality_frame r (quality ev) (submitted r st))
    as (P1 & P2 & P3 & P4 & P5 & P6 & P7 & P8).
  destruct (pushQuality_more r (quality ev) (submitted r st)) as (M1 & M2 & M3).
  assert (T : forall c, renderInRange r -> Forall timerInRange [AdvanceTimer r c]).
  { intros c Hr. constructor; [exact Hr | constructor]. }
  destruct (quality_eqb (quality ev) strong) eqn:Q.
  - apply quality_eqb_eq in Q.
    rewrite (handleSubmitAnswer_strong p r ev ex st B Q). cbv zeta.
    rewrite Q in *.
    destruct ex as [text|m]; cbn [fst snd]; simpl;
      rewrite ?P1, ?P2, ?P3, ?P4, ?P5, ?P6, ?P8, ?M1; simpl;
      (split; [reflexivity|]); (split; [reflexivity|]); (split; [reflexivity|]);
      (split; [reflexivity|]); (split; [reflexivity|]);
      (split; [now left|]); (split; [now right|]).
    + split; [eexists; rewrite <- app_assoc; reflexivity|].
      split; [eexists; rewrite <- app_assoc; reflexivity|].
      intros Hr. rewrite timersOf_app_effects. apply Forall_app.
      split; [exact M3 | exact (T true Hr)].
    + split; [eexists; reflexivity|]. split; [eexists; reflexivity|].
      intros Hr. rewrite timersOf_app_effects. apply Forall_app.
      split; [exact M3 | constructor].
  - assert (Hq : quality ev <> strong).
    { intros Hq. rewrite Hq in Q. discriminate. }
    rewrite (handleSubmitAnswer_weak p r ev ex st B Hq).
    cbn [fst snd]; simpl;
      rewrite ?P1, ?P2, ?P3, ?P4, ?P5, ?P6, ?P8, ?M1; simpl.
    split; [reflexivity|]. split; [reflexivity|]. split; [reflexivity|].
    split; [reflexivity|]. split; [reflexivity|].
    split; [now right|]. split; [now right|].
    split; [eexists; rewrite <- app_assoc; reflexivity|].
    split; [eexists; rewrite <- app_assoc; reflexivity|].
    intros Hr. rewrite timersOf_app_effects. apply Forall_app. split; [exact M3|].
    destruct (3 <=? r_currentAttempts r + 1); [exact (T false Hr) | constructor].
Qed.

Lemma Forall_removeNth {A : Type} (P : A -> Prop) (i : nat) (l : list A) :
  Forall P l -> Forall P (removeNth i l).
Proof.
  intros H. revert i. induction H as [|x l Hx H IH]; intros i.
  - destruct i; constructor.
  - destruct i; simpl; [exact H | constructor; [exact Hx | apply IH]].
Qed.

Lemma timers_commit (pending : list Timer) (s : Step) :
  timers (commit pending s) = pending ++ timersOf (snd s).
Proof. reflexivity. Qed.

Lemma runTimer_timers p t reply st :
  timersOf (snd (runTimer p t reply st)) = [].
Proof.
  destruct t as [r|r c|]; simpl; [| |reflexivity].
  - apply generateNextQuestion_footprint.
  - rewrite advance_eq. cbn [snd]. rewrite timersOf_app_effects.
    destruct (generateNextQuestion_footprint p r reply (cleared st))
      as (_ & _ & _ & _ & _ & _ & _ & _ & _ & ->).
    now destruct c.
Qed.

(** Every step keeps what holds of a session. *)
Lemma dispatch_sane p e sys sys' :
  sane p sys -> dispatch p e sys = Some sys' -> sane p sys'.
Proof.
  intros (Hd & Hh & Hn & Ha & Hw & Hnd & Hin & Hr & Ht) D.
  pose proof (dispatch_difficulty p e sys sys' D) as Hd'. cbv zeta in Hd'.
  assert (Hd2 : 1 <= currentDifficulty (state sys') <= 4) by lia. clear Hd'.
  unfold sane. cbv zeta. split; [exact Hd2|]. clear Hd2.
  destruct e; simpl in D.
  - (* Mount *)
    destruct (_ && _); [|discriminate]. injection D as <-.
    rewrite state_commit, timers_commit.
    destruct (showIntroExplanation_footprint p (render (state sys)) intro (state sys))
      as (_ & F2 & F3 & F4 & F5 & F6 & _ & _ & F9 & F10).
    rewrite F2, F3, F4, F5, F6.
    repeat (split; [assumption|]). split.
    + destruct F9 as [-> | [-> | ->]]; [exact Hr | exact Hd | exact I].
    + apply Forall_app. split; [exact Ht|].
      destruct F10 as [-> | ->]; [constructor | constructor; [exact Hd | constructor]].
  - (* ClickSubmit *)
    injection D as <-. rewrite state_commit, timers_commit.
    destruct (handleSubmitAnswer_footprint p (render (state sys)) evaluation
                explained (state sys))
      as (F1 & F2 & F3 & F4 & _ & F6 & F7 & _ & _ & F10).
    rewrite F1, F2, F3, F4.
    split; [exact Hh|]. split; [exact Hn|].
    split; [destruct F6 as [-> | ->]; simpl; lia|].
    split; [destruct F7 as [-> | F7]; assumption|].
    repeat (split; [assumption|]).
    apply Forall_app. split; [exact Ht | exact (F10 Hd)].
  - (* ClickHint *)
    injection D as <-. rewrite state_commit, timers_commit.
    destruct (handleGetHint_footprint p (render (state sys)) hint (state sys))
      as (_ & F2 & F3 & F4 & F5 & F6 & _ & _ & F9 & F10).
    rewrite F2, F3, F4, F5, F6, F10, app_nil_r.
    split; [destruct F9 as [-> | [-> F9]]; simpl in *; lia|].
    repeat (split; [assumption|]). exact Ht.
  - (* ClickRetry *)
    destruct (lastErrorAction (state sys)) as [[r|r]|] eqn:L; [| |discriminate];
      injection D as <-; rewrite state_commit, timers_commit; simpl.
    + destruct (showIntroExplanation_footprint p r reply (state sys))
        as (_ & F2 & F3 & F4 & F5 & F6 & _ & _ & F9 & F10).
      rewrite F2, F3, F4, F5, F6.
      repeat (split; [assumption|]). split.
      * destruct F9 as [-> | [-> | ->]]; [now rewrite L | exact Hr | exact I].
      * apply Forall_app. split; [exact Ht|].
        destruct F10 as [-> | ->]; [constructor | constructor; [exact Hr | constructor]].
    + destruct (generateNextQuestion_footprint p r reply (state sys))
        as (_ & F2 & F3 & F4 & F5 & _ & _ & F8 & F9 & F10).
      rewrite F2, F3, F4, F5, F10, app_nil_r.
      destruct (F8 Hnd Hin) as [G1 G2].
      repeat (split; [assumption|]). split; [|exact Ht].
      destruct F9 as [-> | [-> | ->]]; [now rewrite L | exact Hr | exact I].
  - (* ClickNewSession *)
    injection D as <-. rewrite state_commit, timers_commit.
    destruct confirmed; simpl.
    + rewrite app_nil_r.
      repeat split; try lia; try (constructor; fail); try assumption.
      intros x [].
    + rewrite app_nil_r. repeat (split; [assumption|]). exact Ht.
  - (* TypeAnswer *)
    injection D as <-. simpl. repeat (split; [assumption|]). exact Ht.
  - (* Fire *)
    destruct (nth_error (timers sys) i) as [t|] eqn:N; [|discriminate].
    injection D as <-. rewrite state_commit, timers_commit, runTimer_timers, app_nil_r.
    assert (Ht' : Forall timerInRange (removeNth i (timers sys)))
      by now apply Forall_removeNth.
    assert (Hrt : timerInRange t).
    { rewrite Forall_forall in Ht. apply Ht. exact (nth_error_In _ _ N). }
    destruct t as [r|r c|]; simpl.
    + destruct (generateNextQuestion_footprint p r reply (state sys))
        as (_ & F2 & F3 & F4 & F5 & _ & _ & F8 & F9 & _).
      rewrite F2, F3, F4, F5. destruct (F8 Hnd Hin) as [G1 G2].
      repeat (split; [assumption|]). split; [|exact Ht'].
      destruct F9 as [-> | [-> | ->]]; [exact Hr | exact Hrt | exact I].
    + rewrite advance_eq. cbn [fst].
      destruct (generateNextQuestion_footprint p r reply (cleared (state sys)))
        as (_ & F2 & F3 & F4 & F5 & _ & _ & F8 & F9 & _).
      rewrite F2, F3, F4, F5. destruct (F8 Hnd Hin) as [G1 G2]. simpl.
      split; [lia|]. split; [lia|]. split; [lia|].
      repeat (split; [assumption|]). split; [|exact Ht'].
      destruct F9 as [-> | [-> | ->]]; [exact Hr | exact Hrt | exact I].
    + repeat (split; [assumption|]). exact Ht'.
Qed.

Lemma reachable_sane p sys : reachable p sys -> sane p sys.
Proof.
  intros R. induction R as [|sys e sys' R IH D].
  - unfold sane. simpl. repeat split; try lia; try constructor.
    intros x [].
  - exact (dispatch_sane p e sys sys' IH D).
Qed.

(** *** What holds of every session *)

Lemma sampleSystem_reachable : reachable sampleProps sampleSystem.
Proof.
  apply (run_reachable sampleProps sampleEvents initialSystem);
    [apply reachable_init | reflexivity].
Qed.

Lemma escalatedSystem_reachable : reachable sampleProps escalatedSystem.
Proof.
  apply (run_reachable sampleProps escalationEvents initialSystem);
    [apply reachable_init | reflexivity].
Qed.

(** X9.  The window of recent qualities never holds more than three
    entries; when a new quality does not adjust the difficulty it is
    appended to a window of fewer than three, and pushes the oldest
    entry out of a window of three. *)
Theorem quality_window_slides p :
  (forall sys, reachable p sys ->
               (List.length (recentQualities (state sys)) <= 3)%nat)
  /\ (forall r q st,
         adjusts (r_currentDifficulty r) (lastThree (recentQualities st ++ [q]))
         = false ->
         ((List.length (recentQualities st) < 3)%nat ->
          recentQualities (fst (pushQuality r q st)) = recentQualities st ++ [q])
         /\ (forall a b c,
                recentQualities st = [a; b; c] ->
                recentQualities (fst (pushQuality r q st)) = [b; c; q])).
Proof.
  split.
  - intros sys R. apply (reachable_sane p sys R).
  - intros r q st H. rewrite pushQuality_window. cbv zeta. rewrite H. split.
    + intros Hl. unfold lastThree. rewrite length_app. simpl.
      replace (List.length (recentQualities st) + 1 - 3)%nat with 0%nat by lia.
      reflexivity.
    + intros a b c ->. reflexivity.
Qed.

Lemma quality_window_slides_witness :
  (List.length (recentQualities (state escalatedSystem)) <= 3)%nat
  /\ recentQualities
       (fst (pushQuality (render secondAttemptState) partial
               (secondAttemptState |> setRecentQualities [partial; strong; strong])))
     = [strong; strong; partial].
Proof.
  destruct (quality_window_slides sampleProps) as [H1 H2]. split.
  - apply H1. apply (run_reachable sampleProps escalationEvents initialSystem);
      [apply reachable_init | reflexivity].
  - destruct (H2 (render secondAttemptState) partial
                (secondAttemptState |> setRecentQualities [partial; strong; strong]))
      as [_ H]; [reflexivity|].
    apply (H partial strong strong). reflexivity.
Defined.

(** The page and the transition system agree on the events that come
    with their reply. *)
Lemma pageRun_now p events pg pg' :
  pageRun p (map Now events) pg = Some pg' ->
  run p events (page_system pg) = Some (page_system pg')
  /\ page_hints pg' = page_hints pg.
Proof.
  revert pg. induction events as [|e events IH]; intros pg; simpl.
  - intros H. injection H as <-. now split.
  - destruct (enabled e (state (page_system pg))); [|discriminate].
    destruct (dispatch p e (page_system pg)) as [sys'|]; [|discriminate].
    intros H. apply IH in H. exact H.
Qed.

(** X10.  The hints used are not bounded by 3 when a reply is late.
    [handleGetHint] is its part before the [await] followed by its part
    after it; the part after it adds one to the hint count of the state
    in which the reply arrives, whatever that count is, while the guard
    was read from the render of the click.  In a session every step of
    which the page allows (three weak answers, a hint asked for before
    the 2000 ms callback resets the count and ends the loading, a weak
    answer and three hints on the second question, then the reply to
    the first request) the count becomes 4. *)
Theorem late_hint_reply_exceeds_three :
  (forall p r reply st,
      handleGetHint p r reply st
      = match handleGetHint_request p r st with
        | Some s => andThen s (handleGetHint_reply r reply)
        | None => (st, [])
        end)
  /\ (forall r hint st,
         hintsUsed (fst (handleGetHint_reply r (Ok hint) st)) = hintsUsed st + 1)
  /\ exists pg,
       pageRun sampleProps lateHintEvents initialPage = Some pg
       /\ hintsUsed (state (page_system pg)) = 4
       /\ page_hints pg = [].
Proof.
  split; [|split].
  - intros p r reply st. unfold handleGetHint, handleGetHint_request.
    destruct ((3 <=? r_hintsUsed r) || falsy (r_currentQuestionText r)
              || falsy (pdfContent p)); [reflexivity|].
    unfold andThen, handleGetHint_reply, hintCall, hintMessage. cbv zeta.
    destruct reply; reflexivity.
  - intros r hint st. unfold handleGetHint_reply. cbv zeta.
    destruct (3 <=? _); reflexivity.
  - eexists. split; [vm_compute; reflexivity|]. split; reflexivity.
Qed.

Lemma dispatch_number p e sys sys' :
  dispatch p e sys = Some sys' ->
  let n := currentQuestionNumber (state sys) in
  let n' := currentQuestionNumber (state sys') in
  n' = n
  \/ (n' = n + 1
      /\ exists i reply r celebrate,
           e = Fire i reply
           /\ nth_error (timers sys) i = Some (AdvanceTimer r celebrate))
  \/ (e = ClickNewSession true /\ n' = 1).
Proof.
  intros D. cbv zeta. destruct e; simpl in D.
  - destruct (_ && _); [|discriminate]. injection D as <-. rewrite state_commit.
    left. apply showIntroExplanation_footprint.
  - injection D as <-. rewrite state_commit.
    left. apply handleSubmitAnswer_footprint.
  - injection D as <-. rewrite state_commit.
    left. apply handleGetHint_footprint.
  - destruct (lastErrorAction (state sys)) as [[r|r]|]; [| |discriminate];
      injection D as <-; rewrite state_commit; left; simpl.
    + apply showIntroExplanation_footprint.
    + apply generateNextQuestion_footprint.
  - injection D as <-. rewrite state_commit. destruct confirmed.
    + right. right. split; reflexivity.
    + now left.
  - injection D as <-. now left.
  - destruct (nth_error (timers sys) i) as [[r|r c|]|] eqn:N; [| | |discriminate];
      injection D as <-; rewrite state_commit; simpl.
    + left. apply generateNextQuestion_footprint.
    + right. left. rewrite advance_eq. cbn [fst].
      destruct (generateNextQuestion_footprint p r reply (cleared (state sys)))
        as (_ & _ & -> & _).
      split; [reflexivity|]. now exists i, reply, r, c.
    + now left.
Qed.

(** X11.  The question number is at least 1 in every state a session
    reaches.  A step leaves it as it is, or adds one, which only the
    timer that advances to the next question does, or sets it to 1 when
    a new session is confirmed. *)
Theorem question_number_advances p :
  (forall sys, reachable p sys -> 1 <= currentQuestionNumber (state sys))
  /\ (forall e sys sys',
         dispatch p e sys = Some sys' ->
         let n := currentQuestionNumber (state sys) in
         let n' := currentQuestionNumber (state sys') in
         n' = n
         \/ (n' = n + 1
             /\ exists i reply r celebrate,
                  e = Fire i reply
                  /\ nth_error (timers sys) i = Some (AdvanceTimer r celebrate))
         \/ (e = ClickNewSession true /\ n' = 1)).
Proof.
  split.
  - intros sys R. apply (reachable_sane p sys R).
  - intros e sys sys' D. exact (dispatch_number p e sys sys' D).
Qed.

Lemma question_number_advances_witness :
  1 <= currentQuestionNumber (state escalatedSystem)
  /\ (let n := currentQuestionNumber (state sampleSystem) in
      let n' := currentQuestionNumber
                  (state (commit (timers sampleSystem)
                            (handleNewSession true (state sampleSystem)))) in
      n' = n
      \/ (n' = n + 1
          /\ exists i reply r celebrate,
               ClickNewSession true = Fire i reply
               /\ nth_error (timers sampleSystem) i
                  = Some (AdvanceTimer r celebrate))
      \/ (ClickNewSession true = ClickNewSession true /\ n' = 1)).
Proof.
  destruct (question_number_advances sampleProps) as [H1 H2]. split.
  - apply H1, escalatedSystem_reachable.
  - apply (H2 (ClickNewSession true) sampleSystem). reflexivity.
Defined.

(** X12.  Apart from a confirmed new session, a step only appends to the
    conversation history and to the messages shown. *)
Theorem transcript_append_only p e sys sys' :
  dispatch p e sys = Some sys' ->
  e <> ClickNewSession true ->
  extends (conversationHistory (state sys)) (conversationHistory (state sys'))
  /\ extends (messages (state sys)) (messages (state sys')).
Proof.
  intros D Hne. destruct e; simpl in D.
  - destruct (_ && _); [|discriminate]. injection D as <-. rewrite state_commit.
    split; apply showIntroExplanation_footprint.
  - injection D as <-. rewrite state_commit.
    split; apply handleSubmitAnswer_footprint.
  - injection D as <-. rewrite state_commit.
    destruct (handleGetHint_footprint p (render (state sys)) hint (state sys))
      as (_ & _ & _ & _ & _ & _ & -> & F & _).
    split; [apply extends_refl | exact F].
  - destruct (lastErrorAction (state sys)) as [[r|r]|]; [| |discriminate];
      injection D as <-; rewrite state_commit; simpl.
    + split; apply showIntroExplanation_footprint.
    + split; apply generateNextQuestion_footprint.
  - injection D as <-. rewrite state_commit. destruct confirmed; [congruence|].
    split; apply extends_refl.
  - injection D as <-. split; apply extends_refl.
  - destruct (nth_error (timers sys) i) as [[r|r c|]|] eqn:N; [| | |discriminate];
      injection D as <-; rewrite state_commit; simpl.
    + split; apply generateNextQuestion_footprint.
    + rewrite advance_eq. cbn [fst].
      split; apply (generateNextQuestion_footprint p r reply (cleared (state sys))).
    + split; apply extends_refl.
Qed.

Lemma transcript_append_only_witness :
  let sys' :=
    commit (timers sampleSystem)
      (handleSubmitAnswer sampleProps (render (state sampleSystem))
         (Ok strongEvaluation) (Ok "Yes. Ready for the next question?")
         (state sampleSystem)) in
  extends (conversationHistory (state sampleSystem))
          (conversationHistory (state sys'))
  /\ extends (messages (state sampleSystem)) (messages (state sys')).
Proof.
  apply (transcript_append_only sampleProps
           (ClickSubmit (Ok strongEvaluation)
              (Ok "Yes. Ready for the next question?")) sampleSystem).
  - reflexivity.
  - discriminate.
Defined.

(** X13.  The explored topics hold no topic twice and only topics of the
    list the page was given. *)
Theorem explored_topics_from_list p sys :
  reachable p sys ->
  NoDup (exploredTopics (state sys))
  /\ incl (exploredTopics (state sys)) (topics p).
Proof.
  intros R. destruct (reachable_sane p sys R) as (_ & _ & _ & _ & _ & H1 & H2 & _).
  now split.
Qed.

Lemma explored_topics_from_list_witness :
  NoDup (exploredTopics (state sampleSystem))
  /\ incl (exploredTopics (state sampleSystem)) (topics sampleProps).
Proof.
  apply (explored_topics_from_list sampleProps), sampleSystem_reachable.
Defined.

(** X14.  In every state a session reaches, [DIFFICULTY_LEVELS] has an entry
    for the current difficulty, and it is the entry of that level. *)
Theorem difficultyInfo_defined p sys :
  reachable p sys ->
  exists info,
    difficultyInfo (state sys) = Some info
    /\ info_level info = currentDifficulty (state sys).
Proof.
  intros R. destruct (reachable_sane p sys R) as (H & _).
  unfold difficultyInfo, DIFFICULTY_LEVELS.
  assert (C : currentDifficulty (state sys) = 1 \/ currentDifficulty (state sys) = 2
              \/ currentDifficulty (state sys) = 3 \/ currentDifficulty (state sys) = 4)
    by lia.
  destruct C as [-> | [-> | [-> | ->]]]; simpl; eexists; split; reflexivity.
Qed.

Lemma difficultyInfo_defined_witness :
  exists info,
    difficultyInfo (state escalatedSystem) = Some info
    /\ info_level info = currentDifficulty (state escalatedSystem).
Proof.
  apply (difficultyInfo_defined sampleProps), escalatedSystem_reachable.
Defined.

(** *** The requests *)

Lemma showIntroExplanation_requests p r reply st req :
  In (OracleCall req) (snd (showIntroExplanation p r reply st)) ->
  OracleCall req = introCall p r.
Proof.
  unfold showIntroExplanation. destruct (falsy (pdfContent p)); [intros []|].
  cbv zeta. fold (introCall p r).
  destruct reply; simpl; intros H; intuition (try discriminate); now symmetry.
Qed.

Lemma generateNextQuestion_requests p r reply st req :
  In (OracleCall req) (snd (generateNextQuestion p r reply st)) ->
  OracleCall req = questionCall p r.
Proof.
  destruct (String.eqb (pdfContent p) "") eqn:E.
  - apply String.eqb_eq in E. rewrite generateNextQuestion_no_content by exact E.
    intros [].
  - apply String.eqb_neq in E.
    destruct (generateNextQuestion_calls p r reply st E) as (rest & -> & H).
    intros [G|G]; [now symmetry | now destruct (H req)].
Qed.

Lemma handleSubmitAnswer_requests p r evaluation ex st req :
  In (OracleCall req) (snd (handleSubmitAnswer p r evaluation ex st)) ->
  OracleCall req = evaluationCall p r \/ OracleCall req = explanationRequest p r.
Proof.
  destruct (blocked p r) eqn:B.
  { rewrite handleSubmitAnswer_blocked by exact B. intros []. }
  destruct evaluation as [ev|m].
  2:{ rewrite handleSubmitAnswer_failed by exact B. simpl.
      intros [H|[H|[]]]; [left; now symmetry | discriminate]. }
  destruct (quality_eqb (quality ev) strong) eqn:Q.
  - apply quality_eqb_eq in Q.
    rewrite (handleSubmitAnswer_strong p r ev ex st B Q). cbv zeta.
    fold (explanationRequest p r).
    destruct ex; cbn [snd]; intros [H|H]; try (left; now symmetry);
      apply in_app_or in H as [H|H];
      try (now destruct (pushQuality_effects r strong (submitted r st) req));
      destruct H as [H|[H|[]]]; try discriminate; right; now symmetry.
  - assert (Hq : quality ev <> strong).
    { intros Hq. rewrite Hq in Q. discriminate. }
    rewrite (handleSubmitAnswer_weak p r ev ex st B Hq). cbn [snd].
    intros [H|H]; [left; now symmetry|].
    apply in_app_or in H as [H|H];
      [now destruct (pushQuality_effects r (quality ev) (submitted r st) req)|].
    destruct (3 <=? r_currentAttempts r + 1); [|destruct H].
    destruct H as [H|[]]. discriminate.
Qed.

Lemma handleGetHint_requests p r reply st req :
  In (OracleCall req) (snd (handleGetHint p r reply st)) ->
  OracleCall req = hintCall p r /\ r_hintsUsed r < 3.
Proof.
  unfold handleGetHint. cbv zeta. fold (hintCall p r).
  destruct (3 <=? r_hintsUsed r) eqn:E; simpl orb; cbv iota; [intros []|].
  apply Z.leb_gt in E.
  destruct (falsy (r_currentQuestionText r) || falsy (pdfContent p)); [intros []|].
  destruct reply; cbn [snd]; intros [H|H].
  - split; [now symmetry | exact E].
  - destruct H.
  - split; [now symmetry | exact E].
  - destruct H as [H|[]]. discriminate.
Qed.

(** X15.  Every request a step of a session sends carries a difficulty
    from 1 to 4, and a request for a hint a hint number from 1 to 3: the
    services never reject a request of the page for its numbers.  This
    holds of the retries and of the timers too, which run with the
    values of an earlier render. *)
Theorem requests_in_range p sys e req :
  reachable p sys ->
  In (OracleCall req) (effectsOf p e sys) ->
  requestInRange req.
Proof.
  intros R. destruct (reachable_sane p sys R)
    as (Hd & Hh & _ & _ & _ & _ & _ & Hr & Ht).
  destruct e; simpl.
  - destruct (_ && _); [|intros []].
    intros H. apply showIntroExplanation_requests in H. injection H as ->. exact Hd.
  - intros H. apply handleSubmitAnswer_requests in H as [H|H];
      injection H as ->; exact Hd.
  - intros H. apply handleGetHint_requests in H as [H Hlt]. injection H as ->.
    simpl in *. split; [lia | exact Hd].
  - destruct (lastErrorAction (state sys)) as [[r|r]|]; [| |intros []]; simpl;
      intros H.
    + apply showIntroExplanation_requests in H. injection H as ->. exact Hr.
    + apply generateNextQuestion_requests in H. injection H as ->. exact Hr.
  - destruct confirmed; simpl; [intros [H|[H|[]]]; discriminate | intros []].
  - intros [].
  - destruct (nth_error (timers sys) i) as [t|] eqn:N; [|intros []].
    assert (Hrt : timerInRange t).
    { rewrite Forall_forall in Ht. apply Ht. exact (nth_error_In _ _ N). }
    destruct t as [r|r c|]; simpl; [| |intros []].
    + intros H. apply generateNextQuestion_requests in H. injection H as ->. exact Hrt.
    + rewrite advance_eq. cbn [snd]. intros H. apply in_app_or in H as [H|H].
      * destruct c; [destruct H as [H|[]]; discriminate | destruct H].
      * apply generateNextQuestion_requests in H. injection H as ->. exact Hrt.
Qed.

Lemma requests_in_range_witness :
  requestInRange
    (Call_generateHint (currentQuestionText (state sampleSystem))
       sampleAnswer 1 (pdfContent sampleProps) 1).
Proof.
  apply (requests_in_range sampleProps sampleSystem
           (ClickHint (Ok "Think of the chromosomes."))).
  - apply sampleSystem_reachable.
  - vm_compute. left. reflexivity.
Defined.

(** *** Retrying *)

Lemma markExplored_upd (ts : list string) (n : Z) (st : State) :
  markExplored ts n st = updExploredTopics (explore ts n) st.
Proof.
  destruct st. unfold markExplored, explore, updExploredTopics. simpl.
  destruct (0 <? Z.of_nat (List.length ts)); [|reflexivity].
  destruct (topicAt ts (topicIndex ts n)) as [t|]; [|reflexivity].
  destruct (falsy t); reflexivity.
Qed.

Lemma addTopic_idempotent (t : string) (l : list string) :
  addTopic t (addTopic t l) = addTopic t l.
Proof.
  unfold addTopic. destruct (existsb (String.eqb t) l) eqn:E.
  - now rewrite E.
  - rewrite existsb_app. simpl. now rewrite String.eqb_refl, orb_true_r.
Qed.

Lemma explore_idempotent (ts : list string) (n : Z) (l : list string) :
  explore ts n (explore ts n l) = explore ts n l.
Proof.
  unfold explore. destruct (0 <? Z.of_nat (List.length ts)); [|reflexivity].
  destruct (topicAt ts (topicIndex ts n)) as [t|]; [|reflexivity].
  destruct (falsy t); [reflexivity | apply addTopic_idempotent].
Qed.

Lemma State_ext (a b : State) :
  currentQuestionText a = currentQuestionText b ->
  currentQuestionNumber a = currentQuestionNumber b ->
  currentAttempts a = currentAttempts b ->
  hintsUsed a = hintsUsed b ->
  conversationHistory a = conversationHistory b ->
  isLoading a = isLoading b ->
  showHintButton a = showHintButton b ->
  currentDifficulty a = currentDifficulty b ->
  recentQualities a = recentQualities b ->
  messages a = messages b ->
  userAnswer a = userAnswer b ->
  error a = error b ->
  difficultyChanged a = difficultyChanged b ->
  exploredTopics a = exploredTopics b ->
  lastErrorAction a = lastErrorAction b ->
  hasShownIntro a = hasShownIntro b ->
  a = b.
Proof. destruct a, b. simpl. intros. now subst. Qed.

(** X16.  A question that fails leaves the question text, the history and
    the messages as they were, shows the error and keeps the retry; the
    retry sends the request that failed, and when it succeeds the state
    is the one a success at the first attempt would have given. *)
Theorem question_failure_then_retry p r m st :
  pdfContent p <> "" ->
  let failed := fst (generateNextQuestion p r (Err m) st) in
  currentQuestionText failed = currentQuestionText st
  /\ conversationHistory failed = conversationHistory st
  /\ messages failed = messages st
  /\ error failed = Some (shownError m)
  /\ lastErrorAction failed = Some (RetryQuestion r)
  /\ (forall reply,
         exists rest,
           snd (runRetry p (RetryQuestion r) reply failed) = questionCall p r :: rest)
  /\ (forall q,
         fst (runRetry p (RetryQuestion r) (Ok q) failed)
         = fst (generateNextQuestion p r (Ok q) st)).
Proof.
  intros Hc failed. subst failed. cbn [runRetry].
  rewrite !generateNextQuestion_eq by exact Hc. unfold asking.
  rewrite !markExplored_upd. cbn [fst snd].
  split; [reflexivity|]. split; [reflexivity|]. split; [reflexivity|].
  split; [reflexivity|]. split; [reflexivity|]. split.
  - intros reply. rewrite generateNextQuestion_eq by exact Hc.
    destruct reply; eexists; reflexivity.
  - intros q. rewrite !generateNextQuestion_eq by exact Hc. unfold asking.
    rewrite !markExplored_upd. cbn [fst].
    apply State_ext; try reflexivity. simpl. apply explore_idempotent.
Qed.

Lemma question_failure_then_retry_witness :
  let st := state sampleSystem in
  let r := render st in
  let failed := fst (generateNextQuestion sampleProps r (Err "quota exceeded") st) in
  error failed = Some rateLimitMessage
  /\ fst (runRetry sampleProps (RetryQuestion r) (Ok "What is meiosis?") failed)
     = fst (generateNextQuestion sampleProps r (Ok "What is meiosis?") st).
Proof.
  destruct (question_failure_then_retry sampleProps (render (state sampleSystem))
              "quota exceeded" (state sampleSystem))
    as (_ & _ & _ & H4 & _ & _ & H7).
  - discriminate.
  - split; [exact H4 | apply H7].
Defined.

(** X17.  An introduction that fails leaves the history, the messages and
    [hasShownIntro] as they were and sets no timer for the first
    question; a retry that succeeds does exactly what a success at the
    first attempt would have done. *)
Theorem intro_failure_then_retry p r m st :
  pdfContent p <> "" ->
  let failed := fst (showIntroExplanation p r (Err m) st) in
  conversationHistory failed = conversationHistory st
  /\ messages failed = messages st
  /\ hasShownIntro failed = hasShownIntro st
  /\ error failed = Some (shownError m)
  /\ lastErrorAction failed = Some (RetryIntro r)
  /\ timersOf (snd (showIntroExplanation p r (Err m) st)) = []
  /\ (forall intro,
         runRetry p (RetryIntro r) (Ok intro) failed
         = showIntroExplanation p r (Ok intro) st).
Proof.
  intros Hc failed. subst failed. cbn [runRetry].
  apply isEmpty_false in Hc. unfold showIntroExplanation, falsy. rewrite Hc.
  cbn [fst snd]. do 6 (split; [reflexivity|]).
  intros intro. reflexivity.
Qed.

Lemma intro_failure_then_retry_witness :
  let failed :=
    fst (showIntroExplanation sampleProps (render initialState)
           (Err "rate limit") initialState) in
  error failed = Some rateLimitMessage
  /\ runRetry sampleProps (RetryIntro (render initialState))
       (Ok "Cells divide.") failed
     = showIntroExplanation sampleProps (render initialState)
         (Ok "Cells divide.") initialState.
Proof.
  destruct (intro_failure_then_retry sampleProps (render initialState)
              "rate limit" initialState)
    as (_ & _ & _ & H4 & _ & _ & H7).
  - discriminate.
  - split; [exact H4 | apply H7].
Defined.

(** *** An explanation that fails *)

(** X18.  When the evaluation is [strong] and the explanation then fails,
    the evaluation stays counted: the window of qualities and the
    difficulty are those after the push, the answer stays in the
    history, the error is shown, and neither the attempts nor the
    question number change; no move to the next question is scheduled. *)
Theorem explanation_failure_keeps_evaluation p st ev m :
  blocked p (render st) = false ->
  quality ev = strong ->
  let r := render st in
  let failed := fst (handleSubmitAnswer p r (Ok ev) (Err m) st) in
  let w := lastThree (recentQualities st ++ [strong]) in
  recentQualities failed = (if adjusts (currentDifficulty st) w then [] else w)
  /\ currentDifficulty failed
     = currentDifficulty (fst (pushQuality r strong (submitted r st)))
  /\ error failed = Some m
  /\ conversationHistory failed = conversationHistory st ++ [answerTurn r]
  /\ currentAttempts failed = currentAttempts st
  /\ currentQuestionNumber failed = currentQuestionNumber st
  /\ (forall r' celebrate,
         ~ In (AdvanceTimer r' celebrate)
              (timersOf (snd (handleSubmitAnswer p r (Ok ev) (Err m) st)))).
Proof.
  intros B Q r failed w. subst failed w.
  pose proof (handleSubmitAnswer_window p r ev (Err m) st B) as W.
  cbv zeta in W. rewrite Q in W.
  rewrite (handleSubmitAnswer_strong p r ev (Err m) st B Q) in *. cbv zeta in *.
  destruct (pushQuality_frame r strong (submitted r st))
    as (_ & P2 & P3 & _ & P5 & _).
  cbn [fst snd] in *. simpl. rewrite P2, P3, P5.
  split; [exact W|]. repeat (split; [reflexivity|]).
  intros r' c H. rewrite timersOf_app_effects in H. simpl in H.
  rewrite app_nil_r in H.
  unfold pushQuality, checkAndAdjustDifficulty in H. cbv zeta in H.
  repeat match type of H with
         | context [if ?b then _ else _] => destruct b
         end; simpl in H; intuition discriminate.
Qed.

Lemma explanation_failure_keeps_evaluation_witness :
  let st := state sampleSystem in
  let failed :=
    fst (handleSubmitAnswer sampleProps (render st) (Ok strongEvaluation)
           (Err "network") st) in
  recentQualities failed = [strong]
  /\ error failed = Some "network"
  /\ currentQuestionNumber failed = 1.
Proof.
  destruct (explanation_failure_keeps_evaluation sampleProps (state sampleSystem)
              strongEvaluation "network" eq_refl eq_refl)
    as (H1 & _ & H3 & _ & _ & H6 & _).
  exact (conj H1 (conj H3 H6)).
Defined.

(** *** A new session *)

Lemma handleNewSession_state st :
  fst (handleNewSession true st)
  = (initialState |> setIsLoading (isLoading st)
                  |> setLastErrorAction (lastErrorAction st)
                  |> setHasShownIntro (hasShownIntro st)).
Proof. destruct st. reflexivity. Qed.

(** X19.  A confirmed new session puts every state variable back to its
    initial value, except [isLoading], [lastErrorAction] and
    [hasShownIntro], which it does not touch; confirming twice is
    confirming once, and a new session that is not confirmed changes
    nothing. *)
Theorem handleNewSession_resets st :
  fst (handleNewSession true st)
  = (initialState |> setIsLoading (isLoading st)
                  |> setLastErrorAction (lastErrorAction st)
                  |> setHasShownIntro (hasShownIntro st))
  /\ fst (handleNewSession true (fst (handleNewSession true st)))
     = fst (handleNewSession true st)
  /\ handleNewSession false st = (st, []).
Proof.
  split; [apply handleNewSession_state|]. split; [|reflexivity].
  rewrite !handleNewSession_state. reflexivity.
Qed.

(** *** The button and the guard *)

(** X20.  An answer that [handleSubmitAnswer] accepts has the length the
    submit button asks for: of the condition of the button only
    [isLoading] is not checked by the handler; the question and the
    content are not empty then. *)
Theorem accepted_answer_enables_submit p st :
  blocked p (render st) = false ->
  canSubmit st = negb (isLoading st)
  /\ currentQuestionText st <> ""
  /\ pdfContent p <> "".
Proof.
  intros B. apply blocked_false in B as [B1 B2].
  apply orb_false_iff in B2 as [B2 B3]. apply Z.ltb_ge in B1.
  split; [|split].
  - unfold canSubmit, minChars.
    pose proof (trim_length (userAnswer st)) as L. simpl in B1.
    destruct (Z.leb_spec 20 (JsString.length (userAnswer st))); [reflexivity | lia].
  - now apply isEmpty_false.
  - now apply isEmpty_false.
Qed.

Lemma accepted_answer_enables_submit_witness :
  canSubmit (state sampleSystem) = negb (isLoading (state sampleSystem))
  /\ currentQuestionText (state sampleSystem) <> ""
  /\ pdfContent sampleProps <> "".
Proof.
  apply (accepted_answer_enables_submit sampleProps (state sampleSystem)).
  reflexivity.
Defined.

(** *** No topics *)

(** X21.  Without topics no question has a focus topic, the introduction
    is asked for without one, and asking a question marks nothing as
    explored. *)
Theorem no_topics_no_focus p r reply st :
  topics p = [] ->
  focusTopic (topics p) (r_currentQuestionNumber r) = None
  /\ introCall p r
     = OracleCall (Call_generateIntroExplanation (pdfContent p)
                     (r_currentDifficulty r) None)
  /\ exploredTopics (fst (generateNextQuestion p r reply st)) = exploredTopics st.
Proof.
  intros E. unfold introCall, generateNextQuestion, markExplored. rewrite E.
  split; [|split].
  - unfold focusTopic, topicAt, topicIndex. simpl.
    destruct (Z.min _ _ <? 0); [reflexivity|].
    now destruct (Z.to_nat _).
  - reflexivity.
  - destruct (falsy (pdfContent p)); [reflexivity|]. now destruct reply.
Qed.

Lemma no_topics_no_focus_witness :
  focusTopic [] 1 = None
  /\ exploredTopics
       (fst (generateNextQuestion {| pdfContent := "Cells divide."; topics := [] |}
               (render initialState) (Ok "What divides?") initialState))
     = [].
Proof.
  destruct (no_topics_no_focus {| pdfContent := "Cells divide."; topics := [] |}
              (render initialState) (Ok "What divides?") initialState eq_refl)
    as (H1 & _ & H3).
  exact (conj H1 H3).
Defined.

(** *** The rate limit *)

Lemma shownError_wrapped (prefix m : string) :
  includes m "rate limit" = true \/ includes m "quota" = true ->
  shownError (prefix ++ m)%string = rateLimitMessage.
Proof.
  intros H. unfold shownError.
  destruct H as [H|H]; rewrite (includes_app_r _ _ _ H);
    [reflexivity | now rewrite orb_true_r].
Qed.

(** X22.  A failure of the model that mentions a rate limit or a quota is
    shown as the rate limit message although [generateSocraticQuestion]
    and [generateIntroExplanation] put their own words before the
    message. *)
Theorem rate_limit_reaches_the_learner p r st m :
  trim (pdfContent p) <> "" ->
  1 <= r_currentDifficulty r <= 4 ->
  includes m "rate limit" = true \/ includes m "quota" = true ->
  error (fst (generateNextQuestion p r
                (generateSocraticQuestion (pdfContent p) (r_currentDifficulty r)
                   (Err m)) st))
  = Some rateLimitMessage
  /\ error (fst (showIntroExplanation p r
                   (generateIntroExplanation (pdfContent p)
                      (r_currentDifficulty r) (Err m)) st))
     = Some rateLimitMessage.
Proof.
  intros Hc Hd Hm.
  assert (V : validateContent (pdfContent p) (r_currentDifficulty r) = Ok tt).
  { unfold validateContent. apply isEmpty_false in Hc. rewrite Hc.
    destruct (Z.ltb_spec (r_currentDifficulty r) 1); [lia|].
    destruct (Z.ltb_spec 4 (r_currentDifficulty r)); [lia|]. reflexivity. }
  assert (Hp : falsy (pdfContent p) = false).
  { unfold falsy. destruct (pdfContent p); [now elim Hc | reflexivity]. }
  unfold generateSocraticQuestion, generateIntroExplanation. rewrite V.
  cbn [bind rethrow].
  unfold generateNextQuestion, showIntroExplanation. rewrite Hp.
  cbv beta iota zeta. rewrite !shownError_wrapped by exact Hm.
  split; reflexivity.
Qed.

Lemma rate_limit_reaches_the_learner_witness :
  error (fst (generateNextQuestion sampleProps (render initialState)
                (generateSocraticQuestion (pdfContent sampleProps) 1
                   (Err "429: quota exceeded")) initialState))
  = Some rateLimitMessage.
Proof.
  apply (rate_limit_reaches_the_learner sampleProps (render initialState)
           initialState "429: quota exceeded").
  - discriminate.
  - simpl. lia.
  - right. reflexivity.
Defined.

End LearningInterfaceFacts.
